(** * Verification of the herblore profit scheduler (scripts/run_scheduler.py)

    A shallow embedding of the recipe valuation engine of
    [scripts/run_scheduler.py]: the numeric normalizer, the price index, the
    cost and revenue calculator, the recipe validator, the ranking of the two
    report tables and the webhook delivery step.

    Modelling choices, stated once:
    - a Python value read from JSON is a [pyval]; a JSON object is an
      association list in insertion order (its keys are distinct in Python);
    - a Python [float] is an IEEE 754 binary64 number, Rocq's primitive
      [float], with the same round-to-nearest-even operations;
    - a Python [int] is a [Z];
    - a Python [str] is a [string] of ASCII characters: [str.lower] maps the
      letters A to Z and whitespace is the ASCII whitespace;
    - an uncaught Python exception is the [Raise] case of [result];
    - the price index [Dict[str, float]] is a [gmap string float];
    - [sorted] is a stable sort that compares keys with [<]; on keys with a
      NaN its result is modelled up to permutation only;
    - the webhook is an oracle that answers the successive requests, and
      what the script posts, sleeps and prints is a trace of events. *)

From Stdlib Require Import ZArith List String Ascii Bool Lia Sorted Permutation.
From Stdlib Require Import Floats.
From Stdlib Require Import DecimalString DecimalN.
From stdpp Require Import gmap strings.

Set Warnings "-register-all,-inexact-float".

Local Open Scope string_scope.
Local Open Scope Z_scope.

(** ** Python runtime: values, exceptions and the builtins the script calls *)

Inductive pyval : Type :=
  | PNone
  | PBool (b : bool)
  | PInt (z : Z)
  | PFloat (f : float)
  | PStr (s : string)
  | PList (l : list pyval)
  | PDict (d : list (string * pyval)).

Inductive exn : Type :=
  | AttributeError
  | TypeError
  | ValueError
  | OverflowError
  | ZeroDivisionError
  | HTTPError (code : Z)
  | URLError.

Inductive result (A : Type) : Type :=
  | Ok (a : A)
  | Raise (e : exn).

Arguments Ok {A} a.
Arguments Raise {A} e.

Definition rbind {A B : Type} (m : result A) (k : A -> result B) : result B :=
  match m with
  | Ok a => k a
  | Raise e => Raise e
  end.

Notation "'let*' x ':=' m 'in' k" := (rbind m (fun x => k))
  (at level 10, x name, m at level 100, k at level 200).
Notation "'let*' ' p ':=' m 'in' k" := (rbind m (fun x => match x with p => k end))
  (at level 10, p pattern, m at level 100, k at level 200).

Definition is_ok {A : Type} (m : result A) : bool :=
  match m with Ok _ => true | Raise _ => false end.

Module Py.

(** [bool(v)]: Python truthiness. *)
Definition truthy (v : pyval) : bool :=
  match v with
  | PNone => false
  | PBool b => b
  | PInt z => negb (z =? 0)
  | PFloat f => negb (PrimFloat.eqb f 0%float)
  | PStr s => negb (String.eqb s "")
  | PList l => match l with [] => false | _ => true end
  | PDict d => match d with [] => false | _ => true end
  end.

(** [d.get(k, dflt)] on a dict. *)
Fixpoint assoc (d : list (string * pyval)) (k : string) : option pyval :=
  match d with
  | [] => None
  | (k', v) :: d' => if String.eqb k' k then Some v else assoc d' k
  end.

Definition dict_get (d : list (string * pyval)) (k : string) (dflt : pyval) : pyval :=
  match assoc d k with
  | Some v => v
  | None => dflt
  end.

(** [v.get(k, dflt)]: only a dict has the method. *)
Definition get (v : pyval) (k : string) (dflt : pyval) : result pyval :=
  match v with
  | PDict d => Ok (dict_get d k dflt)
  | _ => Raise AttributeError
  end.

(** [for m in v]: a list yields its elements, a dict its keys, a string its
    characters; nothing else is iterable. *)
Definition iter (v : pyval) : result (list pyval) :=
  match v with
  | PList l => Ok l
  | PDict d => Ok (map (fun kv => PStr (fst kv)) d)
  | PStr s => Ok (map (fun c => PStr (String c EmptyString)) (list_ascii_of_string s))
  | _ => Raise TypeError
  end.

(** [x or y] on values. *)
Definition por (x y : pyval) : pyval := if truthy x then x else y.

(** [c.lower()] on one ASCII character. *)
Definition lower_ascii (c : ascii) : ascii :=
  let n := N_of_ascii c in
  if ((65 <=? n) && (n <=? 90))%N then ascii_of_N (n + 32) else c.

(** [s.lower()]. *)
Fixpoint lower (s : string) : string :=
  match s with
  | EmptyString => EmptyString
  | String c s' => String (lower_ascii c) (lower s')
  end.

(** [s.startswith(p)]. *)
Definition startswith (s p : string) : bool := String.prefix p s.

(** [s.replace(",", "")]. *)
Fixpoint remove_commas (s : string) : string :=
  match s with
  | EmptyString => EmptyString
  | String c s' =>
      if Ascii.eqb c "," then remove_commas s' else String c (remove_commas s')
  end.

(** *** Numbers *)

(** [float(z)] for an int: the nearest binary64 number, ties to even;
    [OverflowError] when that is out of range. *)
Definition float_of_Z (z : Z) : result float :=
  match binary_normalize prec emax z 0 false with
  | S754_infinity _ => Raise OverflowError
  | sf => Ok (SF2Prim sf)
  end.

(** The integer part of a finite float, rounded toward zero ([int(f)]) or
    up ([math.ceil(f)]); [OverflowError] on an infinity, [ValueError] on a
    NaN, as Python raises them. *)
Definition int_of_float (f : float) : result Z :=
  match Prim2SF f with
  | S754_zero _ => Ok 0
  | S754_finite s m e =>
      let a := match e with
               | Zneg k => Z.shiftr (Zpos m) (Zpos k)
               | _ => Z.shiftl (Zpos m) e
               end in
      Ok (if s then - a else a)
  | S754_infinity _ => Raise OverflowError
  | S754_nan => Raise ValueError
  end.

Definition ceil (f : float) : result Z :=
  match Prim2SF f with
  | S754_zero _ => Ok 0
  | S754_finite s m e =>
      match e with
      | Zneg k =>
          if s then Ok (- (Zpos m / 2 ^ Zpos k))
          else Ok (- ((- Zpos m) / 2 ^ Zpos k))
      | _ => Ok (if s then - Z.shiftl (Zpos m) e else Z.shiftl (Zpos m) e)
      end
  | S754_infinity _ => Raise OverflowError
  | S754_nan => Raise ValueError
  end.

(** [f <= z] and [f > z] for a float and an int: Python compares the two
    numbers exactly; a NaN compares false. *)
Definition float_to_scaled (s : bool) (m : positive) : Z :=
  if s then Zneg m else Zpos m.

Definition float_le_int (f : float) (z : Z) : bool :=
  match Prim2SF f with
  | S754_nan => false
  | S754_infinity s => s
  | S754_zero _ => 0 <=? z
  | S754_finite s m e =>
      match e with
      | Zneg k => float_to_scaled s m <=? z * 2 ^ Zpos k
      | _ => float_to_scaled s m * 2 ^ e <=? z
      end
  end.

Definition float_gt_int (f : float) (z : Z) : bool :=
  match Prim2SF f with
  | S754_nan => false
  | S754_infinity s => negb s
  | S754_zero _ => z <? 0
  | S754_finite s m e =>
      match e with
      | Zneg k => z * 2 ^ Zpos k <? float_to_scaled s m
      | _ => z <? float_to_scaled s m * 2 ^ e
      end
  end.

(** [bool(f)] for a float: any number but the two zeros; a NaN is true. *)
Definition float_truthy (f : float) : bool := negb (PrimFloat.eqb f 0%float).

(** *** [float(s)] for a string

    The grammar of Python's [float]: surrounding whitespace, an optional
    sign, then [inf], [infinity] or [nan] in any letter case, or a decimal
    numeral with an optional fraction and exponent; an underscore may stand
    between two digits. The value is the nearest binary64 number. *)

Definition is_space (c : ascii) : bool :=
  let n := N_of_ascii c in (((9 <=? n) && (n <=? 13)) || (n =? 32))%N.

Definition is_digit (c : ascii) : bool :=
  let n := N_of_ascii c in ((48 <=? n) && (n <=? 57))%N.

Definition digit_val (c : ascii) : Z := Z.of_N (N_of_ascii c) - 48.

Fixpoint lstrip (s : string) : string :=
  match s with
  | String c s' => if is_space c then lstrip s' else s
  | EmptyString => EmptyString
  end.

Fixpoint rstrip (s : string) : string :=
  match s with
  | EmptyString => EmptyString
  | String c s' =>
      match rstrip s' with
      | EmptyString => if is_space c then EmptyString else String c EmptyString
      | r => String c r
      end
  end.

Definition strip (s : string) : string := rstrip (lstrip s).

(** [s.strip()] of the [str] type, whose ASCII whitespace also holds the
    four separator controls 28 to 31. *)
Definition is_space_str (c : ascii) : bool :=
  let n := N_of_ascii c in
  (((9 <=? n) && (n <=? 13)) || ((28 <=? n) && (n <=? 32)))%N.

Fixpoint str_lstrip (s : string) : string :=
  match s with
  | String c s' => if is_space_str c then str_lstrip s' else s
  | EmptyString => EmptyString
  end.

Fixpoint str_rstrip (s : string) : string :=
  match s with
  | EmptyString => EmptyString
  | String c s' =>
      match str_rstrip s' with
      | EmptyString => if is_space_str c then EmptyString else String c EmptyString
      | r => String c r
      end
  end.

Definition str_strip (s : string) : string := str_rstrip (str_lstrip s).

(** Every underscore stands right after a digit and right before one. *)
Fixpoint underscores_ok (prev_digit : bool) (s : string) : bool :=
  match s with
  | EmptyString => true
  | String c s' =>
      if Ascii.eqb c "_" then
        prev_digit
        && match s' with
           | String d _ => is_digit d
           | EmptyString => false
           end
        && underscores_ok false s'
      else underscores_ok (is_digit c) s'
  end.

Fixpoint remove_underscores (s : string) : string :=
  match s with
  | EmptyString => EmptyString
  | String c s' =>
      if Ascii.eqb c "_" then remove_underscores s'
      else String c (remove_underscores s')
  end.

(** Leading decimal digits of [s]: their value appended to [acc], how many
    there are, and the rest of the string. *)
Fixpoint digits (s : string) (acc : Z) (cnt : Z) : Z * Z * string :=
  match s with
  | String c s' =>
      if is_digit c then digits s' (10 * acc + digit_val c) (cnt + 1)
      else (acc, cnt, s)
  | EmptyString => (acc, cnt, s)
  end.

Definition sign_of (s : string) : bool * string :=
  match s with
  | String c s' =>
      if Ascii.eqb c "-" then (true, s')
      else if Ascii.eqb c "+" then (false, s')
      else (false, s)
  | EmptyString => (false, s)
  end.

(** The exponent part: [e] or [E], an optional sign, at least one digit,
    and nothing after it. An empty string is the exponent 0. *)
Definition exponent (s : string) : option Z :=
  match s with
  | EmptyString => Some 0
  | String c s' =>
      if Ascii.eqb (lower_ascii c) "e" then
        let '(neg, s1) := sign_of s' in
        match digits s1 0 0 with
        | (v, cnt, EmptyString) =>
            if 0 <? cnt then Some (if neg then - v else v) else None
        | _ => None
        end
      else None
  end.

(** [(-1)^neg * m * 10^e] rounded to the nearest binary64 number. *)
Definition decimal_to_float (neg : bool) (m : Z) (e : Z) : float :=
  match m with
  | Zpos p =>
      match e with
      | Zneg k =>
          SF2Prim (SFdiv prec emax (S754_finite neg p 0)
                                   (S754_finite false (10 ^ k)%positive 0))
      | _ => SF2Prim (binary_normalize prec emax (if neg then - (m * 10 ^ e) else m * 10 ^ e) 0 neg)
      end
  | _ => if neg then (-0)%float else 0%float
  end.

Definition float_of_string (s : string) : option float :=
  if negb (underscores_ok false s) then None else
  let '(neg, body) := sign_of (strip (remove_underscores s)) in
  let low := lower body in
  if String.eqb low "inf" || String.eqb low "infinity"
  then Some (if neg then neg_infinity else infinity)
  else if String.eqb low "nan" then Some nan
  else
    let '(ip, icnt, r1) := digits body 0 0 in
    let '(m, fcnt, r2) :=
      match r1 with
      | String c r1' => if Ascii.eqb c "." then digits r1' ip 0 else (ip, 0, r1)
      | EmptyString => (ip, 0, r1)
      end in
    if (icnt + fcnt =? 0) then None else
    match exponent r2 with
    | Some e => Some (decimal_to_float neg m (e - fcnt))
    | None => None
    end.

(** [float(v)] for any value. *)
Definition float_of_val (v : pyval) : result float :=
  match v with
  | PInt z => float_of_Z z
  | PBool b => Ok (if b then 1%float else 0%float)
  | PFloat f => Ok f
  | PStr s =>
      match float_of_string s with
      | Some f => Ok f
      | None => Raise ValueError
      end
  | _ => Raise TypeError
  end.

End Py.


(** ** Constants of the engine *)

Definition GE_TAX : float := 0.02%float.
Definition TAX_MULTIPLIER : float := (1.0 - GE_TAX)%float.
Definition AMULET_BONUS_DOSES : float := 0.15%float.
Definition GOGGLES_SECONDARY_MULT : float := 0.9%float.

Definition ALERT_GP_PER_HOUR : Z := 3000000.
Definition ALERT_XP_PER_HOUR : Z := 250000.

(** ** Numeric normalizer *)

(** [is_marker_missing], lines 50-55. *)
Definition is_marker_missing (value : pyval) : bool :=
  match value with
  | PNone => true
  | PStr s => Py.startswith s "__MISSING__" || Py.startswith s "__OCR_UNCERTAIN__"
  | _ => false
  end.

(** [safe_float], lines 58-69. [float(value)] for an int stands outside the
    [try] and may raise; a [bool] is an [int] to [isinstance]. *)
Definition safe_float (value : pyval) : result (option float) :=
  if is_marker_missing value then Ok None
  else match value with
       | PInt z => let* f := Py.float_of_Z z in Ok (Some f)
       | PBool b => Ok (Some (if b then 1%float else 0%float))
       | PFloat f => Ok (Some f)
       | PStr s => Ok (Py.float_of_string (Py.remove_commas s))
       | _ => Ok None
       end.

(** [safe_int], lines 72-79: [int(f)] inside the [try]. *)
Definition safe_int (value : pyval) : result (option Z) :=
  let* f := safe_float value in
  match f with
  | None => Ok None
  | Some x =>
      match Py.int_of_float x with
      | Ok z => Ok (Some z)
      | Raise _ => Ok None
      end
  end.

(** ** Price index *)

Definition container_keys : list string := ["items"; "data"; "prices"].
Definition name_keys : list string := ["name"; "item_name"].
Definition price_keys : list string :=
  ["price"; "ge_price"; "avg"; "value"; "high"; "low"].

(** The first candidate key of [item] that holds a string. *)
Fixpoint find_name (keys : list string) (item : list (string * pyval)) : option string :=
  match keys with
  | [] => None
  | nk :: keys' =>
      match Py.dict_get item nk PNone with
      | PStr s => Some s
      | _ => find_name keys' item
      end
  end.

(** The first candidate key of [item] that holds an int or a float, as a
    float. A [bool] is an [int] in Python. *)
Fixpoint find_price (keys : list string) (item : list (string * pyval)) : result (option float) :=
  match keys with
  | [] => Ok None
  | pk :: keys' =>
      match Py.dict_get item pk PNone with
      | PInt z => let* f := Py.float_of_Z z in Ok (Some f)
      | PBool b => Ok (Some (if b then 1%float else 0%float))
      | PFloat f => Ok (Some f)
      | _ => find_price keys' item
      end
  end.

(** One turn of the inner loop: an entry with a name and a price is stored
    under its name and under the lowercased name. *)
Definition add_item (name_to_price : gmap string float) (item : pyval)
  : result (gmap string float) :=
  match item with
  | PDict d =>
      let name := find_name name_keys d in
      let* price := find_price price_keys d in
      match name, price with
      | Some nm, Some p => Ok (<[Py.lower nm := p]> (<[nm := p]> name_to_price))
      | _, _ => Ok name_to_price
      end
  | _ => Ok name_to_price
  end.

Fixpoint add_items (name_to_price : gmap string float) (items : list pyval)
  : result (gmap string float) :=
  match items with
  | [] => Ok name_to_price
  | item :: items' =>
      let* m := add_item name_to_price item in
      add_items m items'
  end.

(** The containers to read: every one of [items], [data], [prices] that
    holds a dict, in that order, or the dump itself when there is none. *)
Fixpoint probe_containers (keys : list string) (dump : list (string * pyval))
  : list (list (string * pyval)) :=
  match keys with
  | [] => []
  | k :: keys' =>
      match Py.dict_get dump k PNone with
      | PDict v => v :: probe_containers keys' dump
      | _ => probe_containers keys' dump
      end
  end.

Fixpoint add_containers (name_to_price : gmap string float)
                        (containers : list (list (string * pyval)))
  : result (gmap string float) :=
  match containers with
  | [] => Ok name_to_price
  | c :: containers' =>
      let* m := add_items name_to_price (map snd c) in
      add_containers m containers'
  end.

(** The list [containers] after the fallback to the dump itself. *)
Definition containers_of (dump : list (string * pyval)) : list (list (string * pyval)) :=
  match probe_containers container_keys dump with
  | [] => [dump]
  | cs => cs
  end.

(** [build_name_to_price], lines 89-139. *)
Definition build_name_to_price (dump_obj : pyval) : result (gmap string float) :=
  match dump_obj with
  | PDict dump => add_containers ∅ (containers_of dump)
  | _ => Ok ∅
  end.

(** [price_of], lines 142-146. [a or b] is [a] unless [a] is [None] or a
    zero. A key that is a list or a dict cannot be hashed; a key that is
    neither that nor a string has no [lower]. *)
Definition price_of (name_to_price : gmap string float) (item_name : pyval)
  : result (option float) :=
  if negb (Py.truthy item_name) || is_marker_missing item_name then Ok None
  else match item_name with
       | PStr s =>
           match name_to_price !! s with
           | Some p =>
               if Py.float_truthy p then Ok (Some p)
               else Ok (name_to_price !! Py.lower s)
           | None => Ok (name_to_price !! Py.lower s)
           end
       | PList _ | PDict _ => Raise TypeError
       | _ => Raise AttributeError
       end.

(** [price_per_dose_of_output], lines 151-156. *)
Definition price_per_dose_of_output (name_to_price : gmap string float)
                                    (output_item_name : pyval)
  : result (option float) :=
  let* p4 := price_of name_to_price output_item_name in
  match p4 with
  | None => Ok None
  | Some p => Ok (Some (p / 4.0)%float)
  end.

(** ** Cost and revenue calculator *)

(** [float(n)] where [n] is an int or [None]. *)
Definition float_of_opt_int (n : option Z) : result float :=
  match n with
  | Some z => Py.float_of_Z z
  | None => Raise TypeError
  end.

(** The loop of [compute_material_cost], [total] being the running sum. *)
Fixpoint material_cost_loop (name_to_price : gmap string float) (mats : list pyval)
                            (n : option Z) (total : float) : result (option float) :=
  match mats with
  | [] => Ok (Some total)
  | m :: mats' =>
      let* item := Py.get m "ItemName" PNone in
      let* q := Py.get m "Quantity" PNone in
      let* qty := safe_float q in
      match (if is_marker_missing item then None else qty) with
      | None => Ok None
      | Some qty =>
          let* d1 := Py.get m "IsDoseScaledFromFour" (PBool false) in
          let* d2 := Py.get m "DoseScaledFromFourPerDose" (PBool false) in
          let is_dose_scaled := if Py.truthy d2 then true else Py.truthy d1 in
          if is_dose_scaled then
            let* p4 := price_of name_to_price item in
            match p4 with
            | None => Ok None
            | Some p4 =>
                let per_dose := (p4 / 4.0)%float in
                let* fn := float_of_opt_int n in
                material_cost_loop name_to_price mats' n
                  (total + per_dose * fn * qty)%float
            end
          else
            let* p := price_of name_to_price item in
            match p with
            | None => Ok None
            | Some p =>
                material_cost_loop name_to_price mats' n (total + p * qty)%float
            end
      end
  end.

(** [compute_material_cost], lines 159-198. *)
Definition compute_material_cost (name_to_price : gmap string float) (mats : list pyval)
                                 (recipe_type : pyval) (n : option Z)
  : result (option float) :=
  material_cost_loop name_to_price mats n 0.0%float.

(** ** Recipe validator and valuator *)

(** The dict [compute_recipe] returns. *)
Record EvaluatedRecipe : Type := {
  r_RecipeName : pyval;
  r_OutputItemName : pyval;
  r_RecipeType : pyval;
  r_N : option Z;
  r_XP_per_craft : option float;
  r_XP_per_hour : option float;
  r_crafts_per_hour : option float;
  r_profit_per_craft : option float;
  r_gp_per_hour : option float;
  r_valid : bool;
  r_invalid_reasons : list string;
  r_GogglesAllowed : bool
}.

(** The local variables of [compute_recipe] that the returned dict leaves
    out, as they stand at the [return]. *)
Record Locals : Type := {
  l_expected_doses : option float;
  l_base_cost : option float;
  l_secondary_cost : option float;
  l_total_cost : option float;
  l_price_per_dose : option float;
  l_revenue_before_tax : option float;
  l_revenue_after_tax : option float;
  l_is_alert : bool
}.

Definition is_list (v : pyval) : bool :=
  match v with PList _ => true | _ => false end.

(** [if cond: invalid_reasons.append(msg)]. *)
Definition append_if (cond : bool) (msg : string) (invalid_reasons : list string)
  : list string :=
  if cond then (invalid_reasons ++ [msg])%list else invalid_reasons.

Definition int_missing_or_nonpos (n : option Z) : bool :=
  match n with
  | None => true
  | Some z => z <=? 0
  end.

Definition float_missing_or_nonpos (x : option float) : bool :=
  match x with
  | None => true
  | Some f => Py.float_le_int f 0
  end.

(** The early price existence check over one materials list; [kind] is
    [base] or [secondary]. The result holds the reason of the first line
    that fails, if any. *)
Fixpoint early_price_check (kind : string) (name_to_price : gmap string float)
                           (mats : list pyval) : result (list string) :=
  match mats with
  | [] => Ok []
  | m :: mats' =>
      let* item := Py.get m "ItemName" PNone in
      if is_marker_missing item then
        Ok ["Missing " ++ kind ++ " material ItemName"]%string
      else
        match item with
        | PStr s =>
            match name_to_price !! Py.lower s with
            | None => Ok ["Missing price for " ++ kind ++ " material: '" ++ s ++ "'"]%string
            | Some _ => early_price_check kind name_to_price mats'
            end
        | _ => Raise AttributeError
        end
  end.

(** [a op b] where an operand may be [None]: Python raises [TypeError]. *)
Definition arith (op : float -> float -> float) (a b : option float) : result float :=
  match a, b with
  | Some x, Some y => Ok (op x y)
  | _, _ => Raise TypeError
  end.

(** [a / b]: Python raises [ZeroDivisionError] on a zero divisor. *)
Definition divide (a b : option float) : result float :=
  match a, b with
  | Some x, Some y =>
      if PrimFloat.eqb y 0%float then Raise ZeroDivisionError else Ok (x / y)%float
  | _, _ => Raise TypeError
  end.

Definition is_nil {A : Type} (l : list A) : bool :=
  match l with [] => true | _ => false end.

(** [x is None]. *)
Definition is_none {A : Type} (x : option A) : bool :=
  match x with None => true | Some _ => false end.

(** The checks on the recipe's own fields, each written twice in the
    source, in the order the source runs them. *)
Definition structural_reasons (base_mats sec_mats output_item_name : pyval)
                              (n : option Z) (xp_per_craft xp_per_hour : option float)
  : list string :=
  let bad_shape := negb (is_list base_mats) || negb (is_list sec_mats) in
  let invalid_reasons : list string := [] in
  let invalid_reasons := append_if bad_shape "Invalid materials list shape" invalid_reasons in
  let invalid_reasons := append_if (is_marker_missing output_item_name) "Missing OutputItemName" invalid_reasons in
  let invalid_reasons := append_if bad_shape "Invalid materials list shape" invalid_reasons in
  let invalid_reasons := append_if (is_marker_missing output_item_name) "Missing OutputItemName" invalid_reasons in
  let invalid_reasons := append_if (int_missing_or_nonpos n) "Missing/invalid N" invalid_reasons in
  let invalid_reasons := append_if (float_missing_or_nonpos xp_per_craft) "Missing/invalid XP_per_craft" invalid_reasons in
  let invalid_reasons := append_if (float_missing_or_nonpos xp_per_hour) "Missing/invalid XP_per_hour" invalid_reasons in
  let invalid_reasons := append_if (int_missing_or_nonpos n) "Missing/invalid N" invalid_reasons in
  let invalid_reasons := append_if (float_missing_or_nonpos xp_per_craft) "Missing/invalid XP_per_craft" invalid_reasons in
  let invalid_reasons := append_if (float_missing_or_nonpos xp_per_hour) "Missing/invalid XP_per_hour" invalid_reasons in
  invalid_reasons.

(** One early price existence check, run when no reason was found so far. *)
Definition early_check (kind : string) (name_to_price : gmap string float)
                       (mats : pyval) (invalid_reasons : list string)
  : result (list string) :=
  if is_nil invalid_reasons then
    let* ms := Py.iter mats in
    let* found := early_price_check kind name_to_price ms in
    Ok (invalid_reasons ++ found)%list
  else Ok invalid_reasons.

(** The block under [# Costs]: base cost, secondary cost, total cost and
    the reasons. *)
Definition costs (name_to_price : gmap string float) (base_mats sec_mats recipe_type : pyval)
                 (n : option Z) (goggles_allowed : bool) (invalid_reasons : list string)
  : result (option float * option float * option float * list string) :=
  if is_nil invalid_reasons then
    let* bms := Py.iter base_mats in
    let* base_cost := compute_material_cost name_to_price bms recipe_type n in
    let invalid_reasons :=
      append_if (is_none base_cost) "Missing price for base materials" invalid_reasons in
    let* sms := Py.iter sec_mats in
    let* secondary_cost := compute_material_cost name_to_price sms recipe_type n in
    let invalid_reasons :=
      append_if (is_none secondary_cost) "Missing price for secondary materials" invalid_reasons in
    match is_nil invalid_reasons, base_cost, secondary_cost with
    | true, Some b, Some s =>
        let sec_mult := if goggles_allowed then GOGGLES_SECONDARY_MULT else 1.0%float in
        Ok (base_cost, secondary_cost, Some (b + s * sec_mult)%float, invalid_reasons)
    | _, _, _ => Ok (base_cost, secondary_cost, None, invalid_reasons)
    end
  else Ok (None, None, None, invalid_reasons).

(** The block under [# Revenue]: price per dose, revenue before and after
    tax, and the reasons. *)
Definition revenue (name_to_price : gmap string float) (output_item_name : pyval)
                   (expected_doses : option float) (invalid_reasons : list string)
  : result (option float * option float * option float * list string) :=
  if is_nil invalid_reasons then
    let* price_per_dose := price_per_dose_of_output name_to_price output_item_name in
    match price_per_dose with
    | None =>
        Ok (None, None, None, (invalid_reasons ++ ["Missing price for output item"])%list)
    | Some _ =>
        let* revenue_before_tax := arith PrimFloat.mul price_per_dose expected_doses in
        let revenue_after_tax := (revenue_before_tax * TAX_MULTIPLIER)%float in
        Ok (price_per_dose, Some revenue_before_tax, Some revenue_after_tax, invalid_reasons)
    end
  else Ok (None, None, None, invalid_reasons).

(** The block under [# Profit + rates]: profit per craft, crafts per hour
    and gp per hour. *)
Definition profit_and_rates (revenue_after_tax total_cost xp_per_hour xp_per_craft : option float)
                            (invalid_reasons : list string)
  : result (option float * option float * option float) :=
  if is_nil invalid_reasons then
    let* profit_per_craft := arith PrimFloat.sub revenue_after_tax total_cost in
    let* crafts_per_hour := divide xp_per_hour xp_per_craft in
    let gp_per_hour := (profit_per_craft * crafts_per_hour)%float in
    Ok (Some profit_per_craft, Some crafts_per_hour, Some gp_per_hour)
  else Ok (None, None, None).

(** The alert flag, the local [is_alert]. *)
Definition alert_flag (valid : bool) (gp_per_hour xp_per_hour : option float) : bool :=
  match valid, gp_per_hour, xp_per_hour with
  | true, Some g, Some x =>
      Py.float_gt_int g ALERT_GP_PER_HOUR && Py.float_gt_int x ALERT_XP_PER_HOUR
  | _, _, _ => false
  end.

(** [compute_recipe], lines 201-329, returning the dict together with the
    locals it drops. *)
Definition compute_recipe_full (name_to_price : gmap string float) (recipe : pyval)
  : result (EvaluatedRecipe * Locals) :=
  let* recipe_name := Py.get recipe "RecipeName" (PStr "") in
  let* output_item_name := Py.get recipe "OutputItemName" (PStr "") in
  let* recipe_type := Py.get recipe "RecipeType" (PStr "") in
  let* raw_n := Py.get recipe "N" PNone in
  let* n := safe_int raw_n in
  let* raw_goggles := Py.get recipe "GogglesAllowed" (PBool false) in
  let goggles_allowed := Py.truthy raw_goggles in
  let* raw_xp_per_craft := Py.get recipe "XP_per_craft" PNone in
  let* xp_per_craft := safe_float raw_xp_per_craft in
  let* raw_xp_per_hour := Py.get recipe "XP_per_hour" PNone in
  let* xp_per_hour := safe_float raw_xp_per_hour in
  let* raw_base := Py.get recipe "BaseMaterials" PNone in
  let base_mats := Py.por raw_base (PList []) in
  let* raw_sec := Py.get recipe "SecondaryMaterials" PNone in
  let sec_mats := Py.por raw_sec (PList []) in
  let invalid_reasons :=
    structural_reasons base_mats sec_mats output_item_name n xp_per_craft xp_per_hour in
  let* invalid_reasons := early_check "base" name_to_price base_mats invalid_reasons in
  let* invalid_reasons := early_check "secondary" name_to_price sec_mats invalid_reasons in
  let* expected_doses :=
    match n with
    | Some z => let* fn := Py.float_of_Z z in Ok (Some (fn + AMULET_BONUS_DOSES)%float)
    | None => Ok None
    end in
  let* '(base_cost, secondary_cost, total_cost, invalid_reasons) :=
    costs name_to_price base_mats sec_mats recipe_type n goggles_allowed invalid_reasons in
  let* '(price_per_dose, revenue_before_tax, revenue_after_tax, invalid_reasons) :=
    revenue name_to_price output_item_name expected_doses invalid_reasons in
  let* '(profit_per_craft, crafts_per_hour, gp_per_hour) :=
    profit_and_rates revenue_after_tax total_cost xp_per_hour xp_per_craft invalid_reasons in
  let valid := (length invalid_reasons =? 0)%nat in
  let is_alert := alert_flag valid gp_per_hour xp_per_hour in
  Ok ({| r_RecipeName := recipe_name;
         r_OutputItemName := output_item_name;
         r_RecipeType := recipe_type;
         r_N := n;
         r_XP_per_craft := xp_per_craft;
         r_XP_per_hour := xp_per_hour;
         r_crafts_per_hour := crafts_per_hour;
         r_profit_per_craft := profit_per_craft;
         r_gp_per_hour := gp_per_hour;
         r_valid := valid;
         r_invalid_reasons := invalid_reasons;
         r_GogglesAllowed := goggles_allowed |},
      {| l_expected_doses := expected_doses;
         l_base_cost := base_cost;
         l_secondary_cost := secondary_cost;
         l_total_cost := total_cost;
         l_price_per_dose := price_per_dose;
         l_revenue_before_tax := revenue_before_tax;
         l_revenue_after_tax := revenue_after_tax;
         l_is_alert := is_alert |}).

(** [compute_recipe]: the dict alone. *)
Definition compute_recipe (name_to_price : gmap string float) (recipe : pyval)
  : result EvaluatedRecipe :=
  let* full := compute_recipe_full name_to_price recipe in
  Ok (fst full).

(** ** Ranking: the two tables of [main] *)

(** The recipe [main] drops before evaluation. [str(v)] of a value that is
    not a string is never that name. *)
Definition is_surge_potion (r : pyval) : result bool :=
  let* name := Py.get r "RecipeName" (PStr "") in
  match name with
  | PStr s => Ok (String.eqb (Py.lower (Py.str_strip s)) "surge potion")
  | _ => Ok false
  end.

(** The comprehension of line 422. *)
Fixpoint drop_surge_potion (recipes : list pyval) : result (list pyval) :=
  match recipes with
  | [] => Ok []
  | r :: recipes' =>
      let* surge := is_surge_potion r in
      let* rest := drop_surge_potion recipes' in
      Ok (if surge then rest else r :: rest)
  end.

(** The comprehension of line 429. *)
Fixpoint compute_all (name_to_price : gmap string float) (recipes : list pyval)
  : result (list EvaluatedRecipe) :=
  match recipes with
  | [] => Ok []
  | r :: recipes' =>
      let* c := compute_recipe name_to_price r in
      let* cs := compute_all name_to_price recipes' in
      Ok (c :: cs)
  end.

(** [sort_key], lines 432-436. *)
Definition sort_key (r : EvaluatedRecipe) : float :=
  match r_valid r, r_gp_per_hour r with
  | true, Some v => v
  | _, _ => neg_infinity
  end.

(** [sorted(l, key=key, reverse=True)]: a stable sort into descending order
    of the keys, which compares keys with [<] only. On keys without a NaN
    every stable sort returns the same list; this one inserts each element,
    from the last to the first, before the first element whose key is not
    greater. With a NaN among the keys [<] is no order, and the list CPython
    returns depends on how its sort merges: it is a permutation of [l] and
    need not be this one. So this definition stands for [sorted] as it is on
    keys without a NaN, and up to permutation otherwise; what is proved of
    the order of Table A assumes keys without a NaN. *)
Section Sorted.
Context {A : Type} (key : A -> float).

Fixpoint insert_desc (x : A) (l : list A) : list A :=
  match l with
  | [] => [x]
  | y :: l' =>
      if PrimFloat.ltb (key x) (key y) then y :: insert_desc x l' else x :: l
  end.

Definition sorted_desc (l : list A) : list A := fold_right insert_desc [] l.
End Sorted.

(** Line 438. *)
Definition table_a (computed : list EvaluatedRecipe) : list EvaluatedRecipe :=
  sorted_desc sort_key computed.

(** The condition of the comprehension that builds [table_b]. *)
Definition table_b_keeps (r : EvaluatedRecipe) : bool :=
  r_valid r
  && negb (is_none (r_gp_per_hour r))
  && negb (is_none (r_XP_per_hour r))
  && match r_gp_per_hour r, r_XP_per_hour r with
     | Some g, Some x =>
         Py.float_gt_int g ALERT_GP_PER_HOUR && Py.float_gt_int x ALERT_XP_PER_HOUR
     | _, _ => false
     end.

(** Lines 441-442. *)
Definition table_b (table_a : list EvaluatedRecipe) : list EvaluatedRecipe :=
  List.filter table_b_keeps table_a.

(** The part of [main] from the catalog and the price dump to the tables. *)
Definition run_tables (dump : pyval) (recipes : list pyval)
  : result (list EvaluatedRecipe * list EvaluatedRecipe) :=
  let* recipes := drop_surge_potion recipes in
  let* name_to_price := build_name_to_price dump in
  let* computed := compute_all name_to_price recipes in
  let ta := table_a computed in
  Ok (ta, table_b ta).

(** ** Webhook delivery

    The network is an oracle: [server k] is what the [k]-th request of the
    run meets. What the script does to the outside is a trace of events. *)

Definition DISCORD_CONTENT_LIMIT : nat := 1900.

Inductive response : Type :=
  | Resp_ok
  (** an HTTP error status: [e.code], [e.reason], the body as text and the
      body as [json.loads] reads it ([None] when that raises) *)
  | Resp_http_error (code : Z) (reason : string) (body : string) (json : option pyval)
  (** a failure that is no HTTP response: [URLError], a timeout *)
  | Resp_url_error.

Inductive event : Type :=
  | Ev_post (chunk : string)
  | Ev_sleep (seconds : Z)
  | Ev_print (code : Z) (reason : string) (body : string).

(** [content[i:i + limit] for i in range(0, len(content), limit)], reading
    [content] once: [cur] holds the characters of the chunk being filled, in
    reverse, and [cnt] their number. *)
Fixpoint chunks_from (limit : nat) (cnt : nat) (cur : list ascii) (content : list ascii)
  : list string :=
  match content with
  | [] => match cur with
          | [] => []
          | _ => [string_of_list_ascii (rev cur)]
          end
  | c :: content' =>
      if (cnt =? limit)%nat
      then string_of_list_ascii (rev cur) :: chunks_from limit 1 [c] content'
      else chunks_from limit (S cnt) (c :: cur) content'
  end.

Definition chunks_of (content : string) : list string :=
  match chunks_from DISCORD_CONTENT_LIMIT 0 [] (list_ascii_of_string content) with
  | [] => ["(empty)"]
  | cs => cs
  end.

(** The delay before the retry: 2 unless the body gives one. *)
Definition retry_after_of (json : option pyval) : Z :=
  match json with
  | Some j =>
      match (let* v := Py.get j "retry_after" (PInt 2) in
             let* f := Py.float_of_val v in
             Py.ceil f) with
      | Ok z => Z.max 1 z
      | Raise _ => 2
      end
  | None => 2
  end.

(** The loop of [discord_post] from request number [k] on. The result is
    how the function ends, the number of requests made and the trace. *)
Fixpoint post_chunks (server : nat -> response) (chunks : list string)
                     (k : nat) (trace : list event)
  : result unit * nat * list event :=
  match chunks with
  | [] => (Ok tt, k, trace)
  | chunk :: chunks' =>
      let trace := (trace ++ [Ev_post chunk])%list in
      match server k with
      | Resp_ok => post_chunks server chunks' (S k) trace
      | Resp_url_error => (Raise URLError, S k, trace)
      | Resp_http_error code reason body json =>
          if code =? 429 then
            let trace := (trace ++ [Ev_sleep (retry_after_of json); Ev_post chunk])%list in
            match server (S k) with
            | Resp_ok => post_chunks server chunks' (S (S k)) trace
            | Resp_http_error code' _ _ _ => (Raise (HTTPError code'), S (S k), trace)
            | Resp_url_error => (Raise URLError, S (S k), trace)
            end
          else (Ok tt, S k, (trace ++ [Ev_print code reason body])%list)
      end
  end.

(** [discord_post], lines 367-403. *)
Definition discord_post (server : nat -> response) (content : string)
  : result unit * nat * list event :=
  post_chunks server (chunks_of content) 0%nat [].

(** The end of [main], lines 502-526: the delivery when a webhook is
    configured, then [return 0]. An exception that leaves [main] ends the run with a failure
    status. *)
Definition main_delivery (webhook : string) (server : nat -> response) (content : string)
  : result Z * list event :=
  if String.eqb (Py.str_strip webhook) "" then (Ok 0, [])
  else
    let '(r, _, trace) := discord_post server content in
    (let* _ := r in Ok 0, trace).

(** ** Definitions the statements use

    Views of the data the functions read, the checks and conditions in the
    words of the specification, and the order of floats. *)

(** The five checks on the recipe's own fields. *)
Inductive structural_check : Type :=
  | Check_shape
  | Check_output_name
  | Check_N
  | Check_XP_per_craft
  | Check_XP_per_hour.

Definition check_reason (c : structural_check) : string :=
  match c with
  | Check_shape => "Invalid materials list shape"
  | Check_output_name => "Missing OutputItemName"
  | Check_N => "Missing/invalid N"
  | Check_XP_per_craft => "Missing/invalid XP_per_craft"
  | Check_XP_per_hour => "Missing/invalid XP_per_hour"
  end.

Definition check_fails (c : structural_check)
                       (base_mats sec_mats output_item_name : pyval)
                       (n : option Z) (xp_per_craft xp_per_hour : option float) : bool :=
  match c with
  | Check_shape => negb (is_list base_mats) || negb (is_list sec_mats)
  | Check_output_name => is_marker_missing output_item_name
  | Check_N => int_missing_or_nonpos n
  | Check_XP_per_craft => float_missing_or_nonpos xp_per_craft
  | Check_XP_per_hour => float_missing_or_nonpos xp_per_hour
  end.

(** The materials lists as [compute_recipe] reads them from a recipe dict. *)
Definition base_mats_of (d : list (string * pyval)) : pyval :=
  Py.por (Py.dict_get d "BaseMaterials" PNone) (PList []).

Definition sec_mats_of (d : list (string * pyval)) : pyval :=
  Py.por (Py.dict_get d "SecondaryMaterials" PNone) (PList []).

(** [x > t] for a field that may be absent: an absent field is not above
    any threshold. *)
Definition above (x : option float) (t : Z) : bool :=
  match x with
  | Some f => Py.float_gt_int f t
  | None => false
  end.

(** The alert condition in the spec's words: valid, gp per hour above
    3,000,000 and XP per hour above 250,000. *)
Definition alert_condition (r : EvaluatedRecipe) : bool :=
  r_valid r
  && above (r_gp_per_hour r) 3000000
  && above (r_XP_per_hour r) 250000.

(** What [compute_material_cost] reads from one material line. *)
Definition line_item (m : pyval) : pyval :=
  match m with
  | PDict d => Py.dict_get d "ItemName" PNone
  | _ => PNone
  end.

Definition line_quantity (m : pyval) : option float :=
  match m with
  | PDict d =>
      match safe_float (Py.dict_get d "Quantity" PNone) with
      | Ok q => q
      | Raise _ => None
      end
  | _ => None
  end.

Definition line_dose_scaled (m : pyval) : bool :=
  match m with
  | PDict d =>
      Py.truthy (Py.dict_get d "IsDoseScaledFromFour" (PBool false))
      || Py.truthy (Py.dict_get d "DoseScaledFromFourPerDose" (PBool false))
  | _ => false
  end.

Definition line_price (name_to_price : gmap string float) (m : pyval) : option float :=
  match price_of name_to_price (line_item m) with
  | Ok p => p
  | Raise _ => None
  end.

(** A material line of the data model: a dict whose item name is a string
    or null and whose quantity [safe_float] can read. *)
Definition line_well_formed (m : pyval) : bool :=
  match m with
  | PDict d =>
      match Py.dict_get d "ItemName" PNone with
      | PNone | PStr _ => is_ok (safe_float (Py.dict_get d "Quantity" PNone))
      | _ => false
      end
  | _ => false
  end.

(** The specification's words: a line makes the cost absent when its item name is
    missing, its quantity is unparsable or its item has no price. *)
Definition line_absent (name_to_price : gmap string float) (m : pyval) : bool :=
  is_marker_missing (line_item m)
  || is_none (line_quantity m)
  || is_none (line_price name_to_price m).

(** The specification's words: a dose-scaled line contributes (price / 4) * N *
    quantity, a normal line price * quantity. *)
Definition line_contribution (name_to_price : gmap string float) (fn : float) (m : pyval)
  : float :=
  match line_price name_to_price m, line_quantity m with
  | Some p, Some q =>
      if line_dose_scaled m then (p / 4.0 * fn * q)%float else (p * q)%float
  | _, _ => 0%float
  end.

Definition material_cost_spec (name_to_price : gmap string float) (fn : float)
                              (mats : list pyval) : option float :=
  if existsb (line_absent name_to_price) mats then None
  else Some (fold_left (fun total m => (total + line_contribution name_to_price fn m)%float)
               mats 0.0%float).

(** A recipe of the data model: its numeric fields can be normalized, its
    output name is a string or null, and each materials list that is a list
    holds material lines of the data model. *)
Definition mats_well_formed (mats : pyval) : bool :=
  match mats with
  | PList l => forallb line_well_formed l
  | _ => true
  end.

Definition recipe_well_formed (d : list (string * pyval)) : bool :=
  match safe_int (Py.dict_get d "N" PNone) with
  | Ok (Some z) => is_ok (Py.float_of_Z z)
  | Ok None => true
  | Raise _ => false
  end
  && is_ok (safe_float (Py.dict_get d "XP_per_craft" PNone))
  && is_ok (safe_float (Py.dict_get d "XP_per_hour" PNone))
  && match Py.dict_get d "OutputItemName" (PStr "") with
     | PNone | PStr _ => true
     | _ => false
     end
  && mats_well_formed (base_mats_of d)
  && mats_well_formed (sec_mats_of d).

(** A position on the number line for every float but the NaN: the class
    (negative infinity, negative, zero, positive, positive infinity), then
    exponent and mantissa, negated for the negative numbers. *)
Definition sf_rank (f : spec_float) : Z * Z * Z :=
  match f with
  | S754_infinity true => (-2, 0, 0)
  | S754_finite true m e => (-1, - e, Zneg m)
  | S754_zero _ => (0, 0, 0)
  | S754_finite false m e => (1, e, Zpos m)
  | S754_infinity false => (2, 0, 0)
  | S754_nan => (3, 0, 0)
  end.

Definition rank_lt (a b : Z * Z * Z) : Prop :=
  let '(a1, a2, a3) := a in
  let '(b1, b2, b3) := b in
  a1 < b1 \/ (a1 = b1 /\ (a2 < b2 \/ (a2 = b2 /\ a3 < b3))).

(** [a] may stand before [b]: the key of [a] is not below the key of [b]. *)
Definition not_below {A : Type} (key : A -> float) (a b : A) : Prop :=
  PrimFloat.ltb (key a) (key b) = false.

(** ** Example data *)

(** A recipe without an output name, and the record [compute_recipe] returns
    for it against an empty price index. *)
Definition nameless_recipe : pyval :=
  PDict [("RecipeName", PStr "Nameless brew");
         ("OutputItemName", PStr "__MISSING__output");
         ("RecipeType", PStr "potion");
         ("N", PInt 3);
         ("XP_per_craft", PFloat 87.5);
         ("XP_per_hour", PInt 210000);
         ("BaseMaterials", PList []);
         ("SecondaryMaterials", PList [])].

Definition nameless_result : EvaluatedRecipe :=
  {| r_RecipeName := PStr "Nameless brew";
     r_OutputItemName := PStr "__MISSING__output";
     r_RecipeType := PStr "potion";
     r_N := Some 3;
     r_XP_per_craft := Some 87.5%float;
     r_XP_per_hour := Some 210000%float;
     r_crafts_per_hour := None;
     r_profit_per_craft := None;
     r_gp_per_hour := None;
     r_valid := false;
     r_invalid_reasons := ["Missing OutputItemName"; "Missing OutputItemName"];
     r_GogglesAllowed := false |}.

(** A recipe dict that fails three structural checks at once: the base
    materials are a dict, N is zero and XP_per_craft is marked missing. *)
Definition broken_fields : list (string * pyval) :=
  [("RecipeName", PStr "Broken mix");
   ("OutputItemName", PStr "Mix(4)");
   ("N", PInt 0);
   ("XP_per_craft", PStr "__MISSING__");
   ("XP_per_hour", PStr "1,200");
   ("BaseMaterials", PDict [("ItemName", PStr "Herb")]);
   ("SecondaryMaterials", PList [])].

(** A price dump with its entries under [data], the index built from it,
    and a recipe with the numbers of the worked example. *)
Definition example_dump : pyval :=
  PDict [("data",
          PDict [("101", PDict [("name", PStr "Grimy herb"); ("price", PInt 400)]);
                 ("102", PDict [("name", PStr "Crushed shell"); ("price", PInt 100)]);
                 ("103", PDict [("name", PStr "Tonic(4)"); ("price", PInt 200)]);
                 ("104", PDict [("name", PStr "Elixir(4)"); ("price", PFloat 12000)])])].

Definition example_index : gmap string float :=
  <["elixir(4)" := 12000%float]> (<["Elixir(4)" := 12000%float]>
  (<["tonic(4)" := 200%float]> (<["Tonic(4)" := 200%float]>
  (<["crushed shell" := 100%float]> (<["Crushed shell" := 100%float]>
  (<["grimy herb" := 400%float]> (<["Grimy herb" := 400%float]> ∅))))))).

Definition example_base_mats : list pyval :=
  [PDict [("ItemName", PStr "Grimy herb"); ("Quantity", PInt 1)]].

Definition example_sec_mats : list pyval :=
  [PDict [("ItemName", PStr "Crushed shell"); ("Quantity", PInt 1)]].

Definition example_fields : list (string * pyval) :=
  [("RecipeName", PStr "Tonic");
   ("OutputItemName", PStr "Tonic(4)");
   ("RecipeType", PStr "potion");
   ("N", PInt 4);
   ("GogglesAllowed", PBool false);
   ("XP_per_craft", PInt 50);
   ("XP_per_hour", PInt 2000);
   ("BaseMaterials", PList example_base_mats);
   ("SecondaryMaterials", PList example_sec_mats)].

(** A recipe that alerts: 4,000 crafts per hour at a profit of about 11,711. *)
Definition elixir_fields : list (string * pyval) :=
  [("RecipeName", PStr "Elixir");
   ("OutputItemName", PStr "Elixir(4)");
   ("RecipeType", PStr "potion");
   ("N", PInt 4);
   ("GogglesAllowed", PBool true);
   ("XP_per_craft", PInt 100);
   ("XP_per_hour", PStr "400,000");
   ("BaseMaterials", PList example_base_mats);
   ("SecondaryMaterials", PList example_sec_mats)].

Definition elixir_result : EvaluatedRecipe :=
  {| r_RecipeName := PStr "Elixir";
     r_OutputItemName := PStr "Elixir(4)";
     r_RecipeType := PStr "potion";
     r_N := Some 4;
     r_XP_per_craft := Some 100%float;
     r_XP_per_hour := Some 400000%float;
     r_crafts_per_hour := Some 4000%float;
     r_profit_per_craft := Some 11711.000000000002%float;
     r_gp_per_hour := Some 46844000.000000007%float;
     r_valid := true;
     r_invalid_reasons := [];
     r_GogglesAllowed := true |}.

Definition elixir_locals : Locals :=
  {| l_expected_doses := Some 4.15%float;
     l_base_cost := Some 400%float;
     l_secondary_cost := Some 100%float;
     l_total_cost := Some 490%float;
     l_price_per_dose := Some 3000%float;
     l_revenue_before_tax := Some 12450.000000000002%float;
     l_revenue_after_tax := Some 12201.000000000002%float;
     l_is_alert := true |}.

(** A valid recipe whose cost overflows: 1e308 herbs at 400 each cost
    [infinity], so its profit and its gp per hour are [neg_infinity]. *)
Definition bulk_fields : list (string * pyval) :=
  [("RecipeName", PStr "Bulk tonic");
   ("OutputItemName", PStr "Tonic(4)");
   ("RecipeType", PStr "potion");
   ("N", PInt 1);
   ("XP_per_craft", PInt 1);
   ("XP_per_hour", PInt 1);
   ("BaseMaterials",
    PList [PDict [("ItemName", PStr "Grimy herb"); ("Quantity", PFloat 1e308)]]);
   ("SecondaryMaterials", PList [])].

Definition bulk_result : EvaluatedRecipe :=
  {| r_RecipeName := PStr "Bulk tonic";
     r_OutputItemName := PStr "Tonic(4)";
     r_RecipeType := PStr "potion";
     r_N := Some 1;
     r_XP_per_craft := Some 1%float;
     r_XP_per_hour := Some 1%float;
     r_crafts_per_hour := Some 1%float;
     r_profit_per_craft := Some neg_infinity;
     r_gp_per_hour := Some neg_infinity;
     r_valid := true;
     r_invalid_reasons := [];
     r_GogglesAllowed := false |}.

(** Two priced lines, the first dose-scaled, and the same with a line whose
    item name is marked missing put in between. *)
Definition priced_mats : list pyval :=
  [PDict [("ItemName", PStr "Tonic(4)"); ("Quantity", PInt 2);
          ("IsDoseScaledFromFour", PBool true)];
   PDict [("ItemName", PStr "grimy herb"); ("Quantity", PStr "1")]].

Definition gapped_mats : list pyval :=
  [PDict [("ItemName", PStr "Tonic(4)"); ("Quantity", PInt 2);
          ("IsDoseScaledFromFour", PBool true)];
   PDict [("ItemName", PStr "__MISSING__"); ("Quantity", PInt 1)];
   PDict [("ItemName", PStr "grimy herb"); ("Quantity", PStr "1")]].

(** A dump that prices [Ale] at zero and [ale] at five. *)
Definition ale_dump : pyval :=
  PDict [("1", PDict [("name", PStr "Ale"); ("price", PInt 0)]);
         ("2", PDict [("name", PStr "ale"); ("price", PInt 5)])].

Definition ale_index : gmap string float :=
  <["ale" := 5%float]> (<["Ale" := 0%float]> ∅).

(** The dump of the spec's example: one entry under [data]. *)
Definition ranarr_dump : pyval :=
  PDict [("data",
          PDict [("123", PDict [("name", PStr "Ranarr potion(4)"); ("price", PInt 100)])])].

(** A server that answers the first request with a rate limit and every
    later one with an internal error. *)
Definition flaky_server (k : nat) : response :=
  match k with
  | O => Resp_http_error 429 "Too Many Requests" "{retry_after: 0.3}"
           (Some (PDict [("retry_after", PFloat 0.3)]))
  | _ => Resp_http_error 500 "Internal Server Error" "" None
  end.

(** ** Definitions for the further properties *)

(** Strings put end to end. *)
Definition joined (parts : list string) : string :=
  fold_right String.append "" parts.

(** The chunks a trace posted, in order, and the delays it slept. *)
Fixpoint posted (trace : list event) : list string :=
  match trace with
  | [] => []
  | Ev_post chunk :: trace' => chunk :: posted trace'
  | _ :: trace' => posted trace'
  end.

Fixpoint slept (trace : list event) : list Z :=
  match trace with
  | [] => []
  | Ev_sleep seconds :: trace' => seconds :: slept trace'
  | _ :: trace' => slept trace'
  end.

(** A server that accepts every request. *)
Definition steady_server (k : nat) : response := Resp_ok.

(** A server that accepts the first request and forbids the second. *)
Definition closing_server (k : nat) : response :=
  match k with
  | 1%nat => Resp_http_error 403 "Forbidden" "no access" None
  | _ => Resp_ok
  end.

(** A report of 4000 characters: three chunks. *)
Definition long_report : string := string_of_list_ascii (repeat "x"%char 4000).

(** Where a key of the index comes from: an entry of [items] whose name, as
    it is or lowercased, is the key and whose price is the value. *)
Definition written_by (items : list pyval) (k : string) (p : float) : Prop :=
  exists d nm,
    In (PDict d) items
    /\ find_name name_keys d = Some nm
    /\ find_price price_keys d = Ok (Some p)
    /\ (k = nm \/ k = Py.lower nm).

(** The name [main] tests before it evaluates a recipe, and the test. *)
Definition recipe_name (recipe : pyval) : pyval :=
  match recipe with
  | PDict d => Py.dict_get d "RecipeName" (PStr "")
  | _ => PNone
  end.

Definition surge_name (name : pyval) : bool :=
  match name with
  | PStr s => String.eqb (Py.lower (Py.str_strip s)) "surge potion"
  | _ => false
  end.

(** A recipe [main] drops, and the record of the worked example. *)
Definition surge_fields : list (string * pyval) :=
  [("RecipeName", PStr "  Surge Potion "); ("OutputItemName", PStr "Tonic(4)")].

Definition tonic_result : EvaluatedRecipe :=
  {| r_RecipeName := PStr "Tonic";
     r_OutputItemName := PStr "Tonic(4)";
     r_RecipeType := PStr "potion";
     r_N := Some 4;
     r_XP_per_craft := Some 50%float;
     r_XP_per_hour := Some 2000%float;
     r_crafts_per_hour := Some 40%float;
     r_profit_per_craft := Some (-296.65)%float;
     r_gp_per_hour := Some (-11866)%float;
     r_valid := true;
     r_invalid_reasons := [];
     r_GogglesAllowed := false |}.

(** ** Report rendering: [fmt_num] and [markdown_table]

    Python's number formatting, for the two forms the script uses: an int
    with thousands separators, and a float in fixed point with thousands
    separators, rounded half to even on its exact value. *)

Module PyFormat.

(** The decimal digits of a natural number. *)
Definition dec (n : N) : string := NilEmpty.string_of_uint (N.to_uint n).

(** A comma before every group of three characters counted from the right;
    [k] characters are still to come, the current one included. *)
Fixpoint group (k : nat) (s : string) : string :=
  match s with
  | EmptyString => EmptyString
  | String c s' =>
      let k' := pred k in
      String c (if (0 <? k')%nat && (k' mod 3 =? 0)%nat
                then String "," (group k' s')
                else group k' s')
  end.

Definition with_commas (s : string) : string := group (String.length s) s.

(** [format(z, ",")]. *)
Definition format_int (z : Z) : string :=
  ((if (z <? 0)%Z then "-" else "") ++ with_commas (dec (Z.abs_N z)))%string.

(** [n / d] rounded to the nearest integer, a tie to the even one, for
    [0 <= n] and [0 < d]. *)
Definition div_half_even (n d : Z) : Z :=
  let q := n / d in
  let r := n mod d in
  if 2 * r <? d then q
  else if 2 * r =? d then (if Z.even q then q else q + 1)
  else q + 1.

(** [m * 2 ^ e * 10 ^ digits] rounded half to even. *)
Definition scaled (m : positive) (e : Z) (digits : nat) : Z :=
  match e with
  | Zneg k => div_half_even (Zpos m * 10 ^ Z.of_nat digits) (2 ^ Zpos k)
  | _ => Zpos m * 2 ^ e * 10 ^ Z.of_nat digits
  end.

(** [round(f)] of a float, an int; Python raises on an infinity and a NaN. *)
Definition round (f : float) : result Z :=
  match Prim2SF f with
  | S754_zero _ => Ok 0
  | S754_finite s m e => Ok (if s then - scaled m e 0 else scaled m e 0)
  | S754_infinity _ => Raise OverflowError
  | S754_nan => Raise ValueError
  end.

(** [width] characters: [s] with zeros before it. *)
Fixpoint zeros (n : nat) : string :=
  match n with
  | O => EmptyString
  | S n' => String "0" (zeros n')
  end.

Definition pad_zeros (width : nat) (s : string) : string :=
  (zeros (width - String.length s) ++ s)%string.

(** [format(f, ",.<digits>f")]: the sign of the float, minus zero included,
    the integer part with commas, and [digits] decimals after a point when
    there are any. *)
Definition fixed_point (neg : bool) (q : Z) (digits : nat) : string :=
  ((if neg then "-" else "")
   ++ with_commas (dec (Z.to_N (q / 10 ^ Z.of_nat digits)))
   ++ match digits with
      | O => ""
      | _ => "." ++ pad_zeros digits (dec (Z.to_N (q mod 10 ^ Z.of_nat digits)))
      end)%string.

Definition format_fixed (f : float) (digits : nat) : string :=
  match Prim2SF f with
  | S754_zero s => fixed_point s 0 digits
  | S754_finite s m e => fixed_point s (scaled m e digits) digits
  | S754_infinity s => if s then "-inf" else "inf"
  | S754_nan => "nan"
  end.

End PyFormat.

(** [int(round(v))] as [fmt_num] calls it. *)
Definition round_value (v : pyval) : result Z :=
  match v with
  | PFloat f => PyFormat.round f
  | PInt z => Ok z
  | PBool b => Ok (if b then 1 else 0)
  | _ => Raise TypeError
  end.

(** [f"{v:,.{decimals}f}"]: an int or a bool is converted to a float first;
    a string refuses the format with [ValueError], a list or a dict with
    [TypeError]. *)
Definition format_value (v : pyval) (decimals : nat) : result string :=
  match v with
  | PFloat f => Ok (PyFormat.format_fixed f decimals)
  | PInt z => let* f := Py.float_of_Z z in Ok (PyFormat.format_fixed f decimals)
  | PBool b => Ok (PyFormat.format_fixed (if b then 1%float else 0%float) decimals)
  | PStr _ => Raise ValueError
  | _ => Raise TypeError
  end.

(** [fmt_num], lines 332-337. *)
Definition fmt_num (v : pyval) (decimals : nat) : result string :=
  let not_finite :=
    match v with
    | PFloat f => is_nan f || is_infinity f
    | _ => false
    end in
  match v with
  | PNone => Ok "N/A"
  | _ =>
      if not_finite then Ok "N/A"
      else if (decimals =? 0)%nat then
        let* z := round_value v in Ok (PyFormat.format_int z)
      else format_value v decimals
  end.

(** The dict [compute_recipe] returns, lines 316-329. *)
Definition opt_float (x : option float) : pyval :=
  match x with Some f => PFloat f | None => PNone end.

Definition opt_int (x : option Z) : pyval :=
  match x with Some z => PInt z | None => PNone end.

Definition to_dict (r : EvaluatedRecipe) : pyval :=
  PDict [("RecipeName", r_RecipeName r);
         ("OutputItemName", r_OutputItemName r);
         ("RecipeType", r_RecipeType r);
         ("N", opt_int (r_N r));
         ("XP_per_craft", opt_float (r_XP_per_craft r));
         ("XP_per_hour", opt_float (r_XP_per_hour r));
         ("crafts_per_hour", opt_float (r_crafts_per_hour r));
         ("profit_per_craft", opt_float (r_profit_per_craft r));
         ("gp_per_hour", opt_float (r_gp_per_hour r));
         ("valid", PBool (r_valid r));
         ("invalid_reasons", PList (map PStr (r_invalid_reasons r)));
         ("GogglesAllowed", PBool (r_GogglesAllowed r))].

(** The columns and the decimals of the two tables, lines 445-461. *)
Definition report_columns : list (string * string) :=
  [("RecipeName", "RecipeName");
   ("OutputItemName", "OutputItemName");
   ("N", "N");
   ("XP_per_craft", "XP/craft");
   ("XP_per_hour", "XP/h");
   ("crafts_per_hour", "crafts/h");
   ("profit_per_craft", "profit/craft");
   ("gp_per_hour", "gp/h")].

Definition report_decimals : list (string * nat) :=
  [("XP_per_craft", 2%nat);
   ("XP_per_hour", 0%nat);
   ("crafts_per_hour", 2%nat);
   ("profit_per_craft", 2%nat);
   ("gp_per_hour", 0%nat)].

(** [sep.join(parts)]. *)
Fixpoint join (sep : string) (parts : list string) : string :=
  match parts with
  | [] => ""
  | [x] => x
  | x :: parts' => (x ++ sep ++ join sep parts')%string
  end.

Definition newline : string := String (ascii_of_nat 10) EmptyString.

(** [markdown_table], lines 340-364. [str] of a float, a list or a dict is
    their [repr], which is left to [repr_of]. *)
Section Markdown.
Variable repr_of : pyval -> string.

(** [str(v)]. *)
Definition str_of (v : pyval) : string :=
  match v with
  | PNone => "None"
  | PBool b => if b then "True" else "False"
  | PInt z => ((if (z <? 0)%Z then "-" else "") ++ PyFormat.dec (Z.abs_N z))%string
  | PStr s => s
  | _ => repr_of v
  end.

(** [decimals_map.get(field, 2)]. *)
Fixpoint decimals_of (decimals_map : list (string * nat)) (field : string) : nat :=
  match decimals_map with
  | [] => 2%nat
  | (k, d) :: rest => if String.eqb k field then d else decimals_of rest field
  end.

(** One turn of the inner loop: the text of the cell of [field] in row [r]. *)
Definition cell (decimals_map : list (string * nat)) (r : pyval) (field : string)
  : result string :=
  let* v := Py.get r field PNone in
  if String.eqb field "RecipeName" || String.eqb field "OutputItemName" then
    Ok (match v with PNone => "" | _ => str_of v end)
  else if String.eqb field "N" then
    Ok (match v with PNone => "N/A" | _ => str_of v end)
  else if String.eqb field "valid" then
    Ok (if Py.truthy v then "true" else "false")
  else fmt_num v (decimals_of decimals_map field).

(** The list [vals] of one row. *)
Fixpoint row_values (decimals_map : list (string * nat)) (r : pyval)
                    (fields : list string) : result (list string) :=
  match fields with
  | [] => Ok []
  | field :: fields' =>
      let* c := cell decimals_map r field in
      let* cs := row_values decimals_map r fields' in
      Ok (c :: cs)
  end.

(** The list [lines]. *)
Fixpoint table_lines (rows : list pyval) (columns : list (string * string))
                     (decimals_map : list (string * nat)) : result (list string) :=
  match rows with
  | [] => Ok []
  | r :: rows' =>
      let* vals := row_values decimals_map r (map fst columns) in
      let* rest := table_lines rows' columns decimals_map in
      Ok (("| " ++ join " | " vals ++ " |")%string :: rest)
  end.

Definition markdown_table (rows : list pyval) (columns : list (string * string))
                          (decimals_map : list (string * nat)) : result string :=
  let header := ("| " ++ join " | " (map snd columns) ++ " |" ++ newline)%string in
  let sep := ("| " ++ join " | " (map (fun _ => "---") columns) ++ " |" ++ newline)%string in
  let* lines := table_lines rows columns decimals_map in
  Ok (header ++ sep ++ join newline lines ++ newline)%string.

End Markdown.

(** A [repr] for the examples: the values it is asked for are none. *)
Definition no_repr (v : pyval) : string := "?".

(** Text made of digits, a sign, commas and a point only. *)
Definition numeric_char (c : ascii) : bool :=
  existsb (Ascii.eqb c) (list_ascii_of_string "-,.0123456789").

Fixpoint numeric_text (s : string) : bool :=
  match s with
  | EmptyString => true
  | String c s' => numeric_char c && numeric_text s'
  end.

(** ** Definitions for the revised statements *)


(** Two materials with a price: the first with an int quantity beyond the
    float range, the second with a quantity that is no number. *)
Definition overflow_mats : list pyval :=
  [PDict [("ItemName", PStr "Grimy herb"); ("Quantity", PInt (10 ^ 400))];
   PDict [("ItemName", PStr "Crushed shell"); ("Quantity", PStr "two or so")]].

Definition overflow_fields : list (string * pyval) :=
  [("RecipeName", PStr "Heavy tonic");
   ("OutputItemName", PStr "Tonic(4)");
   ("RecipeType", PStr "potion");
   ("N", PInt 3);
   ("XP_per_craft", PInt 50);
   ("XP_per_hour", PInt 2000);
   ("BaseMaterials", PList overflow_mats);
   ("SecondaryMaterials", PList [])].

(** A second invalid record. *)
Definition unbrewed_result : EvaluatedRecipe :=
  {| r_RecipeName := PStr "Unbrewed";
     r_OutputItemName := PStr "Tonic(4)";
     r_RecipeType := PStr "potion";
     r_N := None;
     r_XP_per_craft := Some 10%float;
     r_XP_per_hour := Some 1000%float;
     r_crafts_per_hour := None;
     r_profit_per_craft := None;
     r_gp_per_hour := None;
     r_valid := false;
     r_invalid_reasons := ["Missing/invalid N"; "Missing/invalid N"];
     r_GogglesAllowed := false |}.

(** Lines that stop nothing: material lines of the data model none of which
    makes the cost absent. *)
Definition lines_pass (name_to_price : gmap string float) (mats : list pyval) : bool :=
  forallb line_well_formed mats && negb (existsb (line_absent name_to_price) mats).

(** * Properties *)

(** ** The error monad *)

Lemma rbind_ok {A B : Type} (m : result A) (k : A -> result B) (b : B) :
  rbind m k = Ok b -> exists a, m = Ok a /\ k a = Ok b.
Proof. destruct m as [a|e]; simpl; intros H; [eauto | discriminate]. Qed.

Lemma rbind_Ok_l {A B : Type} (a : A) (k : A -> result B) : rbind (Ok a) k = k a.
Proof. reflexivity. Qed.

(** Splits a hypothesis [let* x := m in k = Ok b] into [m = Ok x] and
    [k x = Ok b], as often as it applies. *)
Ltac bind_inv H :=
  let a := fresh "v" in
  let Hm := fresh "Hm" in
  apply rbind_ok in H; destruct H as (a & Hm & H).

(** The same, also opening the tuples that a [let* '(x, y) := m] binds. *)
Ltac bind_step H :=
  match type of H with
  | rbind _ _ = Ok _ => bind_inv H
  | match ?v with pair _ _ => _ end = Ok _ => destruct v
  end.

Lemma is_nil_true {A : Type} (l : list A) : is_nil l = true <-> l = [].
Proof. destruct l; simpl; split; congruence. Qed.

Lemma is_nil_false {A : Type} (l : list A) : is_nil l = false <-> l <> [].
Proof. destruct l; simpl; split; congruence. Qed.

(** ** C1: invalid recipes carry no economic fields *)

Lemma profit_and_rates_invalid rat tc xph xpc reasons out :
  reasons <> [] ->
  profit_and_rates rat tc xph xpc reasons = Ok out ->
  out = (None, None, None).
Proof.
  intros Hne H. unfold profit_and_rates in H.
  apply is_nil_false in Hne. rewrite Hne in H. congruence.
Qed.

Lemma valid_iff_no_reasons (reasons : list string) :
  (length reasons =? 0)%nat = true <-> reasons = [].
Proof. destruct reasons; simpl; split; congruence. Qed.

(** The shape of a successful run of [compute_recipe_full]: the reasons of
    the result are the ones the profit block saw, and the three derived
    fields are that block's. *)
Lemma compute_recipe_full_shape name_to_price recipe r l :
  compute_recipe_full name_to_price recipe = Ok (r, l) ->
  exists rat tc,
    profit_and_rates rat tc (r_XP_per_hour r) (r_XP_per_craft r) (r_invalid_reasons r)
      = Ok (r_profit_per_craft r, r_crafts_per_hour r, r_gp_per_hour r)
    /\ r_valid r = (length (r_invalid_reasons r) =? 0)%nat
    /\ l_is_alert l = alert_flag (r_valid r) (r_gp_per_hour r) (r_XP_per_hour r).
Proof.
  unfold compute_recipe_full. intros H.
  repeat bind_step H.
  injection H as <- <-. simpl. eauto.
Qed.

(** C1. Whenever [compute_recipe] returns a record with at least one
    invalidity reason, the record's validity flag is false and its
    crafts-per-hour, profit-per-craft and gp-per-hour are all [None] (absent,
    not zero); and the validity flag of any returned record is true exactly
    when its reason list is empty. *)
Theorem C1_invalid_has_no_economics name_to_price recipe r :
  compute_recipe name_to_price recipe = Ok r ->
  (r_invalid_reasons r <> [] ->
     r_valid r = false
     /\ r_crafts_per_hour r = None
     /\ r_profit_per_craft r = None
     /\ r_gp_per_hour r = None)
  /\ (r_valid r = true <-> r_invalid_reasons r = []).
Proof.
  unfold compute_recipe. intros H. bind_inv H. destruct v as [r' l].
  injection H as <-. simpl.
  apply compute_recipe_full_shape in Hm as (rat & tc & Hp & Hv & _).
  split.
  - intros Hne. apply (profit_and_rates_invalid _ _ _ _ _ _ Hne) in Hp.
    injection Hp as -> -> ->. rewrite Hv.
    repeat split; try reflexivity.
    destruct (r_invalid_reasons r'); [congruence | reflexivity].
  - rewrite Hv. apply valid_iff_no_reasons.
Qed.

Lemma nameless_recipe_computed : compute_recipe ∅ nameless_recipe = Ok nameless_result.
Proof. vm_compute. reflexivity. Qed.

Lemma C1_witness :
  (r_invalid_reasons nameless_result <> [] ->
     r_valid nameless_result = false
     /\ r_crafts_per_hour nameless_result = None
     /\ r_profit_per_craft nameless_result = None
     /\ r_gp_per_hour nameless_result = None)
  /\ (r_valid nameless_result = true <-> r_invalid_reasons nameless_result = []).
Proof.
  apply (C1_invalid_has_no_economics ∅ nameless_recipe).
  vm_compute. reflexivity.
Defined.

(** ** C10: every failed structural check leaves its reason twice *)

Lemma structural_reasons_count c base_mats sec_mats output n xpc xph :
  count_occ string_dec
    (structural_reasons base_mats sec_mats output n xpc xph) (check_reason c)
  = if check_fails c base_mats sec_mats output n xpc xph then 2%nat else 0%nat.
Proof.
  unfold structural_reasons, check_fails.
  generalize (negb (is_list base_mats) || negb (is_list sec_mats)).
  generalize (is_marker_missing output).
  generalize (int_missing_or_nonpos n).
  generalize (float_missing_or_nonpos xpc).
  generalize (float_missing_or_nonpos xph).
  intros [] [] [] [] []; destruct c; reflexivity.
Qed.

Lemma structural_reasons_nonempty c base_mats sec_mats output n xpc xph :
  check_fails c base_mats sec_mats output n xpc xph = true ->
  is_nil (structural_reasons base_mats sec_mats output n xpc xph) = false.
Proof.
  intros Hc.
  pose proof (structural_reasons_count c base_mats sec_mats output n xpc xph) as Hn.
  rewrite Hc in Hn.
  destruct (structural_reasons base_mats sec_mats output n xpc xph);
    [discriminate | reflexivity].
Qed.

(** Once the structural checks found a reason, every later block is
    skipped and the reasons reach the result unchanged. *)
Lemma compute_recipe_structurally_invalid name_to_price d n xpc xph :
  safe_int (Py.dict_get d "N" PNone) = Ok n ->
  safe_float (Py.dict_get d "XP_per_craft" PNone) = Ok xpc ->
  safe_float (Py.dict_get d "XP_per_hour" PNone) = Ok xph ->
  (forall z, n = Some z -> is_ok (Py.float_of_Z z) = true) ->
  let reasons :=
    structural_reasons (base_mats_of d) (sec_mats_of d)
      (Py.dict_get d "OutputItemName" (PStr "")) n xpc xph in
  is_nil reasons = false ->
  exists r, compute_recipe name_to_price (PDict d) = Ok r
            /\ r_invalid_reasons r = reasons.
Proof.
  intros HN Hc Hh Hfloat reasons Hnil.
  unfold compute_recipe, compute_recipe_full.
  cbn [rbind Py.get]. rewrite HN. cbn [rbind]. rewrite Hc. cbn [rbind].
  rewrite Hh. cbn [rbind].
  fold (base_mats_of d) (sec_mats_of d). fold reasons.
  unfold early_check. rewrite Hnil. cbn [rbind]. rewrite Hnil. cbn [rbind].
  assert (Hdoses : exists ed,
    match n with
    | Some z => let* fn := Py.float_of_Z z in Ok (Some (fn + AMULET_BONUS_DOSES)%float)
    | None => Ok None
    end = Ok ed).
  { destruct n as [z|]; [| eauto].
    specialize (Hfloat z eq_refl). destruct (Py.float_of_Z z); [simpl; eauto | discriminate]. }
  destruct Hdoses as [ed ->]. cbn [rbind].
  unfold costs, revenue, profit_and_rates.
  rewrite Hnil. cbn [rbind]. rewrite Hnil. cbn [rbind]. rewrite Hnil. cbn [rbind fst].
  eexists. split; reflexivity.
Qed.

(** What a run that returns tells about the fields it read. *)
Lemma compute_recipe_reads name_to_price d r :
  compute_recipe name_to_price (PDict d) = Ok r ->
  safe_int (Py.dict_get d "N" PNone) = Ok (r_N r)
  /\ safe_float (Py.dict_get d "XP_per_craft" PNone) = Ok (r_XP_per_craft r)
  /\ safe_float (Py.dict_get d "XP_per_hour" PNone) = Ok (r_XP_per_hour r)
  /\ r_OutputItemName r = Py.dict_get d "OutputItemName" (PStr "")
  /\ (forall z, r_N r = Some z -> is_ok (Py.float_of_Z z) = true).
Proof.
  unfold compute_recipe, compute_recipe_full. cbn [Py.get rbind]. intros H.
  bind_inv H. destruct v as [r' l]. injection H as <-. rename Hm into H.
  bind_inv H. rename Hm into HN. bind_inv H. rename Hm into Hc.
  bind_inv H. rename Hm into Hh.
  bind_inv H. bind_inv H. bind_inv H. rename Hm1 into Hd.
  repeat bind_step H. injection H as <- _. cbn [fst r_N r_XP_per_craft r_XP_per_hour
                                                 r_OutputItemName].
  repeat split; try assumption.
  intros z ->. destruct (Py.float_of_Z z); [reflexivity | discriminate].
Qed.

(** C10. Whenever [compute_recipe] returns a record for a recipe that fails
    a structural check (materials-list shape, missing output name, missing or
    non-positive N, XP_per_craft or XP_per_hour), the reason of that check
    stands exactly twice in the record's reasons list; and it does return a
    record for every recipe dict whose numeric fields normalize. *)
Theorem C10_structural_reason_twice name_to_price d (c : structural_check) :
  (forall r,
     compute_recipe name_to_price (PDict d) = Ok r ->
     check_fails c (base_mats_of d) (sec_mats_of d)
       (r_OutputItemName r) (r_N r) (r_XP_per_craft r) (r_XP_per_hour r) = true ->
     count_occ string_dec (r_invalid_reasons r) (check_reason c) = 2%nat)
  /\ (forall n xpc xph,
        safe_int (Py.dict_get d "N" PNone) = Ok n ->
        safe_float (Py.dict_get d "XP_per_craft" PNone) = Ok xpc ->
        safe_float (Py.dict_get d "XP_per_hour" PNone) = Ok xph ->
        (forall z, n = Some z -> is_ok (Py.float_of_Z z) = true) ->
        check_fails c (base_mats_of d) (sec_mats_of d)
          (Py.dict_get d "OutputItemName" (PStr "")) n xpc xph = true ->
        exists r, compute_recipe name_to_price (PDict d) = Ok r
                  /\ count_occ string_dec (r_invalid_reasons r) (check_reason c) = 2%nat).
Proof.
  assert (Htotal : forall n xpc xph,
    safe_int (Py.dict_get d "N" PNone) = Ok n ->
    safe_float (Py.dict_get d "XP_per_craft" PNone) = Ok xpc ->
    safe_float (Py.dict_get d "XP_per_hour" PNone) = Ok xph ->
    (forall z, n = Some z -> is_ok (Py.float_of_Z z) = true) ->
    check_fails c (base_mats_of d) (sec_mats_of d)
      (Py.dict_get d "OutputItemName" (PStr "")) n xpc xph = true ->
    exists r, compute_recipe name_to_price (PDict d) = Ok r
              /\ count_occ string_dec (r_invalid_reasons r) (check_reason c) = 2%nat).
  { intros n xpc xph HN Hc Hh Hfloat Hfail.
    destruct (compute_recipe_structurally_invalid name_to_price d n xpc xph HN Hc Hh Hfloat)
      as (r & Hr & Hreasons).
    { eapply structural_reasons_nonempty; eassumption. }
    exists r. split; [assumption |].
    rewrite Hreasons, structural_reasons_count, Hfail. reflexivity. }
  split; [| exact Htotal].
  intros r Hr Hfail.
  destruct (compute_recipe_reads name_to_price d r Hr) as (HN & Hc & Hh & Hout & Hfloat).
  rewrite Hout in Hfail.
  destruct (Htotal _ _ _ HN Hc Hh Hfloat Hfail) as (r' & Hr' & Hcount).
  rewrite Hr in Hr'. injection Hr' as <-. exact Hcount.
Qed.

Lemma C10_witness :
  (exists r, compute_recipe ∅ (PDict broken_fields) = Ok r
             /\ count_occ string_dec (r_invalid_reasons r) (check_reason Check_N) = 2%nat)
  /\ count_occ string_dec (r_invalid_reasons nameless_result)
       (check_reason Check_output_name) = 2%nat.
Proof.
  split.
  - apply (proj2 (C10_structural_reason_twice ∅ broken_fields Check_N)
             (Some 0) None (Some 1200%float));
      try (vm_compute; reflexivity).
    intros z [= <-]. vm_compute. reflexivity.
  - apply (proj1 (C10_structural_reason_twice ∅
                    [("RecipeName", PStr "Nameless brew");
                     ("OutputItemName", PStr "__MISSING__output");
                     ("RecipeType", PStr "potion");
                     ("N", PInt 3);
                     ("XP_per_craft", PFloat 87.5);
                     ("XP_per_hour", PInt 210000);
                     ("BaseMaterials", PList []);
                     ("SecondaryMaterials", PList [])]
                    Check_output_name) nameless_result);
      vm_compute; reflexivity.
Defined.

(** ** C2: the worked example *)

(** C2, as amended. For a recipe dict that passes the structural and early
    price checks with N = 4, XP_per_craft = 50, XP_per_hour = 2000, base
    materials costing 400, secondary materials costing 100, no goggles and
    an output price per dose of 50, [compute_recipe] computes
    expected doses 4.15, revenue before tax 207.50000000000003, revenue after
    tax 203.35000000000002, total cost 500, profit per craft -296.65, crafts
    per hour 40, gp per hour -11866, a valid record and no alert. The two
    revenues are the binary64 results, one unit in the last place above
    207.5 and 203.35. *)
Theorem C2_worked_example name_to_price d bms sms :
  safe_int (Py.dict_get d "N" PNone) = Ok (Some 4) ->
  safe_float (Py.dict_get d "XP_per_craft" PNone) = Ok (Some 50%float) ->
  safe_float (Py.dict_get d "XP_per_hour" PNone) = Ok (Some 2000%float) ->
  Py.truthy (Py.dict_get d "GogglesAllowed" (PBool false)) = false ->
  base_mats_of d = PList bms ->
  sec_mats_of d = PList sms ->
  is_marker_missing (Py.dict_get d "OutputItemName" (PStr "")) = false ->
  early_price_check "base" name_to_price bms = Ok [] ->
  early_price_check "secondary" name_to_price sms = Ok [] ->
  compute_material_cost name_to_price bms
    (Py.dict_get d "RecipeType" (PStr "")) (Some 4) = Ok (Some 400%float) ->
  compute_material_cost name_to_price sms
    (Py.dict_get d "RecipeType" (PStr "")) (Some 4) = Ok (Some 100%float) ->
  price_per_dose_of_output name_to_price (Py.dict_get d "OutputItemName" (PStr ""))
    = Ok (Some 50%float) ->
  exists r l,
    compute_recipe_full name_to_price (PDict d) = Ok (r, l)
    /\ l_expected_doses l = Some 4.15%float
    /\ l_revenue_before_tax l = Some 207.50000000000003%float
    /\ l_revenue_after_tax l = Some 203.35000000000002%float
    /\ l_total_cost l = Some 500%float
    /\ r_profit_per_craft r = Some (-296.65)%float
    /\ r_crafts_per_hour r = Some 40%float
    /\ r_gp_per_hour r = Some (-11866)%float
    /\ r_valid r = true
    /\ l_is_alert l = false.
Proof.
  intros HN Hc Hh Hg Hb Hs Hout Heb Hes Hcb Hcs Hp.
  unfold compute_recipe_full.
  cbn [rbind Py.get]. rewrite HN. cbn [rbind]. rewrite Hc. cbn [rbind].
  rewrite Hh. cbn [rbind].
  fold (base_mats_of d) (sec_mats_of d). rewrite Hb, Hs, Hg.
  assert (Hsr : structural_reasons (PList bms) (PList sms)
                  (Py.dict_get d "OutputItemName" (PStr ""))
                  (Some 4) (Some 50%float) (Some 2000%float) = []).
  { unfold structural_reasons. rewrite Hout. reflexivity. }
  rewrite Hsr.
  unfold early_check. cbn [is_nil Py.iter rbind]. rewrite Heb.
  cbn [rbind app is_nil]. rewrite Hes. cbn [rbind app is_nil].
  change (Py.float_of_Z 4) with (@Ok float 4%float). cbn [rbind].
  unfold costs. cbn [is_nil Py.iter rbind]. rewrite Hcb. cbn [rbind].
  rewrite Hcs. cbn [rbind is_none append_if is_nil].
  unfold revenue. cbn [is_nil]. rewrite Hp. cbn [rbind arith].
  unfold profit_and_rates. cbn [is_nil rbind arith].
  change (divide (Some 2000%float) (Some 50%float)) with (@Ok float 40%float).
  cbn [rbind].
  eexists. eexists. split; [reflexivity |].
  cbn [l_expected_doses l_revenue_before_tax l_revenue_after_tax l_total_cost
       r_profit_per_craft r_crafts_per_hour r_gp_per_hour r_valid l_is_alert].
  repeat split; vm_compute; reflexivity.
Qed.

Lemma example_index_built : build_name_to_price example_dump = Ok example_index.
Proof. vm_compute. reflexivity. Qed.

(** Two floats with different sign, mantissa or exponent are different. *)
Lemma float_neq (x y : float) : Prim2SF x <> Prim2SF y -> x <> y.
Proof. intros Hne ->. apply Hne. reflexivity. Qed.

Ltac floats_differ :=
  let H := fresh in
  intros [= H]; revert H; apply float_neq; vm_compute; discriminate.

Lemma C2_witness :
  exists r l,
    compute_recipe_full example_index (PDict example_fields) = Ok (r, l)
    /\ l_expected_doses l = Some 4.15%float
    /\ l_revenue_before_tax l = Some 207.50000000000003%float
    /\ l_revenue_after_tax l = Some 203.35000000000002%float
    /\ l_total_cost l = Some 500%float
    /\ r_profit_per_craft r = Some (-296.65)%float
    /\ r_crafts_per_hour r = Some 40%float
    /\ r_gp_per_hour r = Some (-11866)%float
    /\ r_valid r = true
    /\ l_is_alert l = false.
Proof.
  apply (C2_worked_example example_index example_fields
           example_base_mats example_sec_mats);
    vm_compute; reflexivity.
Defined.

(** The values 207.5 and 203.35 are not the revenues computed: on
    the example recipe, whose costs are 400 and 100 and whose price per dose
    is 50, the revenue before tax is not 207.5 and the revenue after tax is
    not 203.35. *)
Lemma C2_counterexample :
  exists r l,
    compute_recipe_full example_index (PDict example_fields) = Ok (r, l)
    /\ r_N r = Some 4
    /\ l_base_cost l = Some 400%float
    /\ l_secondary_cost l = Some 100%float
    /\ l_price_per_dose l = Some 50%float
    /\ l_revenue_before_tax l <> Some 207.5%float
    /\ l_revenue_after_tax l <> Some 203.35%float.
Proof.
  eexists. eexists. split; [vm_compute; reflexivity |].
  cbn [r_N l_base_cost l_secondary_cost l_price_per_dose
       l_revenue_before_tax l_revenue_after_tax].
  repeat split; floats_differ.
Qed.

(** ** C3: the alert flag and Table B *)

Lemma alert_flag_spec valid gp xp :
  alert_flag valid gp xp = valid && above gp 3000000 && above xp 250000.
Proof.
  unfold alert_flag, above, ALERT_GP_PER_HOUR, ALERT_XP_PER_HOUR.
  destruct valid, gp as [g|], xp as [x|]; simpl; try reflexivity.
  - destruct (Py.float_gt_int g 3000000); reflexivity.
Qed.

Lemma table_b_keeps_spec r : table_b_keeps r = alert_condition r.
Proof.
  unfold table_b_keeps, alert_condition, above, ALERT_GP_PER_HOUR, ALERT_XP_PER_HOUR.
  destruct (r_valid r), (r_gp_per_hour r) as [g|], (r_XP_per_hour r) as [x|];
    simpl; try reflexivity.
  destruct (Py.float_gt_int g 3000000); reflexivity.
Qed.

(** C3. For every record [compute_recipe] returns, the alert flag it
    computed is true exactly when the record is valid, its gp per hour is
    above 3,000,000 and its XP per hour is above 250,000; and Table B is the
    sub-list of Table A, in Table A's order, of the records that meet these
    three conditions. *)
Theorem C3_alert_flag_and_table_b :
  (forall name_to_price recipe r l,
     compute_recipe_full name_to_price recipe = Ok (r, l) ->
     (l_is_alert l = true <->
        r_valid r = true
        /\ above (r_gp_per_hour r) 3000000 = true
        /\ above (r_XP_per_hour r) 250000 = true))
  /\ (forall dump recipes ta tb,
        run_tables dump recipes = Ok (ta, tb) ->
        tb = List.filter alert_condition ta).
Proof.
  split.
  - intros name_to_price recipe r l H.
    apply compute_recipe_full_shape in H as (_ & _ & _ & _ & ->).
    rewrite alert_flag_spec, !andb_true_iff. tauto.
  - intros dump recipes ta tb H. unfold run_tables in H.
    repeat bind_step H. injection H as <- <-. unfold table_b.
    apply filter_ext. intros r. apply table_b_keeps_spec.
Qed.

Lemma elixir_computed :
  compute_recipe_full example_index (PDict elixir_fields) = Ok (elixir_result, elixir_locals).
Proof. vm_compute. reflexivity. Qed.

Lemma C3_witness :
  (l_is_alert elixir_locals = true <->
     r_valid elixir_result = true
     /\ above (r_gp_per_hour elixir_result) 3000000 = true
     /\ above (r_XP_per_hour elixir_result) 250000 = true)
  /\ [elixir_result] = List.filter alert_condition [elixir_result; nameless_result].
Proof.
  split.
  - apply (proj1 C3_alert_flag_and_table_b example_index (PDict elixir_fields)).
    vm_compute. reflexivity.
  - apply (proj2 C3_alert_flag_and_table_b example_dump
             [PDict elixir_fields; nameless_recipe]).
    vm_compute. reflexivity.
Defined.

(** ** C4: the order of Table A *)

(** The insertion never moves a record past one whose key is not greater,
    so the records that satisfy [P] keep their order whenever no key of a
    [P] record is below the key of another. *)
Lemma insert_desc_filter {A : Type} (key : A -> float) (P : A -> bool) x l :
  (forall y, P x = true -> P y = true -> PrimFloat.ltb (key x) (key y) = false) ->
  List.filter P (insert_desc key x l)
  = if P x then x :: List.filter P l else List.filter P l.
Proof.
  intros Hkey. induction l as [|y l IH]; simpl.
  - reflexivity.
  - destruct (PrimFloat.ltb (key x) (key y)) eqn:Hlt; simpl.
    + rewrite IH. destruct (P x) eqn:Hx, (P y) eqn:Hy; try reflexivity.
      rewrite (Hkey y eq_refl Hy) in Hlt. discriminate.
    + reflexivity.
Qed.

Lemma sort_key_invalid r : r_valid r = false -> sort_key r = neg_infinity.
Proof. unfold sort_key. intros ->. reflexivity. Qed.

(** The insertion sort leaves the invalid records in the order
    [compute_all] left them in. This is of [sorted] when no key is a NaN. *)
Lemma table_a_invalid_order computed :
  List.filter (fun r => negb (r_valid r)) (table_a computed)
  = List.filter (fun r => negb (r_valid r)) computed.
Proof.
  unfold table_a, sorted_desc.
  induction computed as [|x l IH]; simpl; [reflexivity |].
  rewrite insert_desc_filter, IH; [reflexivity |].
  intros y Hx Hy. apply negb_true_iff in Hx, Hy.
  rewrite (sort_key_invalid x Hx), (sort_key_invalid y Hy). reflexivity.
Qed.

(** Table A holds the computed records, each as often as before. *)
Lemma insert_desc_perm {A : Type} (key : A -> float) x l :
  Permutation (insert_desc key x l) (x :: l).
Proof.
  induction l as [|y l IH]; simpl; [reflexivity |].
  destruct (PrimFloat.ltb (key x) (key y)); [| reflexivity].
  rewrite IH. apply perm_swap.
Qed.

Lemma table_a_perm computed : Permutation (table_a computed) computed.
Proof.
  unfold table_a, sorted_desc.
  induction computed as [|x l IH]; simpl; [reflexivity |].
  rewrite insert_desc_perm. constructor. exact IH.
Qed.

(** C4, at the failing input. The catalog lists the recipe without an
    output name first and the bulk recipe second. The first is invalid, the
    second valid with gp per hour [neg_infinity], the key an invalid record
    sorts under; the stable sort leaves the tie in catalog order, and Table A
    lists the invalid record before the valid one. *)
Theorem C4_invalid_listed_before_valid :
  run_tables example_dump [nameless_recipe; PDict bulk_fields]
  = Ok ([nameless_result; bulk_result], [])
  /\ r_valid nameless_result = false
  /\ r_valid bulk_result = true.
Proof. vm_compute. repeat split; reflexivity. Qed.

(** ** The order of floats, and Table A on keys without a NaN *)

Lemma SFltb_rank f g :
  f <> S754_nan -> g <> S754_nan ->
  (SFltb f g = true <-> rank_lt (sf_rank f) (sf_rank g)).
Proof.
  intros Hf Hg. unfold SFltb, SFcompare.
  destruct f as [sf | sf | | sf mf ef], g as [sg | sg | | sg mg eg];
    try congruence;
    try (destruct sf); try (destruct sg); cbn [sf_rank rank_lt];
    try (split; [discriminate | lia]);
    try (split; [lia | reflexivity]).
  - change (Pos.compare_cont Eq mf mg) with (Pos.compare mf mg).
    destruct (Z.compare_spec ef eg), (Pos.compare_spec mf mg); cbn [CompOpp];
      split; try discriminate; try reflexivity; lia.
  - change (Pos.compare_cont Eq mf mg) with (Pos.compare mf mg).
    destruct (Z.compare_spec ef eg), (Pos.compare_spec mf mg);
      split; try discriminate; try reflexivity; lia.
Qed.

Lemma is_nan_false_rank (x : float) : is_nan x = false -> Prim2SF x <> S754_nan.
Proof.
  unfold is_nan. rewrite FloatAxioms.eqb_spec. intros H Hn. rewrite Hn in H. discriminate.
Qed.

Lemma ltb_nan_l (x y : float) : Prim2SF x = S754_nan -> PrimFloat.ltb x y = false.
Proof. intros H. rewrite ltb_spec, H. reflexivity. Qed.

Lemma ltb_nan_r (x y : float) : Prim2SF y = S754_nan -> PrimFloat.ltb x y = false.
Proof. intros H. rewrite ltb_spec, H. destruct (Prim2SF x); reflexivity. Qed.

Lemma spec_float_nan_dec (f : spec_float) : {f = S754_nan} + {f <> S754_nan}.
Proof. destruct f; (left; reflexivity) || (right; discriminate). Qed.

Lemma rank_lt_asym a b : rank_lt a b -> rank_lt b a -> False.
Proof. destruct a as [[a1 a2] a3], b as [[b1 b2] b3]. cbn [rank_lt]. lia. Qed.

Lemma rank_lt_neg_trans a b c : ~ rank_lt a b -> ~ rank_lt b c -> ~ rank_lt a c.
Proof.
  destruct a as [[a1 a2] a3], b as [[b1 b2] b3], c as [[c1 c2] c3]. cbn [rank_lt]. lia.
Qed.

Lemma ltb_asym (x y : float) : PrimFloat.ltb x y = true -> PrimFloat.ltb y x = false.
Proof.
  intros H.
  destruct (spec_float_nan_dec (Prim2SF x)) as [Hx | Hx];
    [rewrite (ltb_nan_l x y Hx) in H; discriminate |].
  destruct (spec_float_nan_dec (Prim2SF y)) as [Hy | Hy];
    [rewrite (ltb_nan_r x y Hy) in H; discriminate |].
  rewrite ltb_spec in *. apply (SFltb_rank _ _ Hx Hy) in H.
  destruct (SFltb (Prim2SF y) (Prim2SF x)) eqn:Hyx; [| reflexivity].
  apply (SFltb_rank _ _ Hy Hx) in Hyx. destruct (rank_lt_asym _ _ H Hyx).
Qed.

Lemma ltb_neg_trans (x y z : float) :
  is_nan y = false ->
  PrimFloat.ltb x y = false -> PrimFloat.ltb y z = false -> PrimFloat.ltb x z = false.
Proof.
  intros Hy Hxy Hyz. apply is_nan_false_rank in Hy.
  destruct (spec_float_nan_dec (Prim2SF x)) as [Hx | Hx]; [apply ltb_nan_l; exact Hx |].
  destruct (spec_float_nan_dec (Prim2SF z)) as [Hz | Hz]; [apply ltb_nan_r; exact Hz |].
  rewrite ltb_spec in *.
  destruct (SFltb (Prim2SF x) (Prim2SF z)) eqn:Hxz; [| reflexivity].
  apply (SFltb_rank _ _ Hx Hz) in Hxz.
  exfalso. revert Hxz. apply (rank_lt_neg_trans _ (sf_rank (Prim2SF y))).
  - intros H. apply (SFltb_rank _ _ Hx Hy) in H. congruence.
  - intros H. apply (SFltb_rank _ _ Hy Hz) in H. congruence.
Qed.

Lemma insert_desc_Forall {A : Type} (key : A -> float) (P : A -> Prop) x l :
  P x -> Forall P l -> Forall P (insert_desc key x l).
Proof.
  intros Hx Hl. induction Hl as [|y l Hy Hl IH]; simpl.
  - constructor; [exact Hx | constructor].
  - destruct (PrimFloat.ltb (key x) (key y)); repeat constructor; assumption.
Qed.

Lemma insert_desc_sorted {A : Type} (key : A -> float) x l :
  Forall (fun y => is_nan (key y) = false) l ->
  StronglySorted (not_below key) l ->
  StronglySorted (not_below key) (insert_desc key x l).
Proof.
  intros Hnan Hs. induction Hs as [|y l Hs IH Hy]; simpl.
  - constructor; constructor.
  - inversion Hnan as [|? ? Hny Hnl]; subst.
    destruct (PrimFloat.ltb (key x) (key y)) eqn:Hlt.
    + constructor; [apply IH; exact Hnl |].
      apply insert_desc_Forall; [| exact Hy].
      apply ltb_asym. exact Hlt.
    + constructor; [constructor; assumption |].
      constructor; [exact Hlt |].
      revert Hy. apply List.Forall_impl.
      intros z Hyz. exact (ltb_neg_trans _ _ _ Hny Hlt Hyz).
Qed.

(** When no key is a NaN, Table A is in descending order of the keys: no
    record stands before one with a greater key. *)
Theorem table_a_descending computed :
  Forall (fun r => is_nan (sort_key r) = false) computed ->
  StronglySorted (not_below sort_key) (table_a computed).
Proof.
  unfold table_a, sorted_desc.
  induction 1 as [|x l Hx Hl IH]; simpl; [constructor |].
  apply insert_desc_sorted; [| exact IH].
  clear IH. induction Hl as [|y l Hy Hl IH]; simpl; [constructor |].
  apply insert_desc_Forall; assumption.
Qed.

Lemma StronglySorted_before {A : Type} (R : A -> A -> Prop) l1 a l2 b l3 :
  StronglySorted R (l1 ++ a :: l2 ++ b :: l3) -> R a b.
Proof.
  induction l1 as [|x l1 IH]; simpl; intros Hs.
  - apply StronglySorted_inv in Hs as [_ Hall].
    rewrite List.Forall_forall in Hall. apply Hall.
    apply in_or_app. right. left. reflexivity.
  - apply StronglySorted_inv in Hs as [Hs _]. apply IH. exact Hs.
Qed.

(** What holds of Table A when no key is a NaN: of two valid records the
    one listed first has no smaller gp per hour, and a valid record listed
    after an invalid one has a gp per hour that is not above negative
    infinity. *)
Theorem table_a_order computed l1 a l2 b l3 :
  Forall (fun r => is_nan (sort_key r) = false) computed ->
  table_a computed = (l1 ++ a :: l2 ++ b :: l3)%list ->
  (forall ga gb,
     r_valid a = true -> r_valid b = true ->
     r_gp_per_hour a = Some ga -> r_gp_per_hour b = Some gb ->
     PrimFloat.ltb ga gb = false)
  /\ (forall gb,
        r_valid a = false -> r_valid b = true -> r_gp_per_hour b = Some gb ->
        PrimFloat.ltb neg_infinity gb = false).
Proof.
  intros Hnan Hta.
  pose proof (table_a_descending computed Hnan) as Hs. rewrite Hta in Hs.
  apply StronglySorted_before in Hs. unfold not_below, sort_key in Hs.
  split.
  - intros ga gb Ha Hb Hga Hgb. rewrite Ha, Hb, Hga, Hgb in Hs. exact Hs.
  - intros gb Ha Hb Hgb. rewrite Ha, Hb, Hgb in Hs. exact Hs.
Qed.

(** ** C5: the material cost *)

Lemma price_of_name_ok name_to_price item :
  match item with PNone | PStr _ => true | _ => false end = true ->
  is_ok (price_of name_to_price item) = true.
Proof.
  destruct item; try discriminate; intros _; unfold price_of; simpl.
  - reflexivity.
  - destruct (negb (negb (s =? "")%string) || _); [reflexivity |].
    destruct (name_to_price !! s) as [p|]; [destruct (Py.float_truthy p) |]; reflexivity.
Qed.

Lemma material_cost_loop_spec name_to_price mats n fn total :
  forallb line_well_formed mats = true ->
  Py.float_of_Z n = Ok fn ->
  material_cost_loop name_to_price mats (Some n) total
  = Ok (if existsb (line_absent name_to_price) mats then None
        else Some (fold_left
                     (fun total m => (total + line_contribution name_to_price fn m)%float)
                     mats total)).
Proof.
  intros Hwf Hn. revert total Hwf.
  induction mats as [|m mats IH]; intros total Hwf; [reflexivity |].
  simpl in Hwf. apply andb_true_iff in Hwf as [Hm Hwf].
  destruct m as [| | | | |  |d]; try discriminate.
  cbn [line_well_formed] in Hm.
  set (item := Py.dict_get d "ItemName" PNone) in *.
  destruct (safe_float (Py.dict_get d "Quantity" PNone)) as [q|e] eqn:Hq;
    [| destruct item; discriminate].
  destruct (price_of name_to_price item) as [p|e] eqn:Hprice.
  2:{ pose proof (price_of_name_ok name_to_price item) as Hp.
      rewrite Hprice in Hp. destruct item; try discriminate; specialize (Hp eq_refl);
        discriminate. }
  assert (Hlq : line_quantity (PDict d) = q) by (cbn [line_quantity]; rewrite Hq; reflexivity).
  assert (Hlp : line_price name_to_price (PDict d) = p).
  { unfold line_price. cbn [line_item]. fold item. rewrite Hprice. reflexivity. }
  assert (Hld : line_dose_scaled (PDict d)
                = if Py.truthy (Py.dict_get d "DoseScaledFromFourPerDose" (PBool false))
                  then true
                  else Py.truthy (Py.dict_get d "IsDoseScaledFromFour" (PBool false))).
  { cbn [line_dose_scaled].
    destruct (Py.truthy (Py.dict_get d "IsDoseScaledFromFour" (PBool false))),
             (Py.truthy (Py.dict_get d "DoseScaledFromFourPerDose" (PBool false)));
      reflexivity. }
  set (scaled := if Py.truthy (Py.dict_get d "DoseScaledFromFourPerDose" (PBool false))
                 then true
                 else Py.truthy (Py.dict_get d "IsDoseScaledFromFour" (PBool false))) in *.
  assert (Hla : line_absent name_to_price (PDict d)
                = is_marker_missing item || is_none q || is_none p).
  { unfold line_absent. rewrite Hlq, Hlp. reflexivity. }
  assert (Hlc : line_contribution name_to_price fn (PDict d)
                = match p, q with
                  | Some p, Some q =>
                      if scaled then (p / 4.0 * fn * q)%float else (p * q)%float
                  | _, _ => 0%float
                  end).
  { unfold line_contribution. rewrite Hlq, Hlp, Hld. reflexivity. }
  cbn [existsb fold_left]. rewrite Hla, Hlc.
  cbn [material_cost_loop Py.get rbind]. fold item. rewrite Hq. cbn [rbind].
  destruct (is_marker_missing item) eqn:Hmiss; [reflexivity |].
  destruct q as [q|]; [| reflexivity].
  cbn [is_none orb].
  fold scaled.
  destruct scaled; rewrite Hprice; cbn [rbind]; destruct p as [p|]; cbn [is_none];
    try reflexivity.
  - cbn [float_of_opt_int]. rewrite Hn. cbn [rbind]. apply IH. exact Hwf.
  - apply IH. exact Hwf.
Qed.

(** C5, at the failing input. Both items have a price. The second line
    has a quantity that is no number, so the cost should be absent; the
    first has an int quantity beyond the float range, on which [float]
    raises outside any [try], and [compute_material_cost] raises
    [OverflowError] instead, as it does when the second line has a missing
    item name. With the two lines in the other order the cost is absent.
    The recipe with these base materials passes the early checks, so
    [compute_recipe] raises too. *)
Theorem C5_overflow_instead_of_absent :
  Exists (fun m => exists d, m = PDict d
                             /\ safe_float (Py.dict_get d "Quantity" PNone) = Ok None)
    overflow_mats
  /\ compute_material_cost example_index overflow_mats (PStr "potion") (Some 3)
     = Raise OverflowError
  /\ compute_material_cost example_index
       [PDict [("ItemName", PStr "Grimy herb"); ("Quantity", PInt (10 ^ 400))];
        PDict [("ItemName", PStr "__MISSING__")]]
       (PStr "potion") (Some 3)
     = Raise OverflowError
  /\ compute_material_cost example_index (rev overflow_mats) (PStr "potion") (Some 3)
     = Ok None
  /\ compute_recipe example_index (PDict overflow_fields) = Raise OverflowError.
Proof.
  split; [| split; [| split; [| split]]].
  - right. left. eexists. split; [reflexivity |]. vm_compute. reflexivity.
  - vm_compute. reflexivity.
  - vm_compute. reflexivity.
  - vm_compute. reflexivity.
  - vm_compute. reflexivity.
Qed.

(** ** C6: the price lookup *)





(** An index that holds a zero is no price index of the data model. On the
    one built from a dump that prices [Ale] at 0 and [ale] at 5, the
    exact-case key [Ale] is present and [price_of] returns the lowercase
    entry's 5: Python's [or] passes over a zero. *)
Lemma price_of_passes_over_zero :
  build_name_to_price ale_dump = Ok ale_index
  /\ ale_index !! "Ale" = Some 0%float
  /\ is_marker_missing (PStr "Ale") = false
  /\ price_of ale_index (PStr "Ale") = Ok (Some 5%float)
  /\ Some 5%float <> Some 0%float.
Proof.
  repeat split; try (vm_compute; reflexivity).
  floats_differ.
Qed.

(** ** C7: the numeric normalizer *)

(** C7, as amended. On every value but an int beyond the float range,
    [safe_float] returns a float or absent, and the float need not be
    finite: null values and strings that begin with a missing marker yield
    absent; a float is returned as it is, a bool as 1.0 or 0.0, an int within
    the float range as the nearest float; any other string is parsed by
    [float] with its commas removed, which accepts [inf], [nan] and numerals
    that overflow to [infinity], and yields absent when it is no numeral;
    every other value yields absent. *)
Theorem C7_safe_float (value : pyval) :
  ((forall z, value = PInt z -> is_ok (Py.float_of_Z z) = true) ->
     exists r, safe_float value = Ok r)
  /\ (is_marker_missing value = true -> safe_float value = Ok None)
  /\ (forall f, value = PFloat f -> safe_float value = Ok (Some f))
  /\ (forall b, value = PBool b ->
        safe_float value = Ok (Some (if b then 1%float else 0%float)))
  /\ (forall z f, value = PInt z -> Py.float_of_Z z = Ok f ->
        safe_float value = Ok (Some f))
  /\ (forall s, value = PStr s -> is_marker_missing value = false ->
        safe_float value = Ok (Py.float_of_string (Py.remove_commas s)))
  /\ (forall l, value = PList l -> safe_float value = Ok None)
  /\ (forall d, value = PDict d -> safe_float value = Ok None).
Proof.
  unfold safe_float.
  split; [| repeat split].
  - intros Hint. destruct value as [| b | z | f | s | l | d]; cbn [is_marker_missing];
      try (eexists; reflexivity).
    + specialize (Hint z eq_refl).
      destruct (Py.float_of_Z z) as [f |]; [| discriminate]. eexists. reflexivity.
    + destruct (_ || _); eexists; reflexivity.
  - intros ->. reflexivity.
  - intros f ->. reflexivity.
  - intros b ->. reflexivity.
  - intros z f -> Hf. cbn [is_marker_missing]. rewrite Hf. reflexivity.
  - intros s -> ->. reflexivity.
  - intros l ->. reflexivity.
  - intros d ->. reflexivity.
Qed.

Lemma C7_witness :
  (exists r, safe_float (PStr "nan") = Ok r)
  /\ safe_float (PStr "__OCR_UNCERTAIN__ 12?") = Ok None
  /\ safe_float (PFloat 87.5) = Ok (Some 87.5%float)
  /\ safe_float (PBool true) = Ok (Some 1%float)
  /\ safe_float (PInt 12) = Ok (Some 12%float)
  /\ safe_float (PStr "1,234,567.5") = Ok (Some 1234567.5%float)
  /\ safe_float (PStr "12 herbs") = Ok None
  /\ safe_float (PList [PInt 1]) = Ok None
  /\ safe_float (PDict []) = Ok None.
Proof.
  split; [| split; [| split; [| split; [| split; [| split; [| split; [| split]]]]]]].
  - apply (proj1 (C7_safe_float (PStr "nan"))). intros z H. discriminate H.
  - apply (proj1 (proj2 (C7_safe_float (PStr "__OCR_UNCERTAIN__ 12?")))). reflexivity.
  - apply (proj1 (proj2 (proj2 (C7_safe_float (PFloat 87.5))))). reflexivity.
  - apply (proj1 (proj2 (proj2 (proj2 (C7_safe_float (PBool true))))) true). reflexivity.
  - apply (proj1 (proj2 (proj2 (proj2 (proj2 (C7_safe_float (PInt 12)))))) 12 12%float).
    + reflexivity.
    + vm_compute. reflexivity.
  - rewrite (proj1 (proj2 (proj2 (proj2 (proj2 (proj2 (C7_safe_float (PStr "1,234,567.5")))))))
               "1,234,567.5") by reflexivity.
    vm_compute. reflexivity.
  - rewrite (proj1 (proj2 (proj2 (proj2 (proj2 (proj2 (C7_safe_float (PStr "12 herbs")))))))
               "12 herbs") by reflexivity.
    vm_compute. reflexivity.
  - apply (proj1 (proj2 (proj2 (proj2 (proj2 (proj2 (proj2 (C7_safe_float (PList [PInt 1]))))))))
             [PInt 1]).
    reflexivity.
  - apply (proj2 (proj2 (proj2 (proj2 (proj2 (proj2 (proj2 (C7_safe_float (PDict [])))))))) []).
    reflexivity.
Defined.

(** [safe_float] returns a number that is not finite for the string [inf],
    for a numeral that overflows and for an infinite or NaN float. *)
Lemma C7_counterexample :
  safe_float (PStr "inf") = Ok (Some infinity)
  /\ safe_float (PStr "1e999") = Ok (Some infinity)
  /\ safe_float (PFloat nan) = Ok (Some nan)
  /\ is_finite infinity = false
  /\ is_finite nan = false.
Proof. repeat split; vm_compute; reflexivity. Qed.

(** ** C8: the price index *)

Lemma add_item_stores name_to_price d nm p :
  find_name name_keys d = Some nm ->
  find_price price_keys d = Ok (Some p) ->
  exists m, add_item name_to_price (PDict d) = Ok m
            /\ m !! nm = Some p
            /\ m !! Py.lower nm = Some p.
Proof.
  intros Hn Hp. unfold add_item. rewrite Hn, Hp. cbn [rbind].
  eexists. split; [reflexivity |]. split.
  - destruct (decide (Py.lower nm = nm)) as [-> | Hne].
    + apply lookup_insert_eq.
    + rewrite lookup_insert_ne by exact Hne. apply lookup_insert_eq.
  - apply lookup_insert_eq.
Qed.

(** A key of the index stays one: the builder only inserts. *)
Lemma add_item_keeps name_to_price item m k :
  add_item name_to_price item = Ok m ->
  is_Some (name_to_price !! k) -> is_Some (m !! k).
Proof.
  unfold add_item. intros H Hk.
  destruct item; try (injection H as <-; exact Hk).
  bind_inv H.
  destruct (find_name name_keys d) as [nm|], v as [p|];
    try (injection H as <-; exact Hk).
  injection H as <-.
  rewrite !lookup_insert_is_Some. 
  destruct (decide (Py.lower nm = k)); [left; assumption | right; split; [assumption |]].
  destruct (decide (nm = k)); [left; assumption | right; split; assumption].
Qed.

Lemma add_items_keeps items : forall name_to_price m k,
  add_items name_to_price items = Ok m ->
  is_Some (name_to_price !! k) -> is_Some (m !! k).
Proof.
  induction items as [|item items IH]; intros name_to_price m k H Hk; simpl in H.
  - injection H as <-. exact Hk.
  - bind_inv H. eapply IH; [exact H |]. eapply add_item_keeps; eassumption.
Qed.

Lemma add_containers_keeps containers : forall name_to_price m k,
  add_containers name_to_price containers = Ok m ->
  is_Some (name_to_price !! k) -> is_Some (m !! k).
Proof.
  induction containers as [|c cs IH]; intros name_to_price m k H Hk; simpl in H.
  - injection H as <-. exact Hk.
  - bind_inv H. eapply IH; [exact H |]. eapply add_items_keeps; eassumption.
Qed.

Lemma add_items_stores items : forall name_to_price m d nm p,
  add_items name_to_price items = Ok m ->
  In (PDict d) items ->
  find_name name_keys d = Some nm ->
  find_price price_keys d = Ok (Some p) ->
  is_Some (m !! nm) /\ is_Some (m !! Py.lower nm).
Proof.
  induction items as [|item items IH]; intros name_to_price m d nm p H Hin Hn Hp;
    [destruct Hin |].
  simpl in H. bind_inv H. destruct Hin as [-> | Hin].
  - destruct (add_item_stores name_to_price d nm p Hn Hp) as (m' & Hm' & H1 & H2).
    rewrite Hm' in Hm. injection Hm as <-.
    split; eapply add_items_keeps; try exact H; eauto.
  - eapply IH; eassumption.
Qed.

Lemma add_containers_stores containers : forall name_to_price m c d nm p,
  add_containers name_to_price containers = Ok m ->
  In c containers ->
  In (PDict d) (map snd c) ->
  find_name name_keys d = Some nm ->
  find_price price_keys d = Ok (Some p) ->
  is_Some (m !! nm) /\ is_Some (m !! Py.lower nm).
Proof.
  induction containers as [|c0 cs IH]; intros name_to_price m c d nm p H Hc Hin Hn Hp;
    [destruct Hc |].
  simpl in H. bind_inv H. destruct Hc as [-> | Hc].
  - destruct (add_items_stores _ _ _ _ _ _ Hm Hin Hn Hp) as [H1 H2].
    split; eapply add_containers_keeps; eassumption.
  - eapply IH; eassumption.
Qed.

(** C8. An entry with a name and a price is stored under its name and under
    the lowercased name, both with its price; both names are keys of the
    index the builder returns, whatever container of the dump the entry is
    in; and on the dump that holds the one entry Ranarr potion(4) at 100
    under [data], [price_of] finds 100 under the lowercase name. *)
Theorem C8_index_stores_both_names :
  (forall name_to_price d nm p,
     find_name name_keys d = Some nm ->
     find_price price_keys d = Ok (Some p) ->
     exists m, add_item name_to_price (PDict d) = Ok m
               /\ m !! nm = Some p
               /\ m !! Py.lower nm = Some p)
  /\ (forall dump m c k d nm p,
        build_name_to_price (PDict dump) = Ok m ->
        In c (containers_of dump) ->
        In (k, PDict d) c ->
        find_name name_keys d = Some nm ->
        find_price price_keys d = Ok (Some p) ->
        is_Some (m !! nm) /\ is_Some (m !! Py.lower nm))
  /\ (exists m, build_name_to_price ranarr_dump = Ok m
                /\ price_of m (PStr "ranarr potion(4)") = Ok (Some 100%float)).
Proof.
  split; [| split].
  - apply add_item_stores.
  - intros dump m c k d nm p Hb Hc Hin Hn Hp. cbn [build_name_to_price] in Hb.
    eapply add_containers_stores; try eassumption.
    apply in_map_iff. exists (k, PDict d). split; [reflexivity | assumption].
  - eexists. split; vm_compute; reflexivity.
Qed.

Lemma C8_witness :
  (exists m, add_item ale_index
               (PDict [("name", PStr "Ranarr potion(4)"); ("price", PInt 100)]) = Ok m
             /\ m !! "Ranarr potion(4)" = Some 100%float
             /\ m !! Py.lower "Ranarr potion(4)" = Some 100%float)
  /\ is_Some (example_index !! "Tonic(4)")
  /\ is_Some (example_index !! Py.lower "Tonic(4)").
Proof.
  split.
  - apply (proj1 C8_index_stores_both_names ale_index
             [("name", PStr "Ranarr potion(4)"); ("price", PInt 100)]
             "Ranarr potion(4)" 100%float); vm_compute; reflexivity.
  - refine (proj1 (proj2 C8_index_stores_both_names)
              [("data",
                PDict [("101", PDict [("name", PStr "Grimy herb"); ("price", PInt 400)]);
                       ("102", PDict [("name", PStr "Crushed shell"); ("price", PInt 100)]);
                       ("103", PDict [("name", PStr "Tonic(4)"); ("price", PInt 200)]);
                       ("104", PDict [("name", PStr "Elixir(4)"); ("price", PFloat 12000)])])]
              example_index
              [("101", PDict [("name", PStr "Grimy herb"); ("price", PInt 400)]);
               ("102", PDict [("name", PStr "Crushed shell"); ("price", PInt 100)]);
               ("103", PDict [("name", PStr "Tonic(4)"); ("price", PInt 200)]);
               ("104", PDict [("name", PStr "Elixir(4)"); ("price", PFloat 12000)])]
              "103" [("name", PStr "Tonic(4)"); ("price", PInt 200)]
              "Tonic(4)" 200%float _ _ _ _ _).
    + vm_compute. reflexivity.
    + left. vm_compute. reflexivity.
    + right. right. left. reflexivity.
    + vm_compute. reflexivity.
    + vm_compute. reflexivity.
Defined.

(** ** C9: the delivery step *)

Lemma retry_after_at_least_one json : 1 <= retry_after_of json.
Proof.
  unfold retry_after_of. destruct json as [j|]; [| lia].
  destruct (let* v := Py.get j "retry_after" (PInt 2) in
            let* f := Py.float_of_val v in Py.ceil f); lia.
Qed.

(** The delay is the body's [retry_after] rounded up, 1 at least, and 2 when
    the body gives none. *)
Lemma retry_after_examples :
  retry_after_of (Some (PDict [("retry_after", PFloat 2.25)])) = 3
  /\ retry_after_of (Some (PDict [("retry_after", PFloat 0.3)])) = 1
  /\ retry_after_of (Some (PDict [("retry_after", PInt 0)])) = 1
  /\ retry_after_of (Some (PDict [("message", PStr "slow down")])) = 2
  /\ retry_after_of None = 2.
Proof. repeat split; vm_compute; reflexivity. Qed.

(** A rate-limit response followed by a success: the chunk is sent again
    once, after the delay, and the loop goes on. *)
Lemma post_chunks_rate_limited server chunk chunks k trace reason body json :
  server k = Resp_http_error 429 reason body json ->
  server (S k) = Resp_ok ->
  post_chunks server (chunk :: chunks) k trace
  = post_chunks server chunks (S (S k))
      ((trace ++ [Ev_post chunk]) ++ [Ev_sleep (retry_after_of json); Ev_post chunk])%list.
Proof. intros H1 H2. cbn [post_chunks]. rewrite H1, H2. reflexivity. Qed.

(** Any other HTTP error status on the first attempt is printed and ends
    the delivery without an exception. *)
Lemma post_chunks_other_failure server chunk chunks k trace code reason body json :
  server k = Resp_http_error code reason body json ->
  code <> 429 ->
  post_chunks server (chunk :: chunks) k trace
  = (Ok tt, S k, ((trace ++ [Ev_post chunk]) ++ [Ev_print code reason body])%list).
Proof.
  intros H1 Hc. cbn [post_chunks]. rewrite H1.
  destruct (Z.eqb_spec code 429); [contradiction | reflexivity].
Qed.

Lemma chunks_of_nonempty content : exists chunk chunks, chunks_of content = chunk :: chunks.
Proof.
  unfold chunks_of.
  destruct (chunks_from DISCORD_CONTENT_LIMIT 0 [] (list_ascii_of_string content)); eauto.
Qed.

(** With a webhook configured, an HTTP error status other than 429 on the
    first request leaves the run at the exit status 0. *)
Lemma main_delivery_survives_other_failure webhook server content code reason body json :
  Py.str_strip webhook <> "" ->
  server 0%nat = Resp_http_error code reason body json ->
  code <> 429 ->
  fst (main_delivery webhook server content) = Ok 0.
Proof.
  intros Hw Hs Hc. unfold main_delivery, discord_post.
  destruct (String.eqb_spec (Py.str_strip webhook) "") as [He | _]; [contradiction |].
  destruct (chunks_of_nonempty content) as (chunk & chunks & ->).
  rewrite (post_chunks_other_failure _ _ _ _ _ _ _ _ _ Hs Hc). reflexivity.
Qed.

(** A rate limit on the first request and a success on the retry: the
    chunk is posted twice with one sleep in between, no sooner than after a
    second, and a one-chunk report ends at the exit status 0. *)
Lemma main_delivery_retries_once webhook server content reason body json :
  Py.str_strip webhook <> "" ->
  chunks_of content = [content] ->
  server 0%nat = Resp_http_error 429 reason body json ->
  server 1%nat = Resp_ok ->
  main_delivery webhook server content
  = (Ok 0, [Ev_post content; Ev_sleep (retry_after_of json); Ev_post content])
  /\ 1 <= retry_after_of json.
Proof.
  intros Hw Hch H0 H1. split; [| apply retry_after_at_least_one].
  unfold main_delivery, discord_post.
  destruct (String.eqb_spec (Py.str_strip webhook) "") as [He | _]; [contradiction |].
  rewrite Hch, (post_chunks_rate_limited _ _ _ _ _ _ _ _ H0 H1). reflexivity.
Qed.

(** C9, at the failing input. The first request meets a rate limit and the
    retry an internal error: the report is posted, the script sleeps one
    second and posts again, and the error of the retry leaves [discord_post]
    and [main] as an exception instead of the exit status 0. *)
Theorem C9_failed_retry_aborts :
  main_delivery "https://discord.example/api/webhooks/1" flaky_server "report"
  = (Raise (HTTPError 500), [Ev_post "report"; Ev_sleep 1; Ev_post "report"]).
Proof. vm_compute. reflexivity. Qed.

(** ** [compute_recipe] returns on every recipe of the data model *)

Lemma early_price_check_returns kind name_to_price mats :
  forallb line_well_formed mats = true ->
  exists found, early_price_check kind name_to_price mats = Ok found.
Proof.
  induction mats as [|m mats IH]; intros Hwf; [simpl; eauto |].
  simpl in Hwf. apply andb_true_iff in Hwf as [Hm Hwf].
  destruct m; try discriminate. cbn [line_well_formed] in Hm.
  cbn [early_price_check Py.get rbind].
  destruct (Py.dict_get d "ItemName" PNone) eqn:Hitem; try discriminate.
  - simpl. eauto.
  - destruct (is_marker_missing (PStr s)); [eauto |].
    destruct (name_to_price !! Py.lower s); [apply IH; exact Hwf | eauto].
Qed.

(** A float that is not [<= 0] is no zero: the division of the profit block
    never raises. *)
Lemma positive_not_zero (f : float) :
  Py.float_le_int f 0 = false -> PrimFloat.eqb f 0%float = false.
Proof.
  unfold Py.float_le_int. rewrite FloatAxioms.eqb_spec.
  change (Prim2SF 0%float) with (S754_zero false).
  destruct (Prim2SF f) as [s | s | | s m e]; try reflexivity.
  - discriminate.
  - destruct s; [discriminate | reflexivity].
  - intros _. destruct s; reflexivity.
Qed.

Lemma compute_material_cost_returns name_to_price mats recipe_type z :
  forallb line_well_formed mats = true ->
  is_ok (Py.float_of_Z z) = true ->
  exists c, compute_material_cost name_to_price mats recipe_type (Some z) = Ok c.
Proof.
  intros Hwf Hz. destruct (Py.float_of_Z z) as [fn|] eqn:Hfn; [| discriminate].
  unfold compute_material_cost.
  rewrite (material_cost_loop_spec _ _ _ fn 0%float Hwf Hfn). eauto.
Qed.

Theorem compute_recipe_returns name_to_price d :
  recipe_well_formed d = true ->
  exists r, compute_recipe name_to_price (PDict d) = Ok r.
Proof.
  unfold recipe_well_formed. rewrite !andb_true_iff.
  intros [[[[[HN Hc] Hh] Hout] Hb] Hs].
  destruct (safe_int (Py.dict_get d "N" PNone)) as [n|] eqn:En; [| discriminate].
  destruct (safe_float (Py.dict_get d "XP_per_craft" PNone)) as [xpc|] eqn:Ec;
    [| discriminate].
  destruct (safe_float (Py.dict_get d "XP_per_hour" PNone)) as [xph|] eqn:Eh;
    [| discriminate].
  assert (Hfloat : forall z, n = Some z -> is_ok (Py.float_of_Z z) = true).
  { intros z ->. exact HN. }
  destruct (is_nil (structural_reasons (base_mats_of d) (sec_mats_of d)
                      (Py.dict_get d "OutputItemName" (PStr "")) n xpc xph)) eqn:Hnil.
  2:{ destruct (compute_recipe_structurally_invalid name_to_price d n xpc xph
                  En Ec Eh Hfloat Hnil) as (r & Hr & _).
      eauto. }
  (* no structural reason: every check passed *)
  assert (Hchecks : forall c, check_fails c (base_mats_of d) (sec_mats_of d)
                      (Py.dict_get d "OutputItemName" (PStr "")) n xpc xph = false).
  { intros c. destruct (check_fails c _ _ _ _ _ _) eqn:Hf; [| reflexivity].
    apply structural_reasons_nonempty in Hf. congruence. }
  pose proof (Hchecks Check_shape) as Hshape. cbn [check_fails] in Hshape.
  apply orb_false_iff in Hshape as [Hlb Hls].
  apply negb_false_iff in Hlb, Hls.
  destruct (base_mats_of d) as [| | | | | bms |] eqn:Eb; try discriminate.
  destruct (sec_mats_of d) as [| | | | | sms |] eqn:Es; try discriminate.
  cbn [mats_well_formed] in Hb, Hs.
  pose proof (Hchecks Check_N) as HcN. cbn [check_fails] in HcN.
  destruct n as [z|]; [| discriminate].
  pose proof (Hchecks Check_XP_per_craft) as Hcc. cbn [check_fails] in Hcc.
  destruct xpc as [c|]; [| discriminate]. cbn [float_missing_or_nonpos] in Hcc.
  pose proof (Hchecks Check_XP_per_hour) as Hch. cbn [check_fails] in Hch.
  destruct xph as [h|]; [| discriminate].
  destruct (Py.float_of_Z z) as [fn|] eqn:Hfn; [| discriminate].
  (* run the function *)
  unfold compute_recipe, compute_recipe_full.
  cbn [rbind Py.get]. rewrite En. cbn [rbind]. rewrite Ec. cbn [rbind].
  rewrite Eh. cbn [rbind].
  fold (base_mats_of d) (sec_mats_of d). rewrite Eb, Es.
  apply is_nil_true in Hnil. rewrite Hnil.
  unfold early_check. cbn [is_nil Py.iter rbind].
  destruct (early_price_check_returns "base" name_to_price bms Hb) as [fb ->].
  cbn [rbind app].
  assert (Hsec : exists rs, (if is_nil fb
                             then let* found := early_price_check "secondary" name_to_price sms
                                  in Ok (fb ++ found)%list
                             else Ok fb) = Ok rs).
  { destruct (is_nil fb); [| eauto].
    destruct (early_price_check_returns "secondary" name_to_price sms Hs) as [fs ->].
    cbn [rbind]. eauto. }
  destruct Hsec as [rs ->]. cbn [rbind]. rewrite Hfn. cbn [rbind].
  unfold costs, revenue, profit_and_rates.
  destruct (is_nil rs) eqn:Hrs; cbn [rbind]; [| rewrite Hrs; cbn [rbind]; rewrite Hrs; eauto].
  apply is_nil_true in Hrs. subst rs. cbn [Py.iter rbind].
  destruct (compute_material_cost_returns name_to_price bms
              (Py.dict_get d "RecipeType" (PStr "")) z Hb) as [bc ->];
    [rewrite Hfn; reflexivity |].
  destruct (compute_material_cost_returns name_to_price sms
              (Py.dict_get d "RecipeType" (PStr "")) z Hs) as [sc ->];
    [rewrite Hfn; reflexivity |].
  cbn [rbind].
  destruct bc as [bc|], sc as [sc|]; cbn [is_none append_if app is_nil rbind]; eauto.
  unfold price_per_dose_of_output.
  pose proof (price_of_name_ok name_to_price (Py.dict_get d "OutputItemName" (PStr "")) Hout)
    as Hprice.
  destruct (price_of name_to_price (Py.dict_get d "OutputItemName" (PStr ""))) as [po|];
    [| discriminate].
  cbn [rbind]. destruct po as [po|]; cbn [rbind app is_nil arith]; [| eauto].
  unfold divide. rewrite (positive_not_zero c Hcc). cbn [rbind]. eauto.
Qed.

(** * Further properties *)

(** ** Chunks of a message *)

Lemma length_string_of_list_ascii (l : list ascii) :
  String.length (string_of_list_ascii l) = length l.
Proof. induction l as [|c l IH]; simpl; [reflexivity | rewrite IH; reflexivity]. Qed.

Lemma string_of_list_ascii_app (l1 l2 : list ascii) :
  string_of_list_ascii (l1 ++ l2)
  = (string_of_list_ascii l1 ++ string_of_list_ascii l2)%string.
Proof.
  induction l1 as [|c l1 IH]; [reflexivity |].
  change (String c (string_of_list_ascii (l1 ++ l2))
          = String c (String.append (string_of_list_ascii l1) (string_of_list_ascii l2))).
  rewrite IH. reflexivity.
Qed.

Lemma append_empty_r (s : string) : String.append s "" = s.
Proof.
  induction s as [|a s IH]; [reflexivity |].
  change (String a (String.append s "") = String a s). rewrite IH. reflexivity.
Qed.

Lemma chunks_from_joined limit cnt cur content :
  joined (chunks_from limit cnt cur content)
  = string_of_list_ascii (rev cur ++ content).
Proof.
  revert cnt cur. induction content as [|c content IH]; intros cnt cur.
  - cbn [chunks_from]. rewrite app_nil_r.
    destruct cur as [|x cur]; [reflexivity |].
    cbn [joined fold_right]. apply append_empty_r.
  - cbn [chunks_from]. destruct (cnt =? limit)%nat.
    + cbn [joined fold_right]. fold (joined (chunks_from limit 1 [c] content)).
      rewrite IH. cbn [rev app].
      rewrite (string_of_list_ascii_app (rev cur) (c :: content)). reflexivity.
    + rewrite IH. cbn [rev]. rewrite <- app_assoc. reflexivity.
Qed.

Lemma chunks_from_sizes limit cnt cur content :
  (1 <= limit)%nat -> cnt = length cur -> (cnt <= limit)%nat ->
  Forall (fun chunk => (1 <= String.length chunk <= limit)%nat)
    (chunks_from limit cnt cur content).
Proof.
  intros Hlimit. revert cnt cur. induction content as [|c content IH]; intros cnt cur Hcnt Hle.
  - cbn [chunks_from]. destruct cur as [|x cur]; constructor; [| constructor].
    rewrite length_string_of_list_ascii, length_rev. simpl in *. lia.
  - cbn [chunks_from]. destruct (Nat.eqb_spec cnt limit) as [-> | Hne].
    + constructor.
      * rewrite length_string_of_list_ascii, length_rev. lia.
      * apply IH; simpl; lia.
    + apply IH; simpl; lia.
Qed.

(** Every chunk but the last is full. *)
Lemma chunks_from_full limit cnt cur content front chunk :
  cnt = length cur ->
  chunks_from limit cnt cur content = (front ++ [chunk])%list ->
  Forall (fun c => String.length c = limit) front.
Proof.
  revert cnt cur front. induction content as [|c content IH]; intros cnt cur front Hcnt Heq.
  - cbn [chunks_from] in Heq. destruct cur as [|x cur].
    + destruct front; discriminate.
    + destruct front as [|f front]; [constructor |].
      destruct front; discriminate.
  - cbn [chunks_from] in Heq. destruct (Nat.eqb_spec cnt limit) as [-> | Hne].
    + destruct front as [|f front]; [constructor |].
      injection Heq as <- Heq. constructor.
      * rewrite length_string_of_list_ascii, length_rev. symmetry. exact Hcnt.
      * eapply (IH 1%nat [c]); [reflexivity | exact Heq].
    + eapply (IH (S cnt) (c :: cur)); [simpl; lia | exact Heq].
Qed.

(** X1. The chunks of a message that is not empty, put end to end, are the
    message; each chunk holds between 1 and 1900 characters and each one but
    the last holds 1900. *)
Theorem X1_chunks_partition_content (content : string) :
  content <> "" ->
  joined (chunks_of content) = content
  /\ Forall (fun chunk => (1 <= String.length chunk <= 1900)%nat) (chunks_of content)
  /\ (forall front chunk,
        chunks_of content = (front ++ [chunk])%list ->
        Forall (fun c => String.length c = 1900%nat) front).
Proof.
  intros Hne. unfold chunks_of.
  pose proof (chunks_from_joined DISCORD_CONTENT_LIMIT 0 [] (list_ascii_of_string content))
    as Hj.
  cbn [rev app] in Hj. rewrite string_of_list_ascii_of_string in Hj.
  pose proof (chunks_from_sizes DISCORD_CONTENT_LIMIT 0 [] (list_ascii_of_string content))
    as Hs.
  destruct (chunks_from DISCORD_CONTENT_LIMIT 0 [] (list_ascii_of_string content))
    as [|c cs] eqn:Hc.
  - cbn in Hj. congruence.
  - split; [exact Hj |]. split.
    + apply Hs; unfold DISCORD_CONTENT_LIMIT; simpl; lia.
    + intros front chunk Heq. rewrite <- Hc in Heq.
      eapply (chunks_from_full DISCORD_CONTENT_LIMIT 0 []); [reflexivity | exact Heq].
Qed.

Lemma X1_witness :
  joined (chunks_of "No alerts this run.") = "No alerts this run."
  /\ Forall (fun chunk => (1 <= String.length chunk <= 1900)%nat)
       (chunks_of "No alerts this run.")
  /\ (forall front chunk,
        chunks_of "No alerts this run." = (front ++ [chunk])%list ->
        Forall (fun c => String.length c = 1900%nat) front).
Proof. apply (X1_chunks_partition_content "No alerts this run."). discriminate. Defined.

(** ** The trace of a delivery *)

Lemma chunks_of_joined content : content <> "" -> joined (chunks_of content) = content.
Proof.
  intros Hne. unfold chunks_of.
  pose proof (chunks_from_joined DISCORD_CONTENT_LIMIT 0 [] (list_ascii_of_string content))
    as Hj.
  cbn [rev app] in Hj. rewrite string_of_list_ascii_of_string in Hj.
  destruct (chunks_from DISCORD_CONTENT_LIMIT 0 [] (list_ascii_of_string content));
    [cbn in Hj; congruence | exact Hj].
Qed.

Lemma post_chunks_trace server chunks : forall k trace,
  post_chunks server chunks k trace
  = let '(r, k', t) := post_chunks server chunks k [] in (r, k', (trace ++ t)%list).
Proof.
  induction chunks as [|chunk chunks IH]; intros k trace.
  - cbn [post_chunks]. rewrite app_nil_r. reflexivity.
  - cbn [post_chunks app].
    destruct (server k) as [| code reason body json |].
    + rewrite (IH (S k) (trace ++ [Ev_post chunk])%list), (IH (S k) [Ev_post chunk]).
      destruct (post_chunks server chunks (S k) []) as [[r k'] t].
      rewrite <- app_assoc. reflexivity.
    + destruct (code =? 429).
      * destruct (server (S k)).
        -- rewrite (IH (S (S k)) ((trace ++ [Ev_post chunk]) ++ _)%list),
             (IH (S (S k)) (_ :: _)).
           destruct (post_chunks server chunks (S (S k)) []) as [[r k'] t].
           rewrite <- !app_assoc. reflexivity.
        -- rewrite <- app_assoc. reflexivity.
        -- rewrite <- app_assoc. reflexivity.
      * rewrite <- app_assoc. reflexivity.
    + reflexivity.
Qed.

Lemma posted_app t1 t2 : posted (t1 ++ t2) = (posted t1 ++ posted t2)%list.
Proof.
  induction t1 as [|e t1 IH]; [reflexivity |].
  destruct e; simpl; rewrite IH; reflexivity.
Qed.

Lemma slept_app t1 t2 : slept (t1 ++ t2) = (slept t1 ++ slept t2)%list.
Proof.
  induction t1 as [|e t1 IH]; [reflexivity |].
  destruct e; simpl; rewrite IH; reflexivity.
Qed.

Lemma posted_map_post chunks : posted (map Ev_post chunks) = chunks.
Proof. induction chunks as [|c chunks IH]; simpl; [reflexivity | rewrite IH; reflexivity]. Qed.

Lemma post_chunks_steady server chunks : forall k trace,
  (forall i, server i = Resp_ok) ->
  post_chunks server chunks k trace
  = (Ok tt, (k + length chunks)%nat, (trace ++ map Ev_post chunks)%list).
Proof.
  induction chunks as [|chunk chunks IH]; intros k trace Hs.
  - cbn [post_chunks length map]. rewrite app_nil_r, Nat.add_0_r. reflexivity.
  - cbn [post_chunks]. rewrite Hs, (IH _ _ Hs). cbn [length map].
    rewrite <- app_assoc. f_equal. f_equal. lia.
Qed.

(** X2. When the server accepts every request, [discord_post] makes one
    request per chunk, posts the chunks in order with no sleep and no print,
    and returns normally; what it posted, put end to end, is the message
    when that is not empty. *)
Theorem X2_steady_delivery server content :
  (forall i, server i = Resp_ok) ->
  discord_post server content
  = (Ok tt, length (chunks_of content), map Ev_post (chunks_of content))
  /\ (content <> "" ->
      joined (posted (snd (discord_post server content))) = content).
Proof.
  intros Hs. unfold discord_post.
  rewrite (post_chunks_steady server (chunks_of content) 0 [] Hs).
  split; [reflexivity |].
  intros Hne. cbn [snd app]. rewrite posted_map_post.
  apply chunks_of_joined. exact Hne.
Qed.

Lemma X2_witness :
  discord_post steady_server long_report
  = (Ok tt, length (chunks_of long_report), map Ev_post (chunks_of long_report))
  /\ (long_report <> "" ->
      joined (posted (snd (discord_post steady_server long_report))) = long_report).
Proof. apply (X2_steady_delivery steady_server long_report). intros i. reflexivity. Defined.

Lemma post_chunks_bounds server chunks : forall k,
  let '(_, k', t) := post_chunks server chunks k [] in
  (k + length (posted t) = k')%nat
  /\ (length (posted t) <= 2 * length chunks)%nat
  /\ (length (slept t) <= length chunks)%nat
  /\ Forall (fun seconds => 1 <= seconds) (slept t).
Proof.
  induction chunks as [|chunk chunks IH]; intros k.
  - cbn. repeat split; try lia. constructor.
  - cbn [post_chunks app].
    destruct (server k) as [| code reason body json |].
    + rewrite post_chunks_trace. specialize (IH (S k)).
      destruct (post_chunks server chunks (S k) []) as [[r k'] t].
      rewrite posted_app, slept_app. cbn [posted slept app length].
      destruct IH as (H1 & H2 & H3 & H4). repeat split; try lia. exact H4.
    + destruct (code =? 429).
      * destruct (server (S k)).
        -- rewrite post_chunks_trace. specialize (IH (S (S k))).
           destruct (post_chunks server chunks (S (S k)) []) as [[r k'] t].
           rewrite posted_app, slept_app. cbn [posted slept app length].
           destruct IH as (H1 & H2 & H3 & H4). repeat split; try lia.
           constructor; [apply retry_after_at_least_one | exact H4].
        -- cbn. repeat split; try lia.
           constructor; [apply retry_after_at_least_one | constructor].
        -- cbn. repeat split; try lia.
           constructor; [apply retry_after_at_least_one | constructor].
      * cbn. repeat split; try lia. constructor.
    + cbn. repeat split; try lia. constructor.
Qed.

(** X3. Whatever the server answers, [discord_post] posts once per request,
    makes at most two requests per chunk, sleeps at most once per chunk and
    never for less than one second. *)
Theorem X3_delivery_is_bounded server content :
  let '(_, requests, trace) := discord_post server content in
  length (posted trace) = requests
  /\ (requests <= 2 * length (chunks_of content))%nat
  /\ (length (slept trace) <= length (chunks_of content))%nat
  /\ Forall (fun seconds => 1 <= seconds) (slept trace).
Proof.
  unfold discord_post.
  pose proof (post_chunks_bounds server (chunks_of content) 0) as H.
  destruct (post_chunks server (chunks_of content) 0 []) as [[r k'] t].
  destruct H as (H1 & H2 & H3 & H4). repeat split; try lia. exact H4.
Qed.

Lemma post_chunks_stops server chunks : forall k j trace code reason body json,
  (forall i, (k <= i < k + j)%nat -> server i = Resp_ok) ->
  server (k + j)%nat = Resp_http_error code reason body json ->
  code <> 429 ->
  (j < length chunks)%nat ->
  post_chunks server chunks k trace
  = (Ok tt, S (k + j),
     (trace ++ map Ev_post (firstn (S j) chunks) ++ [Ev_print code reason body])%list).
Proof.
  induction chunks as [|chunk chunks IH]; intros k j trace code reason body json Hok Herr Hc Hj;
    [simpl in Hj; lia |].
  destruct j as [|j].
  - rewrite Nat.add_0_r in *.
    rewrite (post_chunks_other_failure _ _ _ _ _ _ _ _ _ Herr Hc).
    cbn [firstn map app]. rewrite <- app_assoc. reflexivity.
  - cbn [post_chunks]. rewrite (Hok k) by lia.
    rewrite (IH (S k) j _ code reason body json); try assumption.
    + cbn [firstn map app]. rewrite <- app_assoc.
      replace (S k + j)%nat with (k + S j)%nat by lia. reflexivity.
    + intros i Hi. apply Hok. lia.
    + replace (S k + j)%nat with (k + S j)%nat by lia. exact Herr.
    + simpl in Hj. lia.
Qed.

(** X4. When the server accepts the first [j] chunks and answers the next
    one with an HTTP error status other than 429, [discord_post] prints the
    error and returns normally: the chunks after that one are never posted. *)
Theorem X4_delivery_stops_at_error server content j code reason body json :
  (forall i, (i < j)%nat -> server i = Resp_ok) ->
  server j = Resp_http_error code reason body json ->
  code <> 429 ->
  (j < length (chunks_of content))%nat ->
  discord_post server content
  = (Ok tt, S j,
     (map Ev_post (firstn (S j) (chunks_of content)) ++ [Ev_print code reason body])%list).
Proof.
  intros Hok Herr Hc Hj. unfold discord_post.
  rewrite (post_chunks_stops server (chunks_of content) 0 j [] code reason body json);
    try assumption; [reflexivity |].
  intros i Hi. apply Hok. lia.
Qed.

Lemma X4_witness :
  length (chunks_of long_report) = 3%nat
  /\ discord_post closing_server long_report
     = (Ok tt, 2%nat,
        (map Ev_post (firstn 2 (chunks_of long_report))
         ++ [Ev_print 403 "Forbidden" "no access"])%list).
Proof.
  split; [vm_compute; reflexivity |].
  apply (X4_delivery_stops_at_error closing_server long_report 1 403
           "Forbidden" "no access" None).
  - intros i Hi. destruct i; [reflexivity | lia].
  - reflexivity.
  - discriminate.
  - vm_compute. lia.
Defined.

(** ** What the price index holds *)

Lemma add_item_origin name_to_price item m k p :
  add_item name_to_price item = Ok m ->
  m !! k = Some p ->
  name_to_price !! k = Some p \/ written_by [item] k p.
Proof.
  unfold add_item. intros H Hk.
  destruct item; try (injection H as <-; left; exact Hk).
  bind_inv H.
  destruct (find_name name_keys d) as [nm|] eqn:Hn, v as [q|];
    try (injection H as <-; left; exact Hk).
  injection H as <-.
  destruct (decide (Py.lower nm = k)) as [<- | Hne1].
  - rewrite lookup_insert_eq in Hk. injection Hk as ->.
    right. exists d, nm. repeat split; auto. left. reflexivity.
  - rewrite lookup_insert_ne in Hk by exact Hne1.
    destruct (decide (nm = k)) as [<- | Hne2].
    + rewrite lookup_insert_eq in Hk. injection Hk as ->.
      right. exists d, nm. repeat split; auto. left. reflexivity.
    + rewrite lookup_insert_ne in Hk by exact Hne2. left. exact Hk.
Qed.

Lemma written_by_mono items items' k p :
  (forall x, In x items -> In x items') -> written_by items k p -> written_by items' k p.
Proof. intros Hsub (d & nm & Hin & H). exists d, nm. split; [apply Hsub; exact Hin | exact H]. Qed.

Lemma add_items_origin items : forall name_to_price m k p,
  add_items name_to_price items = Ok m ->
  m !! k = Some p ->
  name_to_price !! k = Some p \/ written_by items k p.
Proof.
  induction items as [|item items IH]; intros name_to_price m k p H Hk; simpl in H.
  - injection H as <-. left. exact Hk.
  - bind_inv H. destruct (IH _ _ _ _ H Hk) as [Hv | Hw].
    + destruct (add_item_origin _ _ _ _ _ Hm Hv) as [Hv' | Hw]; [left; exact Hv' |].
      right. revert Hw. apply written_by_mono. intros x [-> | []]. left. reflexivity.
    + right. revert Hw. apply written_by_mono. intros x Hx. right. exact Hx.
Qed.

Lemma add_containers_origin containers : forall name_to_price m k p,
  add_containers name_to_price containers = Ok m ->
  m !! k = Some p ->
  name_to_price !! k = Some p
  \/ exists c, In c containers /\ written_by (map snd c) k p.
Proof.
  induction containers as [|c cs IH]; intros name_to_price m k p H Hk; simpl in H.
  - injection H as <-. left. exact Hk.
  - bind_inv H. destruct (IH _ _ _ _ H Hk) as [Hv | (c' & Hc' & Hw)].
    + destruct (add_items_origin _ _ _ _ _ Hm Hv) as [Hv' | Hw]; [left; exact Hv' |].
      right. exists c. split; [left; reflexivity | exact Hw].
    + right. exists c'. split; [right; exact Hc' | exact Hw].
Qed.

(** X5. The index holds nothing of its own making: a dump that is no dict
    gives the empty index, and every key of the index built from a dict is
    the name, as it is or lowercased, of an entry of one of the containers
    read, and maps to that entry's price. *)
Theorem X5_index_keys_come_from_entries :
  (forall dump_obj m,
     match dump_obj with PDict _ => False | _ => True end ->
     build_name_to_price dump_obj = Ok m -> m = ∅)
  /\ (forall dump m k p,
        build_name_to_price (PDict dump) = Ok m ->
        m !! k = Some p ->
        exists c, In c (containers_of dump) /\ written_by (map snd c) k p).
Proof.
  split.
  - intros dump_obj m Hd H. destruct dump_obj; try contradiction;
      cbn [build_name_to_price] in H; congruence.
  - intros dump m k p H Hk. cbn [build_name_to_price] in H.
    destruct (add_containers_origin _ _ _ _ _ H Hk) as [He | Hw]; [| exact Hw].
    rewrite lookup_empty in He. discriminate.
Qed.

Lemma X5_witness :
  (match PList [] with PDict _ => False | _ => True end ->
   build_name_to_price (PList []) = Ok ∅ -> (∅ : gmap string float) = ∅)
  /\ exists c,
       In c (containers_of
               [("1", PDict [("name", PStr "Ale"); ("price", PInt 0)]);
                ("2", PDict [("name", PStr "ale"); ("price", PInt 5)])])
       /\ written_by (map snd c) "ale" 5%float.
Proof.
  split.
  - apply (proj1 X5_index_keys_come_from_entries (PList []) ∅).
  - apply (proj2 X5_index_keys_come_from_entries
             [("1", PDict [("name", PStr "Ale"); ("price", PInt 0)]);
              ("2", PDict [("name", PStr "ale"); ("price", PInt 5)])]
             ale_index "ale" 5%float); vm_compute; reflexivity.
Defined.

(** X6. The lookup is case-insensitive on what was ingested: for an entry
    of the dump with a name and a price, [price_of] on the built index finds
    a price under every spelling that lowercases to the same string, is not
    empty and does not begin with a missing marker. *)
Theorem X6_ingested_names_are_found dump m c key d nm p0 s :
  build_name_to_price (PDict dump) = Ok m ->
  In c (containers_of dump) ->
  In (key, PDict d) c ->
  find_name name_keys d = Some nm ->
  find_price price_keys d = Ok (Some p0) ->
  Py.lower s = Py.lower nm ->
  s <> "" ->
  is_marker_missing (PStr s) = false ->
  exists p, price_of m (PStr s) = Ok (Some p).
Proof.
  intros Hb Hc Hin Hn Hp Hlow Hne Hmiss.
  cbn [build_name_to_price] in Hb.
  destruct (add_containers_stores _ _ _ c d nm p0 Hb Hc) as [_ [q Hq]]; try assumption.
  { apply in_map_iff. exists (key, PDict d). split; [reflexivity | exact Hin]. }
  unfold price_of. cbn [Py.truthy].
  destruct (String.eqb_spec s "") as [-> | _]; [contradiction |].
  cbn [negb orb]. rewrite Hmiss, Hlow, Hq.
  destruct (m !! s) as [p|]; [| eauto].
  destruct (Py.float_truthy p); eauto.
Qed.

Lemma X6_witness : exists p, price_of example_index (PStr "GRIMY Herb") = Ok (Some p).
Proof.
  refine (X6_ingested_names_are_found
            [("data",
              PDict [("101", PDict [("name", PStr "Grimy herb"); ("price", PInt 400)]);
                     ("102", PDict [("name", PStr "Crushed shell"); ("price", PInt 100)]);
                     ("103", PDict [("name", PStr "Tonic(4)"); ("price", PInt 200)]);
                     ("104", PDict [("name", PStr "Elixir(4)"); ("price", PFloat 12000)])])]
            example_index
            [("101", PDict [("name", PStr "Grimy herb"); ("price", PInt 400)]);
             ("102", PDict [("name", PStr "Crushed shell"); ("price", PInt 100)]);
             ("103", PDict [("name", PStr "Tonic(4)"); ("price", PInt 200)]);
             ("104", PDict [("name", PStr "Elixir(4)"); ("price", PFloat 12000)])]
            "101" [("name", PStr "Grimy herb"); ("price", PInt 400)]
            "Grimy herb" 400%float "GRIMY Herb" _ _ _ _ _ _ _ _).
  - vm_compute. reflexivity.
  - left. vm_compute. reflexivity.
  - left. reflexivity.
  - vm_compute. reflexivity.
  - vm_compute. reflexivity.
  - vm_compute. reflexivity.
  - discriminate.
  - vm_compute. reflexivity.
Defined.

(** ** What a valid record tells *)

Lemma append_if_nil cond msg reasons :
  append_if cond msg reasons = [] -> cond = false /\ reasons = [].
Proof.
  unfold append_if. destruct cond; intros H; [| auto].
  destruct reasons; discriminate.
Qed.

Lemma early_check_nil kind name_to_price mats reasons :
  early_check kind name_to_price mats reasons = Ok [] ->
  reasons = []
  /\ exists ms, Py.iter mats = Ok ms /\ early_price_check kind name_to_price ms = Ok [].
Proof.
  unfold early_check. destruct reasons as [|x reasons]; cbn [is_nil]; [| discriminate].
  intros H. bind_inv H. bind_inv H. injection H as H. cbn [app] in H. subst.
  split; [reflexivity | eauto].
Qed.

Lemma costs_nil name_to_price base_mats sec_mats recipe_type n goggles reasons bc sc tc :
  costs name_to_price base_mats sec_mats recipe_type n goggles reasons = Ok (bc, sc, tc, []) ->
  reasons = []
  /\ exists bms sms b s,
       Py.iter base_mats = Ok bms /\ Py.iter sec_mats = Ok sms
       /\ compute_material_cost name_to_price bms recipe_type n = Ok (Some b)
       /\ compute_material_cost name_to_price sms recipe_type n = Ok (Some s)
       /\ bc = Some b /\ sc = Some s
       /\ tc = Some (b + s * (if goggles then GOGGLES_SECONDARY_MULT else 1.0))%float.
Proof.
  unfold costs. destruct reasons as [|x reasons]; cbn [is_nil]; [| discriminate].
  intros H. bind_inv H. rename v into bms, Hm into Hb.
  bind_inv H. rename v into b, Hm into Hcb.
  bind_inv H. rename v into sms, Hm into Hs.
  bind_inv H. rename v into s, Hm into Hcs.
  destruct b as [b|], s as [s|]; cbn [is_none append_if app is_nil] in H;
    inversion H; subst.
  split; [reflexivity |]. exists bms, sms, b, s. repeat split; assumption.
Qed.

Lemma revenue_nil name_to_price output expected_doses reasons ppd rbt rat :
  revenue name_to_price output expected_doses reasons = Ok (ppd, rbt, rat, []) ->
  reasons = []
  /\ exists p e,
       price_per_dose_of_output name_to_price output = Ok (Some p)
       /\ expected_doses = Some e
       /\ ppd = Some p
       /\ rbt = Some (p * e)%float
       /\ rat = Some (p * e * TAX_MULTIPLIER)%float.
Proof.
  unfold revenue. destruct reasons as [|x reasons]; cbn [is_nil]; [| discriminate].
  intros H. bind_inv H. destruct v as [p|]; [| injection H as _ _ _ H; discriminate].
  bind_inv H. injection H as <- <- <-.
  destruct expected_doses as [e|]; [| discriminate]. injection Hm0 as <-.
  split; [reflexivity |]. exists p, e. repeat split. exact Hm.
Qed.

Lemma profit_and_rates_nil rat tc xph xpc out :
  profit_and_rates rat tc xph xpc [] = Ok out ->
  exists a t h c,
    rat = Some a /\ tc = Some t /\ xph = Some h /\ xpc = Some c
    /\ PrimFloat.eqb c 0%float = false
    /\ out = (Some (a - t), Some (h / c), Some ((a - t) * (h / c)))%float.
Proof.
  unfold profit_and_rates. cbn [is_nil]. intros H.
  bind_inv H. bind_inv H. injection H as <-.
  destruct rat as [a|], tc as [t|]; try discriminate. injection Hm as <-.
  unfold divide in Hm0. destruct xph as [h|], xpc as [c|]; try discriminate.
  destruct (PrimFloat.eqb c 0%float) eqn:Hc; [discriminate |]. injection Hm0 as <-.
  exists a, t, h, c. repeat split. exact Hc.
Qed.

(** A run that ends valid went through every block, and its numbers are the
    ones the blocks computed. *)
Lemma compute_recipe_full_valid name_to_price d r l :
  compute_recipe_full name_to_price (PDict d) = Ok (r, l) ->
  r_valid r = true ->
  exists z fn c h bms sms b s p,
    r_N r = Some z /\ 0 < z /\ Py.float_of_Z z = Ok fn
    /\ r_XP_per_craft r = Some c /\ Py.float_le_int c 0 = false
    /\ r_XP_per_hour r = Some h /\ Py.float_le_int h 0 = false
    /\ is_marker_missing (r_OutputItemName r) = false
    /\ base_mats_of d = PList bms /\ sec_mats_of d = PList sms
    /\ early_price_check "base" name_to_price bms = Ok []
    /\ early_price_check "secondary" name_to_price sms = Ok []
    /\ compute_material_cost name_to_price bms (r_RecipeType r) (Some z) = Ok (Some b)
    /\ compute_material_cost name_to_price sms (r_RecipeType r) (Some z) = Ok (Some s)
    /\ price_per_dose_of_output name_to_price (r_OutputItemName r) = Ok (Some p)
    /\ l_total_cost l
       = Some (b + s * (if r_GogglesAllowed r then GOGGLES_SECONDARY_MULT else 1.0))%float
    /\ l_revenue_after_tax l = Some (p * (fn + AMULET_BONUS_DOSES) * TAX_MULTIPLIER)%float
    /\ r_crafts_per_hour r = Some (h / c)%float
    /\ (exists a t, l_revenue_after_tax l = Some a /\ l_total_cost l = Some t
                    /\ r_profit_per_craft r = Some (a - t)%float
                    /\ r_gp_per_hour r = Some ((a - t) * (h / c))%float).
Proof.
  unfold compute_recipe_full. cbn [Py.get rbind]. intros H Hvalid.
  bind_inv H. rename v into n, Hm into HN.
  bind_inv H. rename v into xpc, Hm into Hc.
  bind_inv H. rename v into xph, Hm into Hh.
  fold (base_mats_of d) (sec_mats_of d) in H.
  bind_inv H. rename v into rs1, Hm into He1.
  bind_inv H. rename v into rs2, Hm into He2.
  bind_inv H. rename v into ed, Hm into Hed.
  bind_inv H. destruct v as [[[bc sc] tc] rs3]. rename Hm into Hcosts.
  bind_inv H. destruct v as [[[ppd rbt] rat] rs4]. rename Hm into Hrev.
  bind_inv H. destruct v as [[ppc cph] gph]. rename Hm into Hprof.
  injection H as <- <-.
  cbn [r_valid] in Hvalid. apply valid_iff_no_reasons in Hvalid. subst rs4.
  cbn [r_N r_XP_per_craft r_XP_per_hour r_OutputItemName r_RecipeType r_GogglesAllowed
       r_crafts_per_hour r_profit_per_craft r_gp_per_hour l_total_cost l_revenue_after_tax].
  apply revenue_nil in Hrev as (-> & p & e & Hppd & -> & -> & -> & ->).
  apply costs_nil in Hcosts as (-> & bms & sms & b & s & Hib & His & Hcb & Hcs & -> & -> & ->).
  apply early_check_nil in He2 as (-> & sms' & His' & Hes).
  apply early_check_nil in He1 as (Hstruct & bms' & Hib' & Heb).
  rewrite Hib in Hib'. injection Hib' as <-. rewrite His in His'. injection His' as <-.
  apply profit_and_rates_nil in Hprof as (a & t & h & c & Ha & Ht & -> & -> & Hc0 & Hout).
  injection Ha as <-. injection Ht as <-. injection Hout as -> -> ->.
  (* the structural checks all passed *)
  assert (Hchecks : forall k, check_fails k (base_mats_of d) (sec_mats_of d)
                      (Py.dict_get d "OutputItemName" (PStr "")) n (Some c) (Some h) = false).
  { intros k. destruct (check_fails k _ _ _ _ _ _) eqn:Hf; [| reflexivity].
    apply structural_reasons_nonempty in Hf. rewrite Hstruct in Hf. discriminate. }
  pose proof (Hchecks Check_shape) as Hshape. cbn [check_fails] in Hshape.
  apply orb_false_iff in Hshape as [Hlb Hls]. apply negb_false_iff in Hlb, Hls.
  destruct (base_mats_of d) as [| | | | | lb |]; try discriminate.
  destruct (sec_mats_of d) as [| | | | | ls |]; try discriminate.
  cbn [Py.iter] in Hib, His. injection Hib as <-. injection His as <-.
  pose proof (Hchecks Check_N) as HcN. cbn [check_fails] in HcN.
  destruct n as [z|]; [| discriminate]. cbn [int_missing_or_nonpos] in HcN.
  apply Z.leb_gt in HcN.
  bind_inv Hed. rename v into fn, Hm into Hfn. injection Hed as <-.
  pose proof (Hchecks Check_XP_per_craft) as Hcc. cbn [check_fails float_missing_or_nonpos] in Hcc.
  pose proof (Hchecks Check_XP_per_hour) as Hch. cbn [check_fails float_missing_or_nonpos] in Hch.
  pose proof (Hchecks Check_output_name) as Hco. cbn [check_fails] in Hco.
  exists z, fn, c, h, lb, ls, b, s, p.
  repeat (split; [first [assumption | reflexivity] |]).
  eexists. eexists. repeat split.
Qed.

Lemma compute_recipe_of_dict name_to_price recipe r :
  compute_recipe name_to_price recipe = Ok r -> exists d, recipe = PDict d.
Proof.
  destruct recipe; try discriminate. eauto.
Qed.

Lemma compute_recipe_full_of name_to_price recipe r :
  compute_recipe name_to_price recipe = Ok r ->
  exists l, compute_recipe_full name_to_price recipe = Ok (r, l).
Proof.
  unfold compute_recipe. intros H. bind_inv H. destruct v as [r' l].
  injection H as <-. eauto.
Qed.

(** X7. A valid record has N above zero, an XP per craft and an XP per hour
    that are not [<= 0], and all three derived fields present: crafts per
    hour is XP per hour divided by XP per craft, and gp per hour is profit
    per craft times crafts per hour. *)
Theorem X7_valid_record_is_complete name_to_price recipe r :
  compute_recipe name_to_price recipe = Ok r ->
  r_valid r = true ->
  exists z c h p,
    r_N r = Some z /\ 0 < z
    /\ r_XP_per_craft r = Some c /\ Py.float_le_int c 0 = false
    /\ r_XP_per_hour r = Some h /\ Py.float_le_int h 0 = false
    /\ r_crafts_per_hour r = Some (h / c)%float
    /\ r_profit_per_craft r = Some p
    /\ r_gp_per_hour r = Some (p * (h / c))%float.
Proof.
  intros H Hv.
  destruct (compute_recipe_of_dict _ _ _ H) as [d ->].
  destruct (compute_recipe_full_of _ _ _ H) as [l Hl].
  destruct (compute_recipe_full_valid _ _ _ _ Hl Hv)
    as (z & fn & c & h & bms & sms & b & s & p & HN & Hz & _ & Hc & Hc0 & Hh & Hh0 & _ & _ & _
        & _ & _ & _ & _ & _ & _ & _ & Hcr & (a & t & _ & _ & Hp & Hg)).
  exists z, c, h, (a - t)%float. repeat split; assumption.
Qed.

Lemma X7_witness :
  exists z c h p,
    r_N elixir_result = Some z /\ 0 < z
    /\ r_XP_per_craft elixir_result = Some c /\ Py.float_le_int c 0 = false
    /\ r_XP_per_hour elixir_result = Some h /\ Py.float_le_int h 0 = false
    /\ r_crafts_per_hour elixir_result = Some (h / c)%float
    /\ r_profit_per_craft elixir_result = Some p
    /\ r_gp_per_hour elixir_result = Some (p * (h / c))%float.
Proof.
  apply (X7_valid_record_is_complete example_index (PDict elixir_fields) elixir_result);
    vm_compute; reflexivity.
Defined.

(** X8. The profit of a valid record is the formula of the engine: the
    price of the output item divided by 4, times N plus 0.15 doses, times
    0.98 after tax, minus the base material cost plus the secondary material
    cost, the latter times 0.9 when goggles are allowed. *)
Theorem X8_profit_formula name_to_price d r :
  compute_recipe name_to_price (PDict d) = Ok r ->
  r_valid r = true ->
  exists z fn bms sms b s p4,
    r_N r = Some z /\ Py.float_of_Z z = Ok fn
    /\ base_mats_of d = PList bms /\ sec_mats_of d = PList sms
    /\ compute_material_cost name_to_price bms (r_RecipeType r) (Some z) = Ok (Some b)
    /\ compute_material_cost name_to_price sms (r_RecipeType r) (Some z) = Ok (Some s)
    /\ price_of name_to_price (r_OutputItemName r) = Ok (Some p4)
    /\ r_profit_per_craft r
       = Some (p4 / 4.0 * (fn + AMULET_BONUS_DOSES) * TAX_MULTIPLIER
               - (b + s * (if r_GogglesAllowed r then GOGGLES_SECONDARY_MULT else 1.0)))%float.
Proof.
  intros H Hv.
  destruct (compute_recipe_full_of _ _ _ H) as [l Hl].
  destruct (compute_recipe_full_valid _ _ _ _ Hl Hv)
    as (z & fn & c & h & bms & sms & b & s & p & HN & _ & Hfn & _ & _ & _ & _ & _ & Hb & Hs
        & _ & _ & Hcb & Hcs & Hppd & Htc & Hrat & _ & (a & t & Ha & Ht & Hp & _)).
  rewrite Hrat in Ha. injection Ha as <-. rewrite Htc in Ht. injection Ht as <-.
  unfold price_per_dose_of_output in Hppd. bind_inv Hppd.
  destruct v as [p4|]; [| discriminate]. injection Hppd as <-.
  exists z, fn, bms, sms, b, s, p4. repeat split; assumption.
Qed.

Lemma X8_witness :
  exists z fn bms sms b s p4,
    r_N elixir_result = Some z /\ Py.float_of_Z z = Ok fn
    /\ base_mats_of elixir_fields = PList bms /\ sec_mats_of elixir_fields = PList sms
    /\ compute_material_cost example_index bms (r_RecipeType elixir_result) (Some z)
       = Ok (Some b)
    /\ compute_material_cost example_index sms (r_RecipeType elixir_result) (Some z)
       = Ok (Some s)
    /\ price_of example_index (r_OutputItemName elixir_result) = Ok (Some p4)
    /\ r_profit_per_craft elixir_result
       = Some (p4 / 4.0 * (fn + AMULET_BONUS_DOSES) * TAX_MULTIPLIER
               - (b + s * (if r_GogglesAllowed elixir_result
                           then GOGGLES_SECONDARY_MULT else 1.0)))%float.
Proof.
  apply (X8_profit_formula example_index elixir_fields elixir_result);
    vm_compute; reflexivity.
Defined.

(** ** Runs over a whole catalog *)

Lemma compute_all_each name_to_price recipes : forall computed,
  compute_all name_to_price recipes = Ok computed ->
  Forall2 (fun recipe r => compute_recipe name_to_price recipe = Ok r) recipes computed.
Proof.
  induction recipes as [|recipe recipes IH]; intros computed H; simpl in H.
  - injection H as <-. constructor.
  - bind_inv H. bind_inv H. injection H as <-. constructor; [exact Hm | apply IH; exact Hm0].
Qed.

Lemma valid_needs_output_price name_to_price recipe r :
  compute_recipe name_to_price recipe = Ok r ->
  r_valid r = true ->
  exists p4, price_of name_to_price (r_OutputItemName r) = Ok (Some p4).
Proof.
  intros H Hv. destruct (compute_recipe_of_dict _ _ _ H) as [d ->].
  destruct (compute_recipe_full_of _ _ _ H) as [l Hl].
  destruct (compute_recipe_full_valid _ _ _ _ Hl Hv)
    as (z & fn & c & h & bms & sms & b & s & p & _ & _ & _ & _ & _ & _ & _ & _ & _ & _
        & _ & _ & _ & _ & Hppd & _).
  unfold price_per_dose_of_output in Hppd. bind_inv Hppd.
  destruct v as [p4|]; [eauto | discriminate].
Qed.

Lemma price_of_empty item p : price_of ∅ item <> Ok (Some p).
Proof.
  unfold price_of.
  destruct (negb (Py.truthy item) || is_marker_missing item); [discriminate |].
  destruct item; first [discriminate | rewrite !lookup_empty; discriminate].
Qed.

Lemma Forall2_Forall_r {A B : Type} (P : B -> Prop) (R : A -> B -> Prop) l1 l2 :
  (forall a b, R a b -> P b) -> Forall2 R l1 l2 -> Forall P l2.
Proof. intros HR H. induction H; constructor; eauto. Qed.

Lemma filter_none {A : Type} (f : A -> bool) l :
  Forall (fun x => f x = false) l -> List.filter f l = [].
Proof. induction 1 as [|x l Hx Hl IH]; simpl; [reflexivity | rewrite Hx; exact IH]. Qed.

(** X9. Without prices there is no valid recipe: when the index built from
    the dump is empty, as it is for a dump that is no dict, every record of
    Table A is invalid and Table B is empty. *)
Theorem X9_empty_index_no_valid_recipe dump recipes ta tb :
  build_name_to_price dump = Ok ∅ ->
  run_tables dump recipes = Ok (ta, tb) ->
  Forall (fun r => r_valid r = false) ta /\ tb = [].
Proof.
  intros Hb H. unfold run_tables in H.
  bind_inv H. rename v into kept, Hm into Hkept.
  bind_inv H. rename v into idx, Hm into Hidx. rewrite Hb in Hidx. injection Hidx as <-.
  bind_inv H. rename v into computed, Hm into Hall0. injection H as <- <-.
  assert (Hall : Forall (fun r => r_valid r = false) computed).
  { apply compute_all_each in Hall0. revert Hall0. apply Forall2_Forall_r.
    intros recipe r Hr. destruct (r_valid r) eqn:Hv; [| reflexivity].
    destruct (valid_needs_output_price _ _ _ Hr Hv) as [p4 Hp].
    destruct (price_of_empty _ _ Hp). }
  assert (Hta : Forall (fun r => r_valid r = false) (table_a computed)).
  { rewrite List.Forall_forall in *. intros r Hr. apply Hall.
    eapply Permutation_in; [apply table_a_perm | exact Hr]. }
  split; [exact Hta |].
  unfold table_b. apply filter_none.
  revert Hta. apply List.Forall_impl. intros r Hr. unfold table_b_keeps. rewrite Hr.
  reflexivity.
Qed.

Lemma X9_witness :
  Forall (fun r => r_valid r = false)
    [{| r_RecipeName := PStr "Elixir";
        r_OutputItemName := PStr "Elixir(4)";
        r_RecipeType := PStr "potion";
        r_N := Some 4;
        r_XP_per_craft := Some 100%float;
        r_XP_per_hour := Some 400000%float;
        r_crafts_per_hour := None;
        r_profit_per_craft := None;
        r_gp_per_hour := None;
        r_valid := false;
        r_invalid_reasons := ["Missing price for base material: 'Grimy herb'"];
        r_GogglesAllowed := true |}]
  /\ @nil EvaluatedRecipe = [].
Proof.
  apply (X9_empty_index_no_valid_recipe (PStr "not found") [PDict elixir_fields]);
    vm_compute; reflexivity.
Defined.

(** X10. When a structural check fails, nothing else is looked at: the
    reasons of the returned record are the reasons of the structural checks
    alone, each one the reason of a check that failed, and no reason about a
    price is among them. *)
Theorem X10_structural_failure_hides_prices name_to_price d r (c : structural_check) :
  compute_recipe name_to_price (PDict d) = Ok r ->
  check_fails c (base_mats_of d) (sec_mats_of d)
    (r_OutputItemName r) (r_N r) (r_XP_per_craft r) (r_XP_per_hour r) = true ->
  r_invalid_reasons r
  = structural_reasons (base_mats_of d) (sec_mats_of d)
      (r_OutputItemName r) (r_N r) (r_XP_per_craft r) (r_XP_per_hour r)
  /\ Forall (fun reason =>
               exists c', reason = check_reason c'
                          /\ check_fails c' (base_mats_of d) (sec_mats_of d)
                               (r_OutputItemName r) (r_N r)
                               (r_XP_per_craft r) (r_XP_per_hour r) = true)
       (r_invalid_reasons r).
Proof.
  intros Hr Hfail.
  destruct (compute_recipe_reads name_to_price d r Hr) as (HN & Hc & Hh & Hout & Hfloat).
  rewrite Hout in *.
  destruct (compute_recipe_structurally_invalid name_to_price d _ _ _ HN Hc Hh Hfloat)
    as (r' & Hr' & Hreasons).
  { eapply structural_reasons_nonempty; exact Hfail. }
  rewrite Hr in Hr'. injection Hr' as <-.
  split; [exact Hreasons |].
  rewrite Hreasons. apply List.Forall_forall. intros reason Hin.
  assert (Hpos : (count_occ string_dec
                    (structural_reasons (base_mats_of d) (sec_mats_of d)
                       (Py.dict_get d "OutputItemName" (PStr "")) (r_N r)
                       (r_XP_per_craft r) (r_XP_per_hour r)) reason > 0)%nat)
    by (apply count_occ_In; exact Hin).
  unfold structural_reasons in Hin.
  assert (Hcases : exists c', reason = check_reason c').
  { revert Hin. unfold append_if.
    repeat match goal with |- context [if ?b then _ else _] => destruct b end;
      cbn [app In]; intros Hin;
      repeat match type of Hin with
             | _ \/ _ => destruct Hin as [<- | Hin]
             | False => destruct Hin
             end;
      first [ exists Check_shape; reflexivity | exists Check_output_name; reflexivity
            | exists Check_N; reflexivity | exists Check_XP_per_craft; reflexivity
            | exists Check_XP_per_hour; reflexivity ]. }
  destruct Hcases as [c' ->]. exists c'. split; [reflexivity |].
  rewrite structural_reasons_count in Hpos.
  destruct (check_fails c' _ _ _ _ _ _); [reflexivity | lia].
Qed.

Lemma X10_witness :
  r_invalid_reasons nameless_result
  = structural_reasons
      (base_mats_of [("RecipeName", PStr "Nameless brew");
                     ("OutputItemName", PStr "__MISSING__output");
                     ("RecipeType", PStr "potion"); ("N", PInt 3);
                     ("XP_per_craft", PFloat 87.5); ("XP_per_hour", PInt 210000);
                     ("BaseMaterials", PList []); ("SecondaryMaterials", PList [])])
      (sec_mats_of [("RecipeName", PStr "Nameless brew");
                    ("OutputItemName", PStr "__MISSING__output");
                    ("RecipeType", PStr "potion"); ("N", PInt 3);
                    ("XP_per_craft", PFloat 87.5); ("XP_per_hour", PInt 210000);
                    ("BaseMaterials", PList []); ("SecondaryMaterials", PList [])])
      (r_OutputItemName nameless_result) (r_N nameless_result)
      (r_XP_per_craft nameless_result) (r_XP_per_hour nameless_result)
  /\ Forall (fun reason =>
               exists c', reason = check_reason c'
                          /\ check_fails c'
                               (base_mats_of [("RecipeName", PStr "Nameless brew");
                                  ("OutputItemName", PStr "__MISSING__output");
                                  ("RecipeType", PStr "potion"); ("N", PInt 3);
                                  ("XP_per_craft", PFloat 87.5); ("XP_per_hour", PInt 210000);
                                  ("BaseMaterials", PList []); ("SecondaryMaterials", PList [])])
                               (sec_mats_of [("RecipeName", PStr "Nameless brew");
                                  ("OutputItemName", PStr "__MISSING__output");
                                  ("RecipeType", PStr "potion"); ("N", PInt 3);
                                  ("XP_per_craft", PFloat 87.5); ("XP_per_hour", PInt 210000);
                                  ("BaseMaterials", PList []); ("SecondaryMaterials", PList [])])
                               (r_OutputItemName nameless_result) (r_N nameless_result)
                               (r_XP_per_craft nameless_result)
                               (r_XP_per_hour nameless_result) = true)
       (r_invalid_reasons nameless_result).
Proof.
  apply (X10_structural_failure_hides_prices ∅ _ nameless_result Check_output_name);
    vm_compute; reflexivity.
Defined.

(** ** The two price checks *)

Lemma price_of_lower_key name_to_price s q :
  s <> "" -> is_marker_missing (PStr s) = false ->
  name_to_price !! Py.lower s = Some q ->
  exists p, price_of name_to_price (PStr s) = Ok (Some p).
Proof.
  intros Hne Hmiss Hq. unfold price_of. cbn [Py.truthy].
  destruct (String.eqb_spec s "") as [-> | _]; [contradiction |].
  cbn [negb orb]. rewrite Hmiss, Hq.
  destruct (name_to_price !! s) as [p|]; [| eauto].
  destruct (Py.float_truthy p); eauto.
Qed.

Lemma material_cost_loop_absent name_to_price kind mats n : forall total,
  early_price_check kind name_to_price mats = Ok [] ->
  material_cost_loop name_to_price mats n total = Ok None ->
  Exists (fun m => line_quantity m = None \/ line_item m = PStr "") mats.
Proof.
  induction mats as [|m mats IH]; intros total He Hc; [discriminate |].
  cbn [early_price_check] in He. bind_inv He. rename v into item, Hm into Hget.
  destruct m; try discriminate. cbn [Py.get] in Hget. injection Hget as <-.
  set (item := Py.dict_get d "ItemName" PNone) in *.
  destruct (is_marker_missing item) eqn:Hmiss; [discriminate |].
  destruct item as [| | | | s | |] eqn:Hitem; try discriminate.
  destruct (name_to_price !! Py.lower s) as [q|] eqn:Hq; [| discriminate].
  cbn [material_cost_loop Py.get rbind] in Hc. fold item in Hc. rewrite Hitem in Hc.
  destruct (safe_float (Py.dict_get d "Quantity" PNone)) as [qty|] eqn:Hqty;
    [| discriminate].
  cbn [rbind] in Hc. rewrite Hmiss in Hc.
  destruct qty as [qty|].
  2:{ left. left. cbn [line_quantity]. rewrite Hqty. reflexivity. }
  destruct (String.eqb_spec s "") as [-> | Hne].
  { left. right. cbn [line_item]. fold item. rewrite Hitem. reflexivity. }
  destruct (price_of_lower_key name_to_price s q Hne Hmiss Hq) as [p Hp].
  right.
  destruct (if Py.truthy (Py.dict_get d "DoseScaledFromFourPerDose" (PBool false))
            then true
            else Py.truthy (Py.dict_get d "IsDoseScaledFromFour" (PBool false)));
    rewrite Hp in Hc; cbn [rbind] in Hc.
  - destruct (float_of_opt_int n); [| discriminate]. cbn [rbind] in Hc.
    eapply IH; eassumption.
  - eapply IH; eassumption.
Qed.

(** X11. After the early price check has passed for a materials list, the
    cost of that list is absent only for a line whose quantity cannot be
    read or whose item name is empty: never for a missing price, which is
    what the reason then given says. *)
Theorem X11_absent_cost_after_early_check name_to_price kind mats recipe_type n :
  early_price_check kind name_to_price mats = Ok [] ->
  compute_material_cost name_to_price mats recipe_type n = Ok None ->
  Exists (fun m => line_quantity m = None \/ line_item m = PStr "") mats.
Proof.
  intros He Hc. unfold compute_material_cost in Hc.
  eapply material_cost_loop_absent; eassumption.
Qed.

Lemma X11_witness :
  Exists (fun m => line_quantity m = None \/ line_item m = PStr "")
    [PDict [("ItemName", PStr "Grimy herb"); ("Quantity", PStr "a few")]].
Proof.
  apply (X11_absent_cost_after_early_check example_index "base"
           [PDict [("ItemName", PStr "Grimy herb"); ("Quantity", PStr "a few")]]
           (PStr "potion") (Some 4));
    vm_compute; reflexivity.
Defined.

(** ** Exceptions *)

(** X12. [compute_recipe] raises no exception on a recipe of the data
    model: a dict whose numeric fields [safe_float] can read, whose output
    name is a string or null, and whose materials lists, where they are
    lists, hold dicts with a string or null item name and a readable
    quantity. *)
Theorem X12_no_exception_on_data_model name_to_price d :
  recipe_well_formed d = true ->
  exists r, compute_recipe name_to_price (PDict d) = Ok r.
Proof. apply compute_recipe_returns. Qed.

Lemma X12_witness : exists r, compute_recipe example_index (PDict elixir_fields) = Ok r.
Proof.
  apply (X12_no_exception_on_data_model example_index elixir_fields).
  vm_compute. reflexivity.
Defined.

Lemma compute_all_app_raise name_to_price front recipe back e :
  Forall (fun x => is_ok (compute_recipe name_to_price x) = true) front ->
  compute_recipe name_to_price recipe = Raise e ->
  compute_all name_to_price (front ++ recipe :: back) = Raise e.
Proof.
  intros Hfront Hr. induction Hfront as [|x front Hx Hfront IH]; cbn [app compute_all].
  - rewrite Hr. reflexivity.
  - destruct (compute_recipe name_to_price x); [| discriminate].
    cbn [rbind]. rewrite IH. reflexivity.
Qed.

(** X13. Exceptions are not recovered per recipe: a recipe that is no dict
    makes [compute_recipe] raise [AttributeError], an int N beyond the float
    range makes it raise [OverflowError], and the first recipe of a catalog
    on which [compute_recipe] raises makes the evaluation of the whole
    catalog raise the same exception. *)
Theorem X13_one_recipe_aborts_the_run :
  (forall name_to_price recipe,
     match recipe with PDict _ => False | _ => True end ->
     compute_recipe name_to_price recipe = Raise AttributeError)
  /\ (forall name_to_price d z,
        Py.dict_get d "N" PNone = PInt z ->
        Py.float_of_Z z = Raise OverflowError ->
        compute_recipe name_to_price (PDict d) = Raise OverflowError)
  /\ (forall name_to_price front recipe back e,
        Forall (fun x => is_ok (compute_recipe name_to_price x) = true) front ->
        compute_recipe name_to_price recipe = Raise e ->
        compute_all name_to_price (front ++ recipe :: back) = Raise e).
Proof.
  split; [| split].
  - intros name_to_price recipe Hd. destruct recipe; try contradiction; reflexivity.
  - intros name_to_price d z HN Hz.
    unfold compute_recipe, compute_recipe_full. cbn [Py.get rbind].
    rewrite HN. unfold safe_int, safe_float. cbn [is_marker_missing].
    rewrite Hz. reflexivity.
  - apply compute_all_app_raise.
Qed.

Lemma X13_witness :
  compute_recipe example_index (PStr "Elixir") = Raise AttributeError
  /\ compute_recipe example_index (PDict [("RecipeName", PStr "Huge"); ("N", PInt (10 ^ 400))])
     = Raise OverflowError
  /\ compute_all example_index
       ([PDict elixir_fields] ++ PList [] :: [PDict example_fields])
     = Raise AttributeError.
Proof.
  split; [| split].
  - apply (proj1 X13_one_recipe_aborts_the_run example_index (PStr "Elixir")). exact I.
  - apply (proj1 (proj2 X13_one_recipe_aborts_the_run) example_index
             [("RecipeName", PStr "Huge"); ("N", PInt (10 ^ 400))] (10 ^ 400));
      vm_compute; reflexivity.
  - apply (proj2 (proj2 X13_one_recipe_aborts_the_run) example_index
             [PDict elixir_fields] (PList []) [PDict example_fields] AttributeError).
    + constructor; [vm_compute; reflexivity | constructor].
    + reflexivity.
Defined.

(** ** The tables of a run *)

Lemma is_surge_potion_spec recipe b :
  is_surge_potion recipe = Ok b -> b = surge_name (recipe_name recipe).
Proof.
  unfold is_surge_potion. destruct recipe; try discriminate. cbn [Py.get rbind recipe_name].
  unfold surge_name. destruct (Py.dict_get d "RecipeName" (PStr "")); congruence.
Qed.

Lemma drop_surge_potion_spec recipes : forall kept,
  drop_surge_potion recipes = Ok kept ->
  kept = List.filter (fun x => negb (surge_name (recipe_name x))) recipes.
Proof.
  induction recipes as [|x recipes IH]; intros kept H; simpl in H.
  - injection H as <-. reflexivity.
  - bind_inv H. bind_inv H. injection H as <-.
    apply is_surge_potion_spec in Hm. subst v. rewrite (IH _ Hm0). simpl.
    destruct (surge_name (recipe_name x)); reflexivity.
Qed.

Lemma compute_recipe_name name_to_price recipe r :
  compute_recipe name_to_price recipe = Ok r -> r_RecipeName r = recipe_name recipe.
Proof.
  intros H. destruct (compute_recipe_of_dict _ _ _ H) as [d ->].
  unfold compute_recipe, compute_recipe_full in H. cbn [Py.get rbind] in H.
  bind_inv H. destruct v as [r' l]. injection H as <-. rename Hm into H.
  repeat bind_step H. injection H as <- _. reflexivity.
Qed.

Lemma compute_all_names name_to_price recipes computed :
  compute_all name_to_price recipes = Ok computed ->
  map r_RecipeName computed = map recipe_name recipes.
Proof.
  intros H. apply compute_all_each in H.
  induction H as [|x r recipes computed Hr _ IH]; simpl; [reflexivity |].
  rewrite IH, (compute_recipe_name _ _ _ Hr). reflexivity.
Qed.

(** X14. Table A holds one record for every recipe of the catalog that is
    not named surge potion, and no other: the names of its records are, up
    to order, the names of those recipes. *)
Theorem X14_table_a_is_the_catalog dump recipes ta tb :
  run_tables dump recipes = Ok (ta, tb) ->
  Permutation (map r_RecipeName ta)
    (map recipe_name (List.filter (fun x => negb (surge_name (recipe_name x))) recipes)).
Proof.
  intros H. unfold run_tables in H.
  bind_inv H. rename v into kept, Hm into Hkept.
  bind_inv H. rename v into idx, Hm into Hidx.
  bind_inv H. rename v into computed, Hm into Hall. injection H as <- <-.
  apply drop_surge_potion_spec in Hkept. subst kept.
  rewrite <- (compute_all_names _ _ _ Hall).
  apply Permutation_map. apply table_a_perm.
Qed.

Lemma X14_witness :
  Permutation (map r_RecipeName [elixir_result; tonic_result])
    (map recipe_name
       (List.filter (fun x => negb (surge_name (recipe_name x)))
          [PDict example_fields; PDict surge_fields; PDict elixir_fields])).
Proof.
  apply (X14_table_a_is_the_catalog example_dump
           [PDict example_fields; PDict surge_fields; PDict elixir_fields]
           [elixir_result; tonic_result] [elixir_result]).
  vm_compute. reflexivity.
Defined.

(** X15. No record of Table A or of Table B is named surge potion, in any
    letter case and with any whitespace around the name. *)
Theorem X15_no_surge_potion_in_tables dump recipes ta tb :
  run_tables dump recipes = Ok (ta, tb) ->
  Forall (fun r => surge_name (r_RecipeName r) = false) ta
  /\ Forall (fun r => surge_name (r_RecipeName r) = false) tb.
Proof.
  intros H. unfold run_tables in H.
  bind_inv H. rename v into kept, Hm into Hkept.
  bind_inv H. rename v into idx, Hm into Hidx.
  bind_inv H. rename v into computed, Hm into Hall. injection H as <- <-.
  apply drop_surge_potion_spec in Hkept. subst kept.
  assert (Hc : Forall (fun r => surge_name (r_RecipeName r) = false) computed).
  { apply compute_all_each in Hall. revert Hall.
    generalize (List.filter_In (fun x => negb (surge_name (recipe_name x))) ).
    intros Hf H2.
    assert (Hkept : Forall (fun x => surge_name (recipe_name x) = false)
                      (List.filter (fun x => negb (surge_name (recipe_name x))) recipes)).
    { apply List.Forall_forall. intros x Hx. apply Hf in Hx as [_ Hx].
      apply negb_true_iff in Hx. exact Hx. }
    clear Hf. induction H2 as [|x r l1 l2 Hr _ IH]; [constructor |].
    inversion Hkept; subst. constructor; [| apply IH; assumption].
    rewrite (compute_recipe_name _ _ _ Hr). assumption. }
  assert (Hta : Forall (fun r => surge_name (r_RecipeName r) = false) (table_a computed)).
  { rewrite List.Forall_forall in *. intros r Hr. apply Hc.
    eapply Permutation_in; [apply table_a_perm | exact Hr]. }
  split; [exact Hta |].
  unfold table_b. rewrite List.Forall_forall in *. intros r Hr.
  apply List.filter_In in Hr as [Hr _]. apply Hta. exact Hr.
Qed.

Lemma X15_witness :
  Forall (fun r => surge_name (r_RecipeName r) = false) [elixir_result; tonic_result]
  /\ Forall (fun r => surge_name (r_RecipeName r) = false) [elixir_result].
Proof.
  apply (X15_no_surge_potion_in_tables example_dump
           [PDict example_fields; PDict surge_fields; PDict elixir_fields]).
  vm_compute. reflexivity.
Defined.

(** X16. When no sort key is a NaN, the sort is stable on the invalid
    records: in Table A they stand in the order the catalog lists them. The
    hypothesis is what makes Table A the list [sorted] returns; with a NaN
    key CPython can move an invalid record past another. *)
Theorem X16_invalid_records_keep_catalog_order computed :
  Forall (fun r => is_nan (sort_key r) = false) computed ->
  List.filter (fun r => negb (r_valid r)) (table_a computed)
  = List.filter (fun r => negb (r_valid r)) computed.
Proof. intros _. apply table_a_invalid_order. Qed.

Lemma X16_witness :
  List.filter (fun r => negb (r_valid r))
    (table_a [nameless_result; tonic_result; unbrewed_result; elixir_result])
  = [nameless_result; unbrewed_result].
Proof.
  rewrite (X16_invalid_records_keep_catalog_order
             [nameless_result; tonic_result; unbrewed_result; elixir_result]).
  - reflexivity.
  - repeat constructor.
Defined.

(** X17. When no sort key is a NaN, Table A is in descending order: of two
    valid records the one listed first has no smaller gp per hour, and a
    valid record can stand after an invalid one only with a gp per hour
    that is not above negative infinity. *)
Theorem X17_table_a_descends computed l1 a l2 b l3 :
  Forall (fun r => is_nan (sort_key r) = false) computed ->
  table_a computed = (l1 ++ a :: l2 ++ b :: l3)%list ->
  (forall ga gb,
     r_valid a = true -> r_valid b = true ->
     r_gp_per_hour a = Some ga -> r_gp_per_hour b = Some gb ->
     PrimFloat.ltb ga gb = false)
  /\ (forall gb,
        r_valid a = false -> r_valid b = true -> r_gp_per_hour b = Some gb ->
        PrimFloat.ltb neg_infinity gb = false).
Proof. apply table_a_order. Qed.

Lemma X17_witness :
  (forall ga gb,
     r_valid elixir_result = true -> r_valid tonic_result = true ->
     r_gp_per_hour elixir_result = Some ga -> r_gp_per_hour tonic_result = Some gb ->
     PrimFloat.ltb ga gb = false)
  /\ (forall gb,
        r_valid elixir_result = false -> r_valid tonic_result = true ->
        r_gp_per_hour tonic_result = Some gb ->
        PrimFloat.ltb neg_infinity gb = false).
Proof.
  apply (X17_table_a_descends [nameless_result; tonic_result; elixir_result]
           [] elixir_result [] tonic_result [nameless_result]).
  - repeat constructor.
  - vm_compute. reflexivity.
Defined.

(** ** Numbers that are not finite *)

Lemma is_finite_spec (x : float) :
  is_finite x = match Prim2SF x with
                | S754_zero _ | S754_finite _ _ _ => true
                | _ => false
                end.
Proof.
  unfold is_finite, is_nan, is_infinity.
  rewrite !FloatAxioms.eqb_spec, abs_spec.
  change (Prim2SF infinity) with (S754_infinity false).
  destruct (Prim2SF x) as [s | s | | s m e]; try reflexivity.
  - destruct s; reflexivity.
  - unfold SFeqb, SFcompare, SFabs.
    change (Pos.compare_cont Eq m m) with (Pos.compare m m).
    rewrite Z.compare_refl, Pos.compare_refl. destruct s; reflexivity.
Qed.

(** X18. [safe_int] raises only where [safe_float] does, and it is absent
    exactly when [safe_float] is absent or gives a number that is not
    finite: the error of converting an infinity or a NaN to an int is
    caught. *)
Theorem X18_safe_int_absent_or_finite (value : pyval) :
  (forall e, safe_float value = Raise e -> safe_int value = Raise e)
  /\ (safe_float value = Ok None -> safe_int value = Ok None)
  /\ (forall f, safe_float value = Ok (Some f) ->
        (is_finite f = false -> safe_int value = Ok None)
        /\ (is_finite f = true -> exists z, safe_int value = Ok (Some z))).
Proof.
  unfold safe_int. split; [| split].
  - intros e ->. reflexivity.
  - intros ->. reflexivity.
  - intros f ->. cbn [rbind]. rewrite is_finite_spec. unfold Py.int_of_float.
    destruct (Prim2SF f); split; intros H; try discriminate; eauto.
Qed.

Lemma X18_witness :
  safe_int (PInt (10 ^ 400)) = Raise OverflowError
  /\ safe_int (PStr "__MISSING__") = Ok None
  /\ safe_int (PStr "1e999") = Ok None
  /\ exists z, safe_int (PStr "1,234.9") = Ok (Some z).
Proof.
  split; [| split; [| split]].
  - apply (proj1 (X18_safe_int_absent_or_finite (PInt (10 ^ 400))) OverflowError).
    vm_compute. reflexivity.
  - apply (proj1 (proj2 (X18_safe_int_absent_or_finite (PStr "__MISSING__")))).
    reflexivity.
  - apply (proj1 (proj2 (proj2 (X18_safe_int_absent_or_finite (PStr "1e999"))) infinity
                    ltac:(vm_compute; reflexivity))).
    reflexivity.
  - apply (proj2 (proj2 (proj2 (X18_safe_int_absent_or_finite (PStr "1,234.9")))
                    1234.9%float ltac:(vm_compute; reflexivity))).
    reflexivity.
Defined.

(** ** Report rendering *)

Lemma numeric_text_app (a b : string) :
  numeric_text (a ++ b) = numeric_text a && numeric_text b.
Proof.
  induction a as [| c a IH]; [reflexivity |].
  change (numeric_text (String c (a ++ b)) = numeric_text (String c a) && numeric_text b).
  cbn [numeric_text]. rewrite IH. apply andb_assoc.
Qed.

Lemma numeric_text_uint (d : Decimal.uint) :
  numeric_text (NilEmpty.string_of_uint d) = true.
Proof. induction d; cbn [NilEmpty.string_of_uint numeric_text]; try rewrite IHd; reflexivity. Qed.

Lemma numeric_text_dec (n : N) : numeric_text (PyFormat.dec n) = true.
Proof. apply numeric_text_uint. Qed.

Lemma numeric_text_group (s : string) :
  numeric_text s = true -> forall k, numeric_text (PyFormat.group k s) = true.
Proof.
  induction s as [| c s IH]; [reflexivity |].
  cbn [numeric_text]. intros [Hc Hs]%andb_true_iff k.
  cbn [PyFormat.group numeric_text]. rewrite Hc.
  destruct ((0 <? pred k)%nat && (pred k mod 3 =? 0)%nat);
    cbn [numeric_text andb]; try (change (numeric_char ",") with true; cbn [andb]);
    apply IH; exact Hs.
Qed.

Lemma numeric_text_with_commas (n : N) :
  numeric_text (PyFormat.with_commas (PyFormat.dec n)) = true.
Proof. apply numeric_text_group, numeric_text_dec. Qed.

Lemma numeric_text_zeros (n : nat) : numeric_text (PyFormat.zeros n) = true.
Proof. induction n; [reflexivity |]. cbn [PyFormat.zeros numeric_text]. rewrite IHn. reflexivity. Qed.

Lemma numeric_text_format_int (z : Z) : numeric_text (PyFormat.format_int z) = true.
Proof.
  unfold PyFormat.format_int. rewrite numeric_text_app, numeric_text_with_commas.
  destruct (z <? 0)%Z; reflexivity.
Qed.

Lemma numeric_text_fixed_point (neg : bool) (q : Z) (digits : nat) :
  numeric_text (PyFormat.fixed_point neg q digits) = true.
Proof.
  unfold PyFormat.fixed_point.
  rewrite !numeric_text_app, numeric_text_with_commas.
  assert (Hs : numeric_text (if neg then "-" else "") = true) by (destruct neg; reflexivity).
  rewrite Hs. cbn [andb].
  destruct digits as [| d]; [reflexivity |].
  rewrite numeric_text_app. unfold PyFormat.pad_zeros.
  rewrite numeric_text_app, numeric_text_zeros, numeric_text_dec. reflexivity.
Qed.

(** A float that is finite is printed as a number. *)
Lemma fmt_num_finite (f : float) (decimals : nat) :
  is_finite f = true ->
  exists s, fmt_num (PFloat f) decimals = Ok s /\ numeric_text s = true.
Proof.
  intros Hf. unfold fmt_num.
  assert (Hn : is_nan f || is_infinity f = false).
  { unfold is_finite in Hf. apply negb_true_iff in Hf. exact Hf. }
  rewrite Hn. rewrite is_finite_spec in Hf.
  destruct (decimals =? 0)%nat.
  - unfold round_value, PyFormat.round.
    destruct (Prim2SF f) as [s | s | | s m e]; try discriminate; cbn [rbind];
      eexists; (split; [reflexivity | apply numeric_text_format_int]).
  - unfold format_value, PyFormat.format_fixed.
    destruct (Prim2SF f) as [s | s | | s m e]; try discriminate;
      eexists; (split; [reflexivity | apply numeric_text_fixed_point]).
Qed.

Lemma fmt_num_not_finite (f : float) (decimals : nat) :
  is_finite f = false -> fmt_num (PFloat f) decimals = Ok "N/A".
Proof.
  intros Hf. unfold fmt_num.
  unfold is_finite in Hf. apply negb_false_iff in Hf. rewrite Hf. reflexivity.
Qed.

(** X19. [fmt_num] never raises on an absent value or a float. It prints
    [N/A] exactly when the value is absent or is a float that is not finite;
    any other float is printed with digits, a sign, commas and a point
    only. *)
Theorem X19_fmt_num_marks_what_is_not_a_number (x : option float) (decimals : nat) :
  exists s,
    fmt_num (opt_float x) decimals = Ok s
    /\ (s = "N/A" <-> (x = None \/ exists f, x = Some f /\ is_finite f = false))
    /\ (s <> "N/A" -> numeric_text s = true).
Proof.
  destruct x as [f |].
  - destruct (is_finite f) eqn:Hf.
    + destruct (fmt_num_finite f decimals Hf) as (s & Hs & Hn).
      exists s. split; [exact Hs |]. split; [| intros _; exact Hn].
      split.
      * intros ->. discriminate Hn.
      * intros [H | (g & Hg & Hfin)]; [discriminate |].
        injection Hg as <-. congruence.
    + exists "N/A". split; [apply fmt_num_not_finite; exact Hf |].
      split; [| congruence].
      split; [| reflexivity].
      intros _. right. exists f. split; [reflexivity | exact Hf].
  - exists "N/A". split; [reflexivity |]. split; [| congruence].
    split; [| reflexivity]. intros _. left. reflexivity.
Qed.

Lemma fmt_num_opt_float (x : option float) (decimals : nat) :
  exists s, fmt_num (opt_float x) decimals = Ok s.
Proof.
  destruct x as [f |]; [| eexists; reflexivity].
  cbn [opt_float].
  destruct (is_finite f) eqn:Hf.
  - destruct (fmt_num_finite f decimals Hf) as (s & Hs & _). eauto.
  - rewrite (fmt_num_not_finite f decimals Hf). eauto.
Qed.

Lemma compute_recipe_invalid_fields name_to_price recipe r :
  compute_recipe name_to_price recipe = Ok r ->
  r_valid r = false ->
  r_crafts_per_hour r = None /\ r_profit_per_craft r = None /\ r_gp_per_hour r = None.
Proof.
  unfold compute_recipe. intros H Hv. bind_inv H. destruct v as [r' l].
  injection H as <-. simpl in Hv.
  apply compute_recipe_full_shape in Hm as (rat & tc & Hp & Hvalid & _).
  assert (Hne : r_invalid_reasons r' <> []).
  { intros Hnil. rewrite Hnil in Hvalid. simpl in Hvalid. congruence. }
  apply (profit_and_rates_invalid _ _ _ _ _ _ Hne) in Hp.
  injection Hp as -> -> ->. auto.
Qed.

(** X20. The row of the report for a record that [compute_recipe] returned
    as invalid is rendered without an exception, and its cells for crafts per
    hour, profit per craft and gp per hour read [N/A]. *)
Theorem X20_invalid_row_shows_no_economics
    (repr_of : pyval -> string) name_to_price recipe r :
  compute_recipe name_to_price recipe = Ok r ->
  r_valid r = false ->
  exists name output n xp_craft xp_hour,
    row_values repr_of report_decimals (to_dict r) (map fst report_columns)
    = Ok [name; output; n; xp_craft; xp_hour; "N/A"; "N/A"; "N/A"].
Proof.
  intros H Hv.
  destruct (compute_recipe_invalid_fields _ _ _ H Hv) as (Hc & Hp & Hg).
  destruct (fmt_num_opt_float (r_XP_per_craft r) 2) as (xc & Hxc).
  destruct (fmt_num_opt_float (r_XP_per_hour r) 0) as (xh & Hxh).
  do 3 eexists. exists xc, xh.
  unfold to_dict, report_columns, report_decimals.
  cbn [map fst row_values cell Py.get Py.dict_get Py.assoc rbind String.eqb Ascii.eqb
       Bool.eqb orb decimals_of].
  rewrite Hc, Hp, Hg, Hxc, Hxh. cbn [rbind fmt_num opt_float]. reflexivity.
Qed.

Lemma X20_witness :
  exists name output n xp_craft xp_hour,
    row_values no_repr report_decimals (to_dict nameless_result) (map fst report_columns)
    = Ok [name; output; n; xp_craft; xp_hour; "N/A"; "N/A"; "N/A"].
Proof.
  apply (X20_invalid_row_shows_no_economics no_repr ∅ nameless_recipe).
  - vm_compute. reflexivity.
  - reflexivity.
Defined.

Lemma row_values_to_dict (repr_of : pyval -> string) (r : EvaluatedRecipe) :
  exists vals,
    row_values repr_of report_decimals (to_dict r) (map fst report_columns) = Ok vals
    /\ length vals = length report_columns.
Proof.
  destruct (fmt_num_opt_float (r_XP_per_craft r) 2) as (xc & Hxc).
  destruct (fmt_num_opt_float (r_XP_per_hour r) 0) as (xh & Hxh).
  destruct (fmt_num_opt_float (r_crafts_per_hour r) 2) as (ch & Hch).
  destruct (fmt_num_opt_float (r_profit_per_craft r) 2) as (pc & Hpc).
  destruct (fmt_num_opt_float (r_gp_per_hour r) 0) as (gp & Hgp).
  unfold to_dict, report_columns, report_decimals.
  cbn [map fst row_values cell Py.get Py.dict_get Py.assoc rbind String.eqb Ascii.eqb
       Bool.eqb orb decimals_of].
  rewrite Hxc, Hxh, Hch, Hpc, Hgp. cbn [rbind].
  eexists. split; reflexivity.
Qed.

Lemma table_lines_to_dict (repr_of : pyval -> string) (records : list EvaluatedRecipe) :
  exists lines,
    table_lines repr_of (map to_dict records) report_columns report_decimals = Ok lines
    /\ length lines = length records.
Proof.
  induction records as [| r records (lines & IH & Hlen)].
  - exists []. split; reflexivity.
  - destruct (row_values_to_dict repr_of r) as (vals & Hvals & _).
    cbn [map table_lines]. rewrite Hvals, IH. cbn [rbind].
    eexists. split; [reflexivity |]. cbn [length]. rewrite Hlen. reflexivity.
Qed.

(** X21. The report of any list of records of the shape [compute_recipe]
    returns is rendered without an exception, whatever their numbers are, an
    infinity and a NaN included: there is one line of eight cells per record
    after the header and the separator. *)
Theorem X21_report_renders_every_record
    (repr_of : pyval -> string) (records : list EvaluatedRecipe) :
  exists lines,
    table_lines repr_of (map to_dict records) report_columns report_decimals = Ok lines
    /\ length lines = length records
    /\ Forall (fun r => exists vals,
                 row_values repr_of report_decimals (to_dict r) (map fst report_columns)
                 = Ok vals
                 /\ length vals = 8%nat) records
    /\ markdown_table repr_of (map to_dict records) report_columns report_decimals
       = Ok ("| RecipeName | OutputItemName | N | XP/craft | XP/h | crafts/h | profit/craft | gp/h |"
             ++ newline
             ++ "| --- | --- | --- | --- | --- | --- | --- | --- |"
             ++ newline
             ++ join newline lines ++ newline)%string.
Proof.
  destruct (table_lines_to_dict repr_of records) as (lines & Hl & Hlen).
  exists lines. split; [exact Hl |]. split; [exact Hlen |]. split.
  - apply Forall_forall. intros r _. apply row_values_to_dict.
  - unfold markdown_table. rewrite Hl. cbn [rbind]. reflexivity.
Qed.

(** ** The material cost is all or nothing *)

(** One turn of the loop on a material line of the data model. *)
Lemma material_cost_loop_step name_to_price m rest n fn total :
  line_well_formed m = true ->
  Py.float_of_Z n = Ok fn ->
  material_cost_loop name_to_price (m :: rest) (Some n) total
  = if line_absent name_to_price m then Ok None
    else material_cost_loop name_to_price rest (Some n)
           (total + line_contribution name_to_price fn m)%float.
Proof.
  intros Hm Hn.
  destruct m as [| | | | |  |d]; try discriminate.
  cbn [line_well_formed] in Hm.
  set (item := Py.dict_get d "ItemName" PNone) in *.
  destruct (safe_float (Py.dict_get d "Quantity" PNone)) as [q|e] eqn:Hq;
    [| destruct item; discriminate].
  destruct (price_of name_to_price item) as [p|e] eqn:Hprice.
  2:{ pose proof (price_of_name_ok name_to_price item) as Hp.
      rewrite Hprice in Hp. destruct item; try discriminate; specialize (Hp eq_refl);
        discriminate. }
  assert (Hlq : line_quantity (PDict d) = q) by (cbn [line_quantity]; rewrite Hq; reflexivity).
  assert (Hlp : line_price name_to_price (PDict d) = p).
  { unfold line_price. cbn [line_item]. fold item. rewrite Hprice. reflexivity. }
  assert (Hld : line_dose_scaled (PDict d)
                = if Py.truthy (Py.dict_get d "DoseScaledFromFourPerDose" (PBool false))
                  then true
                  else Py.truthy (Py.dict_get d "IsDoseScaledFromFour" (PBool false))).
  { cbn [line_dose_scaled].
    destruct (Py.truthy (Py.dict_get d "IsDoseScaledFromFour" (PBool false))),
             (Py.truthy (Py.dict_get d "DoseScaledFromFourPerDose" (PBool false)));
      reflexivity. }
  unfold line_absent, line_contribution. rewrite Hlq, Hlp, Hld. cbn [line_item]. fold item.
  cbn [material_cost_loop Py.get rbind]. fold item. rewrite Hq. cbn [rbind].
  destruct (is_marker_missing item) eqn:Hmiss; [reflexivity |].
  destruct q as [q|]; [| reflexivity].
  cbn [is_none orb].
  destruct (if Py.truthy (Py.dict_get d "DoseScaledFromFourPerDose" (PBool false))
            then true
            else Py.truthy (Py.dict_get d "IsDoseScaledFromFour" (PBool false)));
    rewrite Hprice; cbn [rbind]; destruct p as [p|]; cbn [is_none];
    try reflexivity.
  cbn [float_of_opt_int]. rewrite Hn. reflexivity.
Qed.

(** Lines that stop nothing add their contributions to the running sum. *)
Lemma material_cost_loop_front name_to_price front rest n fn : forall total,
  lines_pass name_to_price front = true ->
  Py.float_of_Z n = Ok fn ->
  material_cost_loop name_to_price (front ++ rest)%list (Some n) total
  = material_cost_loop name_to_price rest (Some n)
      (fold_left (fun t m => (t + line_contribution name_to_price fn m)%float) front total).
Proof.
  unfold lines_pass.
  induction front as [| m front IH]; intros total Hpass Hn; [reflexivity |].
  cbn [forallb existsb] in Hpass.
  apply andb_true_iff in Hpass as [Hwf Hnone].
  apply andb_true_iff in Hwf as [Hm Hwf].
  apply negb_true_iff, orb_false_iff in Hnone as [Hma Hnone].
  change ((m :: front) ++ rest)%list with (m :: (front ++ rest))%list.
  rewrite (material_cost_loop_step _ _ _ _ _ _ Hm Hn), Hma.
  cbn [fold_left]. apply IH; [| exact Hn].
  rewrite Hwf, Hnone. reflexivity.
Qed.

(** X22. [compute_material_cost] is all or nothing. After material lines
    of the data model that have a name, a readable quantity and a price, a
    line of the data model that lacks one of the three makes the cost absent
    whatever follows it, which is never read; when every line is such a line
    the cost is the sum, from 0.0 and in the order of the list, of (price /
    4) * N * quantity for a dose-scaled line and price * quantity for a
    normal one. *)
Theorem X22_material_cost_all_or_nothing name_to_price front recipe_type n fn :
  lines_pass name_to_price front = true ->
  Py.float_of_Z n = Ok fn ->
  (forall m back,
     line_well_formed m = true ->
     line_absent name_to_price m = true ->
     compute_material_cost name_to_price (front ++ m :: back)%list recipe_type (Some n)
     = Ok None)
  /\ compute_material_cost name_to_price front recipe_type (Some n)
     = Ok (Some (fold_left
                   (fun t m => (t + line_contribution name_to_price fn m)%float)
                   front 0%float)).
Proof.
  intros Hpass Hn. unfold compute_material_cost. split.
  - intros m back Hm Hma.
    rewrite (material_cost_loop_front _ _ _ _ _ _ Hpass Hn).
    rewrite (material_cost_loop_step _ _ _ _ _ _ Hm Hn), Hma. reflexivity.
  - rewrite <- (app_nil_r front) at 1.
    rewrite (material_cost_loop_front _ _ _ _ _ _ Hpass Hn). reflexivity.
Qed.

Lemma X22_witness :
  compute_material_cost example_index
    (priced_mats ++ [PDict [("ItemName", PStr "__MISSING__")]; PStr "no line"; PInt 7])%list
    (PStr "potion") (Some 3)
  = Ok None
  /\ compute_material_cost example_index priced_mats (PStr "potion") (Some 3)
     = Ok (Some 700%float)
  /\ compute_material_cost example_index
       [PDict [("ItemName", PStr "Tonic(4)"); ("Quantity", PInt 2);
               ("IsDoseScaledFromFour", PBool true)]]
       (PStr "potion") (Some 3)
     = Ok (Some 300%float).
Proof.
  split; [| split].
  - apply (proj1 (X22_material_cost_all_or_nothing example_index priced_mats
                    (PStr "potion") 3 3%float
                    ltac:(vm_compute; reflexivity) ltac:(vm_compute; reflexivity))).
    + reflexivity.
    + reflexivity.
  - rewrite (proj2 (X22_material_cost_all_or_nothing example_index priced_mats
                      (PStr "potion") 3 3%float
                      ltac:(vm_compute; reflexivity) ltac:(vm_compute; reflexivity))).
    vm_compute. reflexivity.
  - rewrite (proj2 (X22_material_cost_all_or_nothing example_index
                      [PDict [("ItemName", PStr "Tonic(4)"); ("Quantity", PInt 2);
                              ("IsDoseScaledFromFour", PBool true)]]
                      (PStr "potion") 3 3%float
                      ltac:(vm_compute; reflexivity) ltac:(vm_compute; reflexivity))).
    vm_compute. reflexivity.
Defined.
